(** * Sprint Summary Generator: a shallow embedding of [sprint_summary.py]

    The program reads five configuration values from the process
    environment, asks for a date range on standard input, issues two HTTP
    GET requests and prints a report.  The embedding below follows the
    source function by function.  Python values are modelled as the source
    has them: a [str] is a sequence of Unicode code points, a [datetime] is
    a record of calendar fields, a parsed JSON body is a tree, and the
    effects (environment, standard input, clock, network, standard output)
    are threaded through an explicit world with Python's exceptions as an
    error result. *)

From Stdlib Require Import ZArith List Ascii String Lia Bool.
From stdpp Require Import base option list gmap.

Local Open Scope Z_scope.
Set Warnings "-register-all".

(** ** Python strings *)

(** A Python [str] is a sequence of code points. *)
Definition char := Z.
Definition str := list char.

(** An ASCII literal of the source, as a [str]. *)
Definition lit (s : string) : str :=
  map (fun a => Z.of_nat (nat_of_ascii a)) (list_ascii_of_string s).

Definition str_eqb (a b : str) : bool := bool_decide (a = b).

Fixpoint drop_while {A} (p : A -> bool) (l : list A) : list A :=
  match l with
  | [] => []
  | x :: l' => if p x then drop_while p l' else l
  end.

(** What the interpreter knows about code points: the three character
    predicates of the Unicode database that the program reaches through
    [str.isdigit], [str.strip], [int] and the [\d] of [re], and the
    interpreter's limit on the number of digits [int] converts (0 switches
    the limit off; CPython's default is 4300). *)
Class PyRuntime := {
  unicode_isdigit : char -> bool;          (* Py_UNICODE_ISDIGIT *)
  unicode_todecimal : char -> option Z;    (* Py_UNICODE_TODECIMAL *)
  unicode_isspace : char -> bool;          (* Py_UNICODE_ISSPACE *)
  int_max_str_digits : nat;                (* sys.get_int_max_str_digits() *)
  repr_str : str -> str                    (* repr(s) of a str: quotes and escapes *)
}.

Definition ascii_isspace (c : char) : bool :=
  ((9 <=? c) && (c <=? 13)) || ((28 <=? c) && (c <=? 32)).

(** The properties of the Unicode database that the proofs rely on.  They
    hold of the real database; [latin1_runtime] below satisfies them. *)
Class PyRuntimeLaws (R : PyRuntime) : Prop := {
  todecimal_ascii : forall c, 0 <= c < 128 ->
    unicode_todecimal c = if (48 <=? c) && (c <=? 57) then Some (c - 48) else None;
  isdigit_ascii : forall c, 0 <= c < 128 ->
    unicode_isdigit c = (48 <=? c) && (c <=? 57);
  isspace_ascii : forall c, 0 <= c < 128 ->
    unicode_isspace c = ascii_isspace c;
  todecimal_range : forall c d, unicode_todecimal c = Some d -> 0 <= d <= 9;
  todecimal_isdigit : forall c d, unicode_todecimal c = Some d -> unicode_isdigit c = true;
  isdigit_not_space : forall c, unicode_isdigit c = true -> unicode_isspace c = false;
  max_str_digits_floor : int_max_str_digits = 0%nat \/ (640 <= int_max_str_digits)%nat
}.

(** The database restricted to Latin-1 (U+0000 to U+00FF), where it is
    exact: the decimal digits are 0-9, the further digits are the
    superscripts U+00B2, U+00B3 and U+00B9, and the white space is the
    ASCII white space, U+0085 and U+00A0.  Code points above U+00FF are
    classified as neither, and [repr] of a string is the string between
    single quotes, as it is for printable text without quotes or
    backslashes. *)
Definition latin1_runtime : PyRuntime := {|
  unicode_isdigit c :=
    ((48 <=? c) && (c <=? 57)) || (c =? 178) || (c =? 179) || (c =? 185);
  unicode_todecimal c :=
    if (48 <=? c) && (c <=? 57) then Some (c - 48) else None;
  unicode_isspace c := ascii_isspace c || (c =? 133) || (c =? 160);
  int_max_str_digits := 4300;
  repr_str s := [39] ++ s ++ [39]
|}.

Section Builtins.
Context {R : PyRuntime}.

(** [s.rstrip('/')], and in general [s.rstrip(c)] for one character. *)
Definition rstrip_char (c : char) (s : str) : str :=
  rev (drop_while (fun x => x =? c) (rev s)).

(** [s.strip()] *)
Definition strip (s : str) : str :=
  rev (drop_while unicode_isspace (rev (drop_while unicode_isspace s))).

(** [s.isdigit()]: at least one character, and all of them digits. *)
Definition isdigit (s : str) : bool :=
  match s with
  | [] => false
  | _ => forallb unicode_isdigit s
  end.

(** [s.split(sep)] for a one-character separator: never an empty list. *)
Fixpoint split (sep : char) (s : str) : list str :=
  match s with
  | [] => [[]]
  | c :: rest =>
      if c =? sep then [] :: split sep rest
      else match split sep rest with
           | seg :: segs => (c :: seg) :: segs
           | [] => [[c]]
           end
  end.

(** [l[-1]] on a non-empty list ([IndexError] otherwise). *)
Definition last_item {A} (l : list A) : option A := last l.

(** The digits of [int]'s argument after white space and sign: decimal
    characters, single underscores allowed between two of them.  [acc] is
    the value and [n] the number of digits read so far. *)
Fixpoint int_digits (acc : Z) (n : nat) (s : str) : option (Z * nat) :=
  match s with
  | [] => Some (acc, n)
  | c :: rest =>
      if c =? 95 then
        match rest with
        | d :: rest' =>
            match unicode_todecimal d with
            | Some v => int_digits (10 * acc + v) (S n) rest'
            | None => None
            end
        | [] => None
        end
      else
        match unicode_todecimal c with
        | Some v => int_digits (10 * acc + v) (S n) rest
        | None => None
        end
  end.

Definition int_isspace (c : char) : bool :=
  if c <? 127 then ((9 <=? c) && (c <=? 13)) || (c =? 32) else unicode_isspace c.

Definition int_body (s : str) : option (Z * nat) :=
  match s with
  | [] => None
  | c :: rest =>
      match unicode_todecimal c with
      | Some v => int_digits v 1 rest
      | None => None
      end
  end.

(** [int(s)] in base 10; [None] is [ValueError]. *)
Definition int_of_str (s : str) : option Z :=
  let t := rev (drop_while int_isspace (rev (drop_while int_isspace s))) in
  let '(sign, body) :=
    match t with
    | c :: b => if c =? 43 then (1, b) else if c =? 45 then (-1, b) else (1, t)
    | [] => (1, t)
    end in
  match int_body body with
  | Some (v, n) =>
      if negb (Nat.eqb int_max_str_digits 0) && (int_max_str_digits <? n)%nat
      then None
      else Some (sign * v)
  | None => None
  end.

(** The decimal text of a natural number, and of an integer ([str(n)]). *)
Fixpoint nat_digits (fuel : nat) (n : Z) (acc : str) : str :=
  match fuel with
  | O => acc
  | S fuel' =>
      let acc' := (48 + n mod 10) :: acc in
      if n <? 10 then acc' else nat_digits fuel' (n / 10) acc'
  end.

Definition str_of_Z (n : Z) : str :=
  if n <? 0 then 45 :: nat_digits (Z.to_nat (Z.log2 (- n) + 1)) (- n) []
  else nat_digits (Z.to_nat (Z.log2 n + 1)) n [].

(** [n] formatted with at least [w] digits, zero padded ([%04d], [%02d]). *)
Definition zero_pad (w : nat) (n : Z) : str :=
  let d := str_of_Z n in
  replicate (w - length d) 48 ++ d.

End Builtins.

(** ** Exceptions and results *)

(** The exceptions the program can meet.  A [RequestException] carries the
    text of the error ([str(e)]); [SystemExit] carries the exit status. *)
Inductive exn :=
| ValueError
| OverflowError
| EOFError
| KeyError (k : str)
| TypeError
| AttributeError
| RequestException (msg : str)
| SystemExit (code : Z)
| UnicodeEncodeError
| RecursionError.

Inductive result (A : Type) :=
| Ok (a : A)
| Raise (e : exn).
Arguments Ok {A} a.
Arguments Raise {A} e.

(** ** [datetime] *)

Record datetime := mk_datetime {
  year : Z; month : Z; day : Z;
  hour : Z; minute : Z; second : Z; microsecond : Z
}.

Definition MINYEAR := 1.
Definition MAXYEAR := 9999.
Definition MAXORDINAL := 3652059.   (* date.max.toordinal() *)

Definition is_leap (y : Z) : bool :=
  (y mod 4 =? 0) && (negb (y mod 100 =? 0) || (y mod 400 =? 0)).

(** Number of days before January 1st of year [y]. *)
Definition days_before_year (y : Z) : Z :=
  let y' := y - 1 in
  y' * 365 + y' / 4 - y' / 100 + y' / 400.

Definition DAYS_IN_MONTH (m : Z) : Z :=
  match m with
  | 1 => 31 | 2 => 28 | 3 => 31 | 4 => 30 | 5 => 31 | 6 => 30
  | 7 => 31 | 8 => 31 | 9 => 30 | 10 => 31 | 11 => 30 | 12 => 31
  | _ => -1
  end.

Definition DAYS_BEFORE_MONTH (m : Z) : Z :=
  match m with
  | 1 => 0 | 2 => 31 | 3 => 59 | 4 => 90 | 5 => 120 | 6 => 151
  | 7 => 181 | 8 => 212 | 9 => 243 | 10 => 273 | 11 => 304 | 12 => 334
  | _ => -1
  end.

Definition days_in_month (y m : Z) : Z :=
  if (m =? 2) && is_leap y then 29 else DAYS_IN_MONTH m.

Definition days_before_month (y m : Z) : Z :=
  DAYS_BEFORE_MONTH m + (if (2 <? m) && is_leap y then 1 else 0).

(** Ordinal of a date, 0001-01-01 being day 1. *)
Definition ymd2ord (y m d : Z) : Z :=
  days_before_year y + days_before_month y m + d.

Definition DI400Y := 146097.
Definition DI100Y := 36524.
Definition DI4Y := 1461.

(** The month and the day of day [n] (from 0) of a year: an estimate of
    the month, corrected when it is too large. *)
Definition month_day (leapyear : bool) (n : Z) : Z * Z :=
  let m := Z.shiftr (n + 50) 5 in
  let preceding := DAYS_BEFORE_MONTH m + (if (2 <? m) && leapyear then 1 else 0) in
  if n <? preceding then
    let m := m - 1 in
    let preceding :=
      preceding - (DAYS_IN_MONTH m + (if (m =? 2) && leapyear then 1 else 0)) in
    (m, n - preceding + 1)
  else (m, n - preceding + 1).

(** The date of an ordinal. *)
Definition ord2ymd (n : Z) : Z * Z * Z :=
  let n := n - 1 in
  let n400 := n / DI400Y in let n := n mod DI400Y in
  let y := n400 * 400 + 1 in
  let n100 := n / DI100Y in let n := n mod DI100Y in
  let n4 := n / DI4Y in let n := n mod DI4Y in
  let n1 := n / 365 in let n := n mod 365 in
  let y := y + n100 * 100 + n4 * 4 + n1 in
  if (n1 =? 4) || (n100 =? 4) then (y - 1, 12, 31)
  else
    let leapyear := (n1 =? 3) && (negb (n4 =? 24) || (n100 =? 3)) in
    let '(m, d) := month_day leapyear n in
    (y, m, d).

(** The checks of the [date] and [time] constructors. *)
Definition check_date_fields (y m d : Z) : bool :=
  (MINYEAR <=? y) && (y <=? MAXYEAR) && (1 <=? m) && (m <=? 12)
  && (1 <=? d) && (d <=? days_in_month y m).

Definition check_time_fields (h mi s us : Z) : bool :=
  (0 <=? h) && (h <=? 23) && (0 <=? mi) && (mi <=? 59)
  && (0 <=? s) && (s <=? 59) && (0 <=? us) && (us <=? 999999).

Definition valid_datetime (dt : datetime) : bool :=
  check_date_fields (year dt) (month dt) (day dt)
  && check_time_fields (hour dt) (minute dt) (second dt) (microsecond dt).

Definition toordinal (dt : datetime) : Z := ymd2ord (year dt) (month dt) (day dt).

(** A calendar date at midnight: what [strptime] builds for a format
    without time fields. *)
Definition midnight (y m d : Z) : datetime := mk_datetime y m d 0 0 0 0.

(** [timedelta(days=n)] for an [int]: the constructor's range check. *)
Definition timedelta_days (n : Z) : result Z :=
  if 999999999 <? Z.abs n then Raise OverflowError else Ok n.

(** [dt - delta] for a [delta] of whole days: the sum is formed on the
    ordinal and the seconds of the day, and has to be a date again. *)
Definition datetime_sub (dt : datetime) (delta_days : Z) : result datetime :=
  let days := toordinal dt - delta_days in
  let seconds := hour dt * 3600 + minute dt * 60 + second dt in
  let h := seconds / 3600 in
  let rem := seconds mod 3600 in
  if (0 <? days) && (days <=? MAXORDINAL) then
    let '(y, m, d) := ord2ymd days in
    Ok (mk_datetime y m d h (rem / 60) (rem mod 60) (microsecond dt))
  else Raise OverflowError.

Section Datetime.
Context {R : PyRuntime}.

(** [dt.strftime('%Y-%m-%d')].  The year is what the C library makes of
    [%Y]: its decimal digits without padding, so that a year below 1000
    has fewer than four; month and day are padded to two digits. *)
Definition strftime_ymd (dt : datetime) : str :=
  str_of_Z (year dt) ++ lit "-" ++ zero_pad 2 (month dt) ++ lit "-"
  ++ zero_pad 2 (day dt).

(** *** [datetime.strptime(s, '%Y-%m-%d')]

    The format compiles to the regular expression
    [(?P<Y>\d\d\d\d)-(?P<m>1[0-2]|0[1-9]|[1-9])-(?P<d>3[0-1]|[1-2]\d|0[1-9]|[1-9]| [1-9])],
    matched at the start of the string.  Each function below lists, in the
    order the alternatives are tried, the ways one group can match a prefix
    of the string: the matched text and the rest. *)

Definition is_decimal (c : char) : bool := bool_decide (is_Some (unicode_todecimal c)).   (* \d *)
Definition between (lo hi c : char) : bool := (lo <=? c) && (c <=? hi).

Definition group_Y (s : str) : list (str * str) :=
  match s with
  | a :: b :: c :: d :: rest =>
      if is_decimal a && is_decimal b && is_decimal c && is_decimal d
      then [([a; b; c; d], rest)] else []
  | _ => []
  end.

Definition two_chars (p q : char -> bool) (s : str) : list (str * str) :=
  match s with
  | a :: b :: rest => if p a && q b then [([a; b], rest)] else []
  | _ => []
  end.

Definition one_char (p : char -> bool) (s : str) : list (str * str) :=
  match s with
  | a :: rest => if p a then [([a], rest)] else []
  | _ => []
  end.

Definition group_m (s : str) : list (str * str) :=
  two_chars (Z.eqb 49) (between 48 50) s
  ++ two_chars (Z.eqb 48) (between 49 57) s
  ++ one_char (between 49 57) s.

Definition group_d (s : str) : list (str * str) :=
  two_chars (Z.eqb 51) (between 48 49) s
  ++ two_chars (between 49 50) is_decimal s
  ++ two_chars (Z.eqb 48) (between 49 57) s
  ++ one_char (between 49 57) s
  ++ two_chars (Z.eqb 32) (between 49 57) s.

Definition hyphen (s : str) : list str :=
  match s with
  | c :: rest => if c =? 45 then [rest] else []
  | [] => []
  end.

(** All matches of the whole expression in backtracking order; [re.match]
    returns the first. *)
Definition format_matches (s : str) : list (str * str * str * str) :=
  '(Y, r1) ← group_Y s;
  r2 ← hyphen r1;
  '(m, r3) ← group_m r2;
  r4 ← hyphen r3;
  '(d, r5) ← group_d r4;
  [(Y, m, d, r5)].

(** [None] is [ValueError]: no match, unconverted data after the match, a
    group that [int] rejects, or fields that are not a date. *)
Definition strptime_ymd (s : str) : option datetime :=
  match format_matches s with
  | (Y, m, d, []) :: _ =>
      y ← int_of_str Y;
      mo ← int_of_str m;
      da ← int_of_str d;
      if check_date_fields y mo da then Some (midnight y mo da) else None
  | _ => None
  end.

End Datetime.

(** ** Parsed JSON *)

(** What [response.json()] returns.  A [float] carries its text; the items
    of a [dict] are listed in insertion order. *)
Inductive json :=
| JNull
| JBool (b : bool)
| JInt (n : Z)
| JFloat (text : str)
| JStr (s : str)
| JArr (items : list json)
| JObj (fields : list (str * json)).

Fixpoint join_str (sep : str) (l : list str) : str :=
  match l with
  | [] => []
  | [x] => x
  | x :: rest => x ++ sep ++ join_str sep rest
  end.

Definition obj_lookup (k : str) (fields : list (str * json)) : option json :=
  snd <$> find (fun p => str_eqb (fst p) k) fields.

(** [d.get(k, default)]: an attribute of [dict] only. *)
Definition dict_get (d : json) (k : str) (default : json) : result json :=
  match d with
  | JObj fields =>
      match obj_lookup k fields with
      | Some v => Ok v
      | None => Ok default
      end
  | _ => Raise AttributeError
  end.

(** [v[k]] for a [str] key. *)
Definition subscript (v : json) (k : str) : result json :=
  match v with
  | JObj fields =>
      match obj_lookup k fields with
      | Some x => Ok x
      | None => Raise (KeyError k)
      end
  | _ => Raise TypeError
  end.

(** The values a [for] loop takes from [v]. *)
Definition iterate (v : json) : result (list json) :=
  match v with
  | JArr items => Ok items
  | JObj fields => Ok (map (fun p => JStr (fst p)) fields)
  | JStr s => Ok (map (fun c => JStr [c]) s)
  | _ => Raise TypeError
  end.

Section Formatting.
Context {R : PyRuntime}.

(** [repr(v)] *)
Fixpoint py_repr (v : json) : str :=
  match v with
  | JNull => lit "None"
  | JBool true => lit "True"
  | JBool false => lit "False"
  | JInt n => str_of_Z n
  | JFloat text => text
  | JStr s => repr_str s
  | JArr items => lit "[" ++ join_str (lit ", ") (map py_repr items) ++ lit "]"
  | JObj fields =>
      lit "{"
      ++ join_str (lit ", ")
           (map (fun p => match p with
                          | (k, x) => repr_str k ++ lit ": " ++ py_repr x
                          end) fields)
      ++ lit "}"
  end.

(** [str(v)], which is what [{v}] in an f-string inserts. *)
Definition py_str (v : json) : str :=
  match v with
  | JStr s => s
  | _ => py_repr v
  end.

(** [{o}] in an f-string for a value that is a [str] or [None]. *)
Definition fmt_opt (o : option str) : str :=
  match o with
  | Some s => s
  | None => lit "None"
  end.

End Formatting.

(** ** The world: environment, console, clock and network *)

(** A GET request as [requests.get] receives it.  [None] in [req_auth] and
    [req_headers] is an omitted argument; [auth] is the pair handed to
    [HTTPBasicAuth]. *)
Record request := mk_request {
  req_url : str;
  req_auth : option (option str * option str);
  req_headers : option (list (str * str));
  req_params : list (str * json)
}.

(** The body of a response: JSON; text that [response.json()] rejects
    with the decoder's message; or text on which the decoder fails in
    another way, with an integer of more digits than [int] converts
    ([ValueError]) or with brackets nested too deep ([RecursionError]). *)
Inductive body :=
| Json (v : json)
| NotJson (err : str)
| DigitsBeyondLimit
| NestedTooDeep.

Record response := mk_response {
  status_code : Z;
  reason : str;
  resp_url : str;
  resp_body : body
}.

(** What a GET comes to: a response; a transport error (connection
    failure, timeout, too many redirects), which [requests] raises as a
    [RequestException] with this text; or a request that cannot be put on
    the wire (credentials or a header value outside Latin-1, text that
    holds a lone surrogate), on which [requests.get] raises
    [UnicodeEncodeError]. *)
Inductive http_result :=
| Responded (r : response)
| Failed (err : str)
| Unsendable.

(** What a run does, in order.  [Validated] marks the point where
    [validate_config] has made up its list of missing variables. *)
Inductive event :=
| Print (text : str)
| Input (prompt : str) (line : option str)
| Validated (missing : list str)
| HttpGet (req : request).

(** [environ] is the process environment once [load_dotenv()] has run at
    import; [stdin] is the lines still to be read, without their newline;
    [clock] gives the successive readings of [datetime.now()]; [network] is
    what each GET will come to. *)
Record world := mk_world {
  environ : gmap str str;
  stdin : list str;
  clock : nat -> datetime;
  ticks : nat;
  network : request -> http_result;
  trace : list event
}.

Definition M (A : Type) : Type := world -> result A * world.

Definition ret {A} (a : A) : M A := fun w => (Ok a, w).
Definition raise {A} (e : exn) : M A := fun w => (Raise e, w).
Definition bind {A B} (m : M A) (k : A -> M B) : M B :=
  fun w => match m w with
           | (Ok a, w') => k a w'
           | (Raise e, w') => (Raise e, w')
           end.

Declare Scope py_scope.
Delimit Scope py_scope with py.
Notation "x <- m ;; k" := (bind m (fun x => k))
  (at level 100, m at next level, right associativity) : py_scope.
Notation "m ;; k" := (bind m (fun _ => k))
  (at level 100, right associativity) : py_scope.
Local Open Scope py_scope.

(** A pure computation that may raise. *)
Definition lift {A} (r : result A) : M A := fun w => (r, w).

Definition result_bind {A B} (r : result A) (k : A -> result B) : result B :=
  match r with
  | Ok a => k a
  | Raise e => Raise e
  end.

(** [for x in l: out.append(f(x))] *)
Fixpoint result_map {A B} (f : A -> result B) (l : list A) : result (list B) :=
  match l with
  | [] => Ok []
  | x :: rest =>
      result_bind (f x) (fun y =>
      result_bind (result_map f rest) (fun ys => Ok (y :: ys)))
  end.

(** [try: body except ...: handler]; the handler is [None] on the
    exceptions the clause does not catch. *)
Definition try_except {A} (body : M A) (handler : exn -> option (M A)) : M A :=
  fun w => match body w with
           | (Ok a, w') => (Ok a, w')
           | (Raise e, w') =>
               match handler e with
               | Some h => h w'
               | None => (Raise e, w')
               end
           end.

(** [for x in l: body(x)] *)
Fixpoint for_each {A} (l : list A) (body : A -> M unit) : M unit :=
  match l with
  | [] => ret tt
  | x :: rest => body x ;; for_each rest body
  end.

(** The world after some more events. *)
Definition emit (w : world) (evs : list event) : world :=
  mk_world (environ w) (stdin w) (clock w) (ticks w) (network w) (trace w ++ evs).

Definition log (e : event) : M unit := fun w => (Ok tt, emit w [e]).

(** [print(text)], on a standard output that encodes the text (see
    [encodable] below). *)
Definition print (text : str) : M unit := log (Print text).

(** The world with the first line of standard input read. *)
Definition consume (w : world) : world :=
  mk_world (environ w) (tail (stdin w)) (clock w) (ticks w) (network w) (trace w).

(** [input(prompt)]: [EOFError] when standard input is exhausted. *)
Definition input (prompt : str) : M str :=
  fun w => match stdin w with
           | [] => (log (Input prompt None) ;; raise EOFError) w
           | line :: _ => (Ok line, emit (consume w) [Input prompt (Some line)])
           end.

(** [datetime.now()] *)
Definition now : M datetime :=
  fun w => (Ok (clock w (ticks w)),
            mk_world (environ w) (stdin w) (clock w) (S (ticks w)) (network w) (trace w)).

(** The world with the clock read once more. *)
Definition tick (w : world) : world :=
  mk_world (environ w) (stdin w) (clock w) (S (ticks w)) (network w) (trace w).

(** [os.getenv(name)] and [os.getenv(name, default)] *)
Definition getenv (name : str) : M (option str) :=
  fun w => (Ok (environ w !! name), w).

Definition getenv_default (name default : str) : M str :=
  fun w => (Ok (match environ w !! name with Some v => v | None => default end), w).

Definition sys_exit {A} (code : Z) : M A := raise (SystemExit code).

(** [requests.get(url, auth=..., headers=..., params=...)] *)
Definition requests_get (req : request) : M response :=
  log (HttpGet req) ;;
  fun w => match network w req with
           | Responded r => (Ok r, w)
           | Failed err => (Raise (RequestException err), w)
           | Unsendable => (Raise UnicodeEncodeError, w)
           end.

Section Requests.
Context {R : PyRuntime}.

(** [response.raise_for_status()]: an [HTTPError] for the 4xx and 5xx
    statuses, nothing otherwise. *)
Definition raise_for_status (r : response) : result unit :=
  if (400 <=? status_code r) && (status_code r <? 500) then
    Raise (RequestException
             (str_of_Z (status_code r) ++ lit " Client Error: " ++ reason r
              ++ lit " for url: " ++ resp_url r))
  else if (500 <=? status_code r) && (status_code r <? 600) then
    Raise (RequestException
             (str_of_Z (status_code r) ++ lit " Server Error: " ++ reason r
              ++ lit " for url: " ++ resp_url r))
  else Ok tt.

(** [response.json()]: a body that is not JSON raises
    [requests.exceptions.JSONDecodeError], a [RequestException]; the
    other failures of the decoder pass through as they are. *)
Definition response_json (r : response) : result json :=
  match resp_body r with
  | Json v => Ok v
  | NotJson err => Raise (RequestException err)
  | DigitsBeyondLimit => Raise ValueError
  | NestedTooDeep => Raise RecursionError
  end.

End Requests.

(** ** The program *)

Section Program.
Context {R : PyRuntime}.

(** *** class [SprintSummary] *)

Record SprintSummary := mk_SprintSummary {
  jira_url : str;
  jira_email : option str;
  jira_token : option str;
  github_token : option str;
  github_username : option str;
  start_date : datetime;
  end_date : datetime
}.

(** Truth value of a [str], and of a value that is a [str] or [None]. *)
Definition truthy (s : str) : bool :=
  match s with
  | [] => false
  | _ => true
  end.

Definition truthy_opt (o : option str) : bool :=
  match o with
  | Some s => truthy s
  | None => false
  end.

(** [missing.append(name)] under [if not value:] *)
Definition append_if_not (value : bool) (name : string) (missing : list str) : list str :=
  if negb value then missing ++ [lit name] else missing.

Definition missing_variables (self : SprintSummary) : list str :=
  let missing := [] in
  let missing := append_if_not (truthy (jira_url self)) "JIRA_URL" missing in
  let missing := append_if_not (truthy_opt (jira_email self)) "JIRA_EMAIL" missing in
  let missing := append_if_not (truthy_opt (jira_token self)) "JIRA_API_TOKEN" missing in
  let missing := append_if_not (truthy_opt (github_token self)) "GITHUB_TOKEN" missing in
  let missing := append_if_not (truthy_opt (github_username self)) "GITHUB_USERNAME" missing in
  missing.

Definition validate_config (self : SprintSummary) : M unit :=
  let missing := missing_variables self in
  log (Validated missing) ;;
  match missing with
  | _ :: _ =>
      print ([10060] ++ lit " Missing required environment variables:") ;;
      for_each missing (fun var => print (lit "   - " ++ var)) ;;
      print ([10] ++ lit "Please set these variables and try again.") ;;
      sys_exit 1
  | [] => ret tt
  end.

(** [SprintSummary(start_date, end_date)] *)
Definition init (start_date end_date : datetime) : M SprintSummary :=
  jira_url <- getenv_default (lit "JIRA_URL") [] ;;
  jira_email <- getenv (lit "JIRA_EMAIL") ;;
  jira_token <- getenv (lit "JIRA_API_TOKEN") ;;
  github_token <- getenv (lit "GITHUB_TOKEN") ;;
  github_username <- getenv (lit "GITHUB_USERNAME") ;;
  let self := mk_SprintSummary (rstrip_char 47 jira_url) jira_email jira_token
                               github_token github_username start_date end_date in
  validate_config self ;;
  ret self.

(** The dictionaries the two fetches build. *)
Record ticket := mk_ticket {
  ticket_key : json;
  ticket_summary : json;
  ticket_status : json;
  ticket_url : str
}.

Record pull_request := mk_pull_request {
  pr_number : json;
  pr_title : json;
  pr_repo : str;
  pr_state : json;
  pr_url : json;
  pr_updated : json
}.

Definition ticket_of_issue (self : SprintSummary) (issue : json) : result ticket :=
  result_bind (subscript issue (lit "key")) (fun key =>
  result_bind (subscript issue (lit "fields")) (fun fields =>
  result_bind (subscript fields (lit "summary")) (fun summary =>
  result_bind (subscript issue (lit "fields")) (fun fields' =>
  result_bind (subscript fields' (lit "status")) (fun status =>
  result_bind (subscript status (lit "name")) (fun name =>
  result_bind (subscript issue (lit "key")) (fun key' =>
  Ok (mk_ticket key summary name
        (jira_url self ++ lit "/browse/" ++ py_str key'))))))))).

Definition jira_request (self : SprintSummary) : request :=
  let start_str := strftime_ymd (start_date self) in
  let end_str := strftime_ymd (end_date self) in
  let jql :=
    lit "assignee = currentUser() AND status = Done AND updated >= " ++ [34]
    ++ start_str ++ [34] ++ lit " AND updated <= " ++ [34] ++ end_str ++ [34] in
  let url := jira_url self ++ lit "/rest/api/3/search/jql" in
  let auth := (jira_email self, jira_token self) in
  let params := [ (lit "jql", JStr jql);
                  (lit "fields", JStr (lit "summary,status,key,updated"));
                  (lit "maxResults", JInt 100) ] in
  mk_request url (Some auth) None params.

Definition get_completed_jira_tickets (self : SprintSummary) : M (list ticket) :=
  try_except
    (response <- requests_get (jira_request self) ;;
     lift (raise_for_status response) ;;
     data <- lift (response_json response) ;;
     issues <- lift (result_bind (dict_get data (lit "issues") (JArr [])) iterate) ;;
     tickets <- lift (result_map (ticket_of_issue self) issues) ;;
     ret tickets)
    (fun e => match e with
              | RequestException msg =>
                  Some (print ([10060] ++ lit " Error fetching JIRA tickets: " ++ msg) ;;
                        ret [])
              | _ => None
              end).

(** [item['repository_url'].split('/')[-1]] *)
Definition repo_of (repository_url : json) : result str :=
  match repository_url with
  | JStr s =>
      match last_item (split 47 s) with
      | Some seg => Ok seg
      | None => Raise TypeError
      end
  | _ => Raise AttributeError
  end.

Definition pr_of_item (item : json) : result pull_request :=
  result_bind (subscript item (lit "number")) (fun number =>
  result_bind (subscript item (lit "title")) (fun title =>
  result_bind (subscript item (lit "repository_url")) (fun repository_url =>
  result_bind (repo_of repository_url) (fun repo =>
  result_bind (subscript item (lit "state")) (fun state =>
  result_bind (subscript item (lit "html_url")) (fun html_url =>
  result_bind (subscript item (lit "updated_at")) (fun updated_at =>
  Ok (mk_pull_request number title repo state html_url updated_at)))))))).

Definition github_request (self : SprintSummary) : request :=
  let start_str := strftime_ymd (start_date self) in
  let end_str := strftime_ymd (end_date self) in
  let query :=
    lit "is:pr reviewed-by:" ++ fmt_opt (github_username self) ++ lit " updated:"
    ++ start_str ++ lit ".." ++ end_str in
  let url := lit "https://api.github.com/search/issues" in
  let headers := [ (lit "Authorization", lit "token " ++ fmt_opt (github_token self));
                   (lit "Accept", lit "application/vnd.github.v3+json") ] in
  let params := [ (lit "q", JStr query);
                  (lit "sort", JStr (lit "updated"));
                  (lit "order", JStr (lit "desc"));
                  (lit "per_page", JInt 100) ] in
  mk_request url None (Some headers) params.

Definition get_github_pr_reviews (self : SprintSummary) : M (list pull_request) :=
  try_except
    (response <- requests_get (github_request self) ;;
     lift (raise_for_status response) ;;
     data <- lift (response_json response) ;;
     items <- lift (result_bind (dict_get data (lit "items") (JArr [])) iterate) ;;
     prs <- lift (result_map pr_of_item items) ;;
     ret prs)
    (fun e => match e with
              | RequestException msg =>
                  Some (print ([10060] ++ lit " Error fetching GitHub PR reviews: " ++ msg) ;;
                        ret [])
              | _ => None
              end).

(** [str(len(l))] *)
Definition len_str {A} (l : list A) : str := str_of_Z (Z.of_nat (length l)).

Definition print_summary (self : SprintSummary) : M unit :=
  let start_str := strftime_ymd (start_date self) in
  let end_str := strftime_ymd (end_date self) in
  print (replicate 60 61) ;;
  print ([128202] ++ lit " SPRINT SUMMARY") ;;
  print ([128197] ++ lit " Date Range: " ++ start_str ++ lit " to " ++ end_str) ;;
  print (replicate 60 61) ;;
  print [] ;;
  print ([9989] ++ lit " COMPLETED JIRA TICKETS") ;;
  print (replicate 60 45) ;;
  tickets <- get_completed_jira_tickets self ;;
  match tickets with
  | _ :: _ =>
      for_each tickets (fun ticket =>
        print (py_str (ticket_key ticket) ++ lit ": " ++ py_str (ticket_summary ticket)) ;;
        print (lit "   " ++ ticket_url ticket) ;;
        print []) ;;
      print (lit "Total: " ++ len_str tickets ++ lit " ticket(s)")
  | [] => print (lit "No completed tickets found in date range.")
  end ;;
  print [] ;;
  print (replicate 60 61) ;;
  print [] ;;
  print ([128064] ++ lit " GITHUB PR REVIEWS") ;;
  print (replicate 60 45) ;;
  prs <- get_github_pr_reviews self ;;
  match prs with
  | _ :: _ =>
      for_each prs (fun pr =>
        let state_emoji :=
          match pr_state pr with
          | JStr s => if str_eqb s (lit "closed") then [9989] else [128260]
          | _ => [128260]
          end in
        print (state_emoji ++ lit " [" ++ pr_repo pr ++ lit "] #" ++ py_str (pr_number pr)
               ++ lit ": " ++ py_str (pr_title pr)) ;;
        print (lit "   " ++ py_str (pr_url pr)) ;;
        print []) ;;
      print (lit "Total: " ++ len_str prs ++ lit " PR(s) reviewed")
  | [] => print (lit "No PR reviews found in date range.")
  end ;;
  print [] ;;
  print (replicate 60 61).

Definition print_concise_summary (self : SprintSummary) : M unit :=
  print (lit "Completed JIRA Tickets:") ;;
  tickets <- get_completed_jira_tickets self ;;
  match tickets with
  | _ :: _ =>
      for_each tickets (fun ticket =>
        print (py_str (ticket_key ticket) ++ lit ": " ++ py_str (ticket_summary ticket)
               ++ lit " - " ++ ticket_url ticket))
  | [] => print (lit "None")
  end ;;
  print [] ;;
  print (lit "GitHub PR Reviews:") ;;
  prs <- get_github_pr_reviews self ;;
  match prs with
  | _ :: _ =>
      for_each prs (fun pr =>
        print (pr_repo pr ++ lit " #" ++ py_str (pr_number pr) ++ lit ": "
               ++ py_str (pr_title pr) ++ lit " - " ++ py_str (pr_url pr)))
  | [] => print (lit "None")
  end.

(** *** The date prompts *)

(** [while True:] around a body that reads one line of standard input in
    every round: [None] from the body is another round, [Some v] is
    [return v].  The lines still to be read bound the number of rounds; the
    body's read raises [EOFError] when none is left. *)
Fixpoint while_reading {A} (rounds : nat) (body : M (option A)) : M A :=
  match rounds with
  | O => raise EOFError
  | S rounds' =>
      r <- body ;;
      match r with
      | Some v => ret v
      | None => while_reading rounds' body
      end
  end.

Definition while_true {A} (body : M (option A)) : M A :=
  fun w => while_reading (S (length (stdin w))) body w.

Definition start_prompt : str :=
  lit "Start date (YYYY-MM-DD) or days back (e.g., '14'): ".

(** One round of the loop of [get_start_date]. *)
Definition start_date_round : M (option datetime) :=
  line <- input start_prompt ;;
  let date_input := strip line in
  if isdigit date_input then
    days_back <- lift (match int_of_str date_input with
                       | Some n => Ok n
                       | None => Raise ValueError
                       end) ;;
    t <- now ;;
    delta <- lift (timedelta_days days_back) ;;
    start_date <- lift (datetime_sub t delta) ;;
    print (lit "Using start date: " ++ strftime_ymd start_date) ;;
    print [] ;;
    ret (Some start_date)
  else
    match strptime_ymd date_input with
    | Some start_date =>
        print (lit "Using start date: " ++ strftime_ymd start_date) ;;
        print [] ;;
        ret (Some start_date)
    | None =>
        print (lit "Invalid format. Please use YYYY-MM-DD or enter number of days back.") ;;
        print [] ;;
        ret None
    end.

Definition get_start_date : M datetime :=
  print ([128197] ++ lit " Enter the sprint start date") ;;
  print [] ;;
  while_true start_date_round.

Definition end_prompt : str :=
  lit "End date (YYYY-MM-DD) or press Enter for today: ".

(** One round of the loop of [get_end_date]. *)
Definition end_date_round : M (option datetime) :=
  line <- input end_prompt ;;
  let date_input := strip line in
  if negb (truthy date_input) then
    end_date <- now ;;
    print (lit "Using end date: " ++ strftime_ymd end_date) ;;
    print [] ;;
    ret (Some end_date)
  else
    match strptime_ymd date_input with
    | Some end_date =>
        print (lit "Using end date: " ++ strftime_ymd end_date) ;;
        print [] ;;
        ret (Some end_date)
    | None =>
        print (lit "Invalid format. Please use YYYY-MM-DD or press Enter for today.") ;;
        print [] ;;
        ret None
    end.

Definition get_end_date : M datetime :=
  print ([128197] ++ lit " Enter the sprint end date") ;;
  print [] ;;
  while_true end_date_round.

(** *** [main]

    [concise] is [args.concise], the flag [argparse] read from the command
    line. *)
Definition main (concise : bool) : M unit :=
  start_date <- get_start_date ;;
  end_date <- get_end_date ;;
  summary <- init start_date end_date ;;
  if concise then print_concise_summary summary
  else print_summary summary.

(** The exit status of the process: 0 when [main] returns, the status of a
    [SystemExit], 1 for any other exception that nothing caught. *)
Definition exit_status (r : result unit) : Z :=
  match r with
  | Ok _ => 0
  | Raise (SystemExit code) => code
  | Raise _ => 1
  end.

Definition run (concise : bool) (w : world) : Z * list event :=
  let '(r, w') := main concise w in (exit_status r, trace w').

End Program.

(** ** Vocabulary for the properties *)

Definition is_print (e : event) : bool :=
  match e with Print _ => true | _ => false end.
Definition is_input (e : event) : bool :=
  match e with Input _ _ => true | _ => false end.




(** A computation leaves the environment, the clock and the network as
    they are and adds events of kind [p] only. *)
Definition adds_only {A} (p : event -> bool) (m : M A) : Prop :=
  forall w r w', m w = (r, w') ->
    environ w' = environ w /\ network w' = network w /\ clock w' = clock w
    /\ exists evs, trace w' = trace w ++ evs /\ forallb p evs = true.

Definition is_console (e : event) : bool := is_print e || is_input e.

(** The check that [month_day] inverts [days_before_month] on day [n] of
    a year, run on every day of a year. *)
Definition month_day_check (leapyear : bool) (n : Z) : bool :=
  let '(m, d) := month_day leapyear n in
  (1 <=? m) && (m <=? 12) && (1 <=? d)
  && (d <=? DAYS_IN_MONTH m + (if (m =? 2) && leapyear then 1 else 0))
  && (DAYS_BEFORE_MONTH m + (if (2 <? m) && leapyear then 1 else 0) + d =? n + 1).

(** The five required variables, in the order [validate_config] checks
    them. *)
Definition required_variables : list str :=
  [lit "JIRA_URL"; lit "JIRA_EMAIL"; lit "JIRA_API_TOKEN"; lit "GITHUB_TOKEN";
   lit "GITHUB_USERNAME"].

(** A variable is missing or empty in the environment. *)
Definition unset_or_empty (env : gmap str str) (name : str) : bool :=
  match env !! name with
  | Some (_ :: _) => false
  | _ => true
  end.

(** The base URL is given but holds nothing except slashes. *)
Definition only_slashes (env : gmap str str) : bool :=
  match env !! lit "JIRA_URL" with
  | Some s => forallb (fun x => x =? 47) s
  | None => true
  end.

(** What the program counts as missing: the base URL is looked at after
    its trailing slashes are gone. *)
Definition counts_as_missing (env : gmap str str) (name : str) : bool :=
  if str_eqb name (lit "JIRA_URL") then only_slashes env else unset_or_empty env name.

(** The listing [validate_config] prints for a list of names. *)
Definition listing (missing : list str) : list event :=
  [Print ([10060] ++ lit " Missing required environment variables:")]
  ++ map (fun var => Print (lit "   - " ++ var)) missing
  ++ [Print ([10] ++ lit "Please set these variables and try again.")].

(** A fetch fails: a transport error, or a status that
    [raise_for_status] turns into an [HTTPError]. *)
Definition fetch_fails (res : http_result) : bool :=
  match res with
  | Failed _ => true
  | Responded r => (400 <=? status_code r) && (status_code r <? 600)
  | Unsendable => false
  end.

(** A response outside the 2xx range. *)
Definition non_2xx (r : response) : bool :=
  negb ((200 <=? status_code r) && (status_code r <? 300)).

Section Vocabulary.
Context {R : PyRuntime}.

(** The text of the error of a failed fetch. *)
Definition error_text (res : http_result) : str :=
  match res with
  | Failed err => err
  | Responded r =>
      match raise_for_status r with
      | Raise (RequestException msg) => msg
      | _ => []
      end
  | Unsendable => []
  end.

(** The records a response yields once it has arrived: the part of each
    fetch between [requests.get] and [return]. *)
Definition tickets_of_response (self : SprintSummary) (r : response) : result (list ticket) :=
  result_bind (raise_for_status r) (fun _ =>
  result_bind (response_json r) (fun data =>
  result_bind (result_bind (dict_get data (lit "issues") (JArr [])) iterate) (fun issues =>
  result_map (ticket_of_issue self) issues))).

Definition prs_of_response (r : response) : result (list pull_request) :=
  result_bind (raise_for_status r) (fun _ =>
  result_bind (response_json r) (fun data =>
  result_bind (result_bind (dict_get data (lit "items") (JArr [])) iterate) (fun items =>
  result_map pr_of_item items))).

(** The diagnostic lines of the two fetches. *)
Definition jira_diagnostic (msg : str) : event :=
  Print ([10060] ++ lit " Error fetching JIRA tickets: " ++ msg).

Definition github_diagnostic (msg : str) : event :=
  Print ([10060] ++ lit " Error fetching GitHub PR reviews: " ++ msg).

(** The object the constructor builds in an environment. *)
Definition config_of (env : gmap str str) (start_date end_date : datetime) : SprintSummary :=
  mk_SprintSummary
    (rstrip_char 47 (match env !! lit "JIRA_URL" with Some v => v | None => [] end))
    (env !! lit "JIRA_EMAIL") (env !! lit "JIRA_API_TOKEN")
    (env !! lit "GITHUB_TOKEN") (env !! lit "GITHUB_USERNAME")
    start_date end_date.

(** What a fetch returns and which diagnostic it prints, given what its
    GET came to. *)
Definition outcome {A} (diagnostic : str -> event) (records : response -> result (list A))
    (res : http_result) : result (list A) * list event :=
  match res with
  | Failed err => (Ok [], [diagnostic err])
  | Responded r =>
      match records r with
      | Ok l => (Ok l, [])
      | Raise (RequestException msg) => (Ok [], [diagnostic msg])
      | Raise e => (Raise e, [])
      end
  | Unsendable => (Raise UnicodeEncodeError, [])
  end.

Definition jira_outcome (self : SprintSummary) (w : world) :=
  outcome jira_diagnostic (tickets_of_response self) (network w (jira_request self)).

Definition github_outcome (self : SprintSummary) (w : world) :=
  outcome github_diagnostic prs_of_response (network w (github_request self)).

(** The lines of the two prompts. *)
Definition start_header : list event :=
  [Print ([128197] ++ lit " Enter the sprint start date"); Print []].

Definition end_header : list event :=
  [Print ([128197] ++ lit " Enter the sprint end date"); Print []].

Definition using_start (d : datetime) : list event :=
  [Print (lit "Using start date: " ++ strftime_ymd d); Print []].

Definition using_end (d : datetime) : list event :=
  [Print (lit "Using end date: " ++ strftime_ymd d); Print []].

Definition invalid_start : list event :=
  [Print (lit "Invalid format. Please use YYYY-MM-DD or enter number of days back.");
   Print []].

Definition invalid_end : list event :=
  [Print (lit "Invalid format. Please use YYYY-MM-DD or press Enter for today.");
   Print []].

(** The lines of the full report, section by section. *)
Definition full_header (self : SprintSummary) : list event :=
  [ Print (replicate 60 61);
    Print ([128202] ++ lit " SPRINT SUMMARY");
    Print ([128197] ++ lit " Date Range: " ++ strftime_ymd (start_date self)
           ++ lit " to " ++ strftime_ymd (end_date self));
    Print (replicate 60 61);
    Print [];
    Print ([9989] ++ lit " COMPLETED JIRA TICKETS");
    Print (replicate 60 45) ].

Definition full_ticket_lines (t : ticket) : list event :=
  [ Print (py_str (ticket_key t) ++ lit ": " ++ py_str (ticket_summary t));
    Print (lit "   " ++ ticket_url t);
    Print [] ].

Definition full_ticket_section (tickets : list ticket) : list event :=
  match tickets with
  | [] => [Print (lit "No completed tickets found in date range.")]
  | _ => flat_map full_ticket_lines tickets
         ++ [Print (lit "Total: " ++ len_str tickets ++ lit " ticket(s)")]
  end.

Definition full_pr_header : list event :=
  [ Print []; Print (replicate 60 61); Print [];
    Print ([128064] ++ lit " GITHUB PR REVIEWS");
    Print (replicate 60 45) ].

Definition full_pr_lines (pr : pull_request) : list event :=
  [ Print ((match pr_state pr with
            | JStr s => if str_eqb s (lit "closed") then [9989] else [128260]
            | _ => [128260]
            end)
           ++ lit " [" ++ pr_repo pr ++ lit "] #" ++ py_str (pr_number pr)
           ++ lit ": " ++ py_str (pr_title pr));
    Print (lit "   " ++ py_str (pr_url pr));
    Print [] ].

Definition full_pr_section (prs : list pull_request) : list event :=
  match prs with
  | [] => [Print (lit "No PR reviews found in date range.")]
  | _ => flat_map full_pr_lines prs
         ++ [Print (lit "Total: " ++ len_str prs ++ lit " PR(s) reviewed")]
  end.

Definition full_footer : list event := [Print []; Print (replicate 60 61)].

(** The lines of the concise report. *)
Definition concise_ticket_section (tickets : list ticket) : list event :=
  match tickets with
  | [] => [Print (lit "None")]
  | _ => map (fun t => Print (py_str (ticket_key t) ++ lit ": " ++ py_str (ticket_summary t)
                               ++ lit " - " ++ ticket_url t)) tickets
  end.

Definition concise_pr_section (prs : list pull_request) : list event :=
  match prs with
  | [] => [Print (lit "None")]
  | _ => map (fun pr => Print (pr_repo pr ++ lit " #" ++ py_str (pr_number pr) ++ lit ": "
                                ++ py_str (pr_title pr) ++ lit " - " ++ py_str (pr_url pr))) prs
  end.

(** The value of a string of decimal digits. *)
Definition decimal_value (s : str) : option Z :=
  match s with
  | [] => None
  | _ => foldl (fun acc c => a ← acc; d ← unicode_todecimal c; Some (10 * a + d))
               (Some 0) s
  end.

(** One step of [decimal_value]. *)
Definition digit_step (acc : option Z) (c : char) : option Z :=
  a ← acc; d ← unicode_todecimal c; Some (10 * a + d).

(** The date a string of the shape [YYYY-MM-DD] names: four, two and two
    ASCII digits between hyphens that form a calendar date (of the years 1
    to 9999), taken at midnight.  [None] for any other string. *)
Definition parse_YYYY_MM_DD (s : str) : option datetime :=
  match s with
  | [y1; y2; y3; y4; h1; m1; m2; h2; d1; d2] =>
      let y := 1000 * (y1 - 48) + 100 * (y2 - 48) + 10 * (y3 - 48) + (y4 - 48) in
      let m := 10 * (m1 - 48) + (m2 - 48) in
      let d := 10 * (d1 - 48) + (d2 - 48) in
      if forallb (between 48 57) [y1; y2; y3; y4; m1; m2; d1; d2]
         && (h1 =? 45) && (h2 =? 45) && check_date_fields y m d
      then Some (midnight y m d) else None
  | _ => None
  end.

Definition matches_YYYY_MM_DD (s : str) : bool :=
  bool_decide (is_Some (parse_YYYY_MM_DD s)).

(** The number of digits of a string is within the limit of [int]. *)
Definition within_digit_limit (s : str) : Prop :=
  int_max_str_digits = 0%nat \/ (length s <= int_max_str_digits)%nat.

(** The issue a ticket is made from, and the item a pull request is made
    from, as the specification describes the two mappings. *)
Definition ticket_from (base : str) (issue : json) (t : ticket) : Prop :=
  exists key fields summary status name,
    subscript issue (lit "key") = Ok (JStr key)
    /\ subscript issue (lit "fields") = Ok fields
    /\ subscript fields (lit "summary") = Ok summary
    /\ subscript fields (lit "status") = Ok status
    /\ subscript status (lit "name") = Ok name
    /\ t = mk_ticket (JStr key) summary name (base ++ lit "/browse/" ++ key).

(** The last path segment of a URL: what follows its last slash. *)
Definition last_segment_of (u seg : str) : Prop :=
  (u = seg \/ exists front, u = front ++ [47] ++ seg) /\ 47 ∉ seg.

Definition pull_request_from (item : json) (p : pull_request) : Prop :=
  exists number title repository_url state html_url updated_at,
    subscript item (lit "number") = Ok number
    /\ subscript item (lit "title") = Ok title
    /\ subscript item (lit "repository_url") = Ok (JStr repository_url)
    /\ subscript item (lit "state") = Ok state
    /\ subscript item (lit "html_url") = Ok html_url
    /\ subscript item (lit "updated_at") = Ok updated_at
    /\ last_segment_of repository_url (pr_repo p)
    /\ p = mk_pull_request number title (pr_repo p) state html_url updated_at.

(** Where an exception that a fetch raises comes from, given what its
    GET came to: from [requests.get], which could not encode the request;
    from [response.json()], on a body the decoder fails on without a
    [JSONDecodeError]; or from the loop over a decoded body that is not
    built as expected. *)
Definition raised_by (res : http_result) (x : exn) : Prop :=
  (res = Unsendable /\ x = UnicodeEncodeError)
  \/ (exists r, res = Responded r /\ resp_body r = DigitsBeyondLimit /\ x = ValueError)
  \/ (exists r, res = Responded r /\ resp_body r = NestedTooDeep /\ x = RecursionError)
  \/ (exists r v, res = Responded r /\ resp_body r = Json v
                  /\ ((exists k, x = KeyError k) \/ x = TypeError \/ x = AttributeError)).




End Vocabulary.

(** Text that UTF-8 encodes: no code point is a surrogate.  On other
    text [print] raises [UnicodeEncodeError], which [print] above leaves
    out; where that matters a statement is made for lines of this kind. *)
Definition encodable (s : str) : bool :=
  forallb (fun c => negb ((55296 <=? c) && (c <=? 57343))) s.

Definition lines_encodable (t : list event) : bool :=
  forallb (fun ev => match ev with
                     | Print text => encodable text
                     | Input prompt _ => encodable prompt
                     | _ => true
                     end) t.


(** ** Sample data

    Concrete environments, answers and worlds on which the statements
    below are exercised. *)

Definition sample_env : gmap str str :=
  list_to_map
    [ (lit "JIRA_URL", lit "https://example.atlassian.net/");
      (lit "JIRA_EMAIL", lit "dev@example.com");
      (lit "JIRA_API_TOKEN", lit "jira-token");
      (lit "GITHUB_TOKEN", lit "github-token");
      (lit "GITHUB_USERNAME", lit "octocat") ].

(** The same environment with a base URL of a single slash. *)
Definition slash_env : gmap str str := <[lit "JIRA_URL" := lit "/"]> sample_env.

(** An environment that lacks the e-mail address and has an empty token. *)
Definition partial_env : gmap str str :=
  <[lit "GITHUB_TOKEN" := []]> (delete (lit "JIRA_EMAIL") sample_env).

Definition sample_now : datetime := mk_datetime 2024 1 15 12 30 45 7.

Definition sample_self : SprintSummary :=
  mk_SprintSummary (lit "https://example.atlassian.net")
    (Some (lit "dev@example.com")) (Some (lit "jira-token"))
    (Some (lit "github-token")) (Some (lit "octocat"))
    (midnight 2024 1 1) (midnight 2024 1 15).

Definition sample_issue (key summary : string) : json :=
  JObj [ (lit "key", JStr (lit key));
         (lit "fields",
          JObj [ (lit "summary", JStr (lit summary));
                 (lit "status", JObj [(lit "name", JStr (lit "Done"))]) ]) ].

Definition sample_issues : list json :=
  [sample_issue "PROJ-1" "Fix login"; sample_issue "PROJ-2" "Add export"].

Definition sample_item : json :=
  JObj [ (lit "number", JInt 42);
         (lit "title", JStr (lit "Improve docs"));
         (lit "repository_url", JStr (lit "https://api.github.com/repos/myorg/myrepo"));
         (lit "state", JStr (lit "closed"));
         (lit "html_url", JStr (lit "https://github.com/myorg/myrepo/pull/42"));
         (lit "updated_at", JStr (lit "2024-01-10T09:00:00Z")) ].

Definition ok_response (status : Z) (fields : list (str * json)) : response :=
  mk_response status (lit "OK") (lit "https://example.test/") (Json (JObj fields)).

(** A network on which both searches succeed. *)
Definition good_network (req : request) : http_result :=
  if str_eqb (req_url req) (lit "https://api.github.com/search/issues")
  then Responded (ok_response 200 [(lit "items", JArr [sample_item])])
  else Responded (ok_response 200 [(lit "issues", JArr sample_issues)]).

(** A network whose answers carry no result list. *)
Definition bare_network (req : request) : http_result :=
  Responded (ok_response 200 [(lit "total", JInt 0)]).

(** A network on which the issue tracker is unreachable and the code host
    answers 503. *)
Definition failing_network (req : request) : http_result :=
  if str_eqb (req_url req) (lit "https://api.github.com/search/issues")
  then Responded (mk_response 503 (lit "Service Unavailable") (req_url req)
                    (NotJson (lit "Expecting value: line 1 column 1 (char 0)")))
  else Failed (lit "Connection refused").

(** A network that answers every GET with status 300 and a JSON body
    holding two issues. *)
Definition multiple_choices_network (req : request) : http_result :=
  Responded (mk_response 300 (lit "Multiple Choices") (req_url req)
               (Json (JObj [(lit "issues", JArr sample_issues)]))).

Definition sample_world (env : gmap str str) (lines : list str)
    (net : request -> http_result) : world :=
  mk_world env lines (fun _ => sample_now) 0 net [].

(** * Theorems *)

(** ** The Latin-1 runtime *)

Ltac zcases :=
  repeat match goal with
  | |- context [?a <=? ?b] => destruct (Z.leb_spec a b)
  | |- context [?a <? ?b] => destruct (Z.ltb_spec a b)
  | |- context [?a =? ?b] => destruct (Z.eqb_spec a b)
  | H : context [?a <=? ?b] |- _ => destruct (Z.leb_spec a b)
  | H : context [?a <? ?b] |- _ => destruct (Z.ltb_spec a b)
  | H : context [?a =? ?b] |- _ => destruct (Z.eqb_spec a b)
  end.

Lemma latin1_laws : PyRuntimeLaws latin1_runtime.
Proof.
  split; simpl.
  - reflexivity.
  - intros c Hc. zcases; simpl; try reflexivity; lia.
  - intros c Hc. unfold ascii_isspace. zcases; simpl; try reflexivity; lia.
  - intros c d. zcases; simpl; intros [= <-]; lia.
  - intros c d. zcases; simpl; intros [= <-]; reflexivity || lia.
  - intros c. unfold ascii_isspace. zcases; simpl; try reflexivity; try discriminate; lia.
  - right. lia.
Qed.

(** ** Worlds and the monad *)

Lemma emit_emit w a b : emit (emit w a) b = emit w (a ++ b).
Proof. unfold emit; simpl. by rewrite app_assoc. Qed.

Lemma emit_nil w : emit w [] = w.
Proof. destruct w; unfold emit; simpl. by rewrite app_nil_r. Qed.

Lemma bind_print {A} s (k : unit -> M A) w :
  bind (print s) k w = k tt (emit w [Print s]).
Proof. reflexivity. Qed.

Lemma bind_log {A} e (k : unit -> M A) w :
  bind (log e) k w = k tt (emit w [e]).
Proof. reflexivity. Qed.

Lemma bind_ret {A B} (a : A) (k : A -> M B) w : bind (ret a) k w = k a w.
Proof. reflexivity. Qed.

Lemma bind_bind {A B C} (m : M A) (k : A -> M B) (h : B -> M C) w :
  bind (bind m k) h w = bind m (fun a => bind (k a) h) w.
Proof. unfold bind. destruct (m w) as [[a|e] w']; reflexivity. Qed.

Ltac worlds_eq :=
  unfold bind, print, log, ret, emit, jira_diagnostic, github_diagnostic;
  simpl; rewrite <- ?app_assoc; simpl; reflexivity.

Section Fetches.
Context {R : PyRuntime}.

(** Each fetch issues its GET and then depends on the answer alone. *)
Lemma get_completed_jira_tickets_eq self w :
  get_completed_jira_tickets self w =
  (fst (jira_outcome self w),
   emit w (HttpGet (jira_request self) :: snd (jira_outcome self w))).
Proof.
  unfold get_completed_jira_tickets, try_except, jira_outcome, outcome, tickets_of_response.
  unfold requests_get. rewrite bind_bind, bind_log. unfold bind at 1. simpl.
  destruct (network w (jira_request self)) as [r|err|]; [|worlds_eq..].
  unfold bind, lift, ret; simpl.
  destruct (raise_for_status r) as [[]|e]; simpl;
    [|destruct e; worlds_eq].
  destruct (response_json r) as [data|e]; simpl;
    [|destruct e; worlds_eq].
  destruct (result_bind (dict_get data (lit "issues") (JArr [])) iterate)
    as [issues|e]; simpl; [|destruct e; worlds_eq].
  destruct (result_map (ticket_of_issue self) issues) as [ts|e]; simpl;
    [worlds_eq|destruct e; worlds_eq].
Qed.

Lemma get_github_pr_reviews_eq self w :
  get_github_pr_reviews self w =
  (fst (github_outcome self w),
   emit w (HttpGet (github_request self) :: snd (github_outcome self w))).
Proof.
  unfold get_github_pr_reviews, try_except, github_outcome, outcome, prs_of_response.
  unfold requests_get. rewrite bind_bind, bind_log. unfold bind at 1. simpl.
  destruct (network w (github_request self)) as [r|err|]; [|worlds_eq..].
  unfold bind, lift, ret; simpl.
  destruct (raise_for_status r) as [[]|e]; simpl;
    [|destruct e; worlds_eq].
  destruct (response_json r) as [data|e]; simpl;
    [|destruct e; worlds_eq].
  destruct (result_bind (dict_get data (lit "items") (JArr [])) iterate)
    as [items|e]; simpl; [|destruct e; worlds_eq].
  destruct (result_map pr_of_item items) as [ps|e]; simpl;
    [worlds_eq|destruct e; worlds_eq].
Qed.

Lemma jira_outcome_emit self w evs : jira_outcome self (emit w evs) = jira_outcome self w.
Proof. reflexivity. Qed.

Lemma github_outcome_emit self w evs : github_outcome self (emit w evs) = github_outcome self w.
Proof. reflexivity. Qed.

End Fetches.

Section Rendering.
Context {R : PyRuntime}.

Lemma for_each_prints {A} (lines : A -> list event) (body : A -> M unit) l w :
  (forall x w, body x w = (Ok tt, emit w (lines x))) ->
  for_each l body w = (Ok tt, emit w (flat_map lines l)).
Proof.
  intros Hbody. revert w. induction l as [|x l IH]; intros w; simpl.
  - by rewrite emit_nil.
  - unfold bind. rewrite Hbody, IH, emit_emit. reflexivity.
Qed.

(** The full report: the header, the ticket fetch and its section, the
    header of the second section, the review fetch and its section. *)
Lemma print_summary_eq self w :
  print_summary self w =
  match get_completed_jira_tickets self (emit w (full_header self)) with
  | (Raise e, w2) => (Raise e, w2)
  | (Ok tickets, w2) =>
      match get_github_pr_reviews self
              (emit w2 (full_ticket_section tickets ++ full_pr_header)) with
      | (Raise e, w4) => (Raise e, w4)
      | (Ok prs, w4) => (Ok tt, emit w4 (full_pr_section prs ++ full_footer))
      end
  end.
Proof.
  unfold print_summary. rewrite !bind_print, !emit_emit. unfold bind at 1.
  change ([Print (replicate 60 61)] ++ _) with (full_header self).
  destruct (get_completed_jira_tickets self (emit w (full_header self)))
    as [[tickets|e] w2]; [|reflexivity].
  assert (Hsec : forall B (k : unit -> M B),
    bind (match tickets with
          | [] => print (lit "No completed tickets found in date range.")
          | _ :: _ =>
              bind (for_each tickets (fun ticket =>
                bind (print (py_str (ticket_key ticket) ++ lit ": "
                             ++ py_str (ticket_summary ticket))) (fun _ =>
                bind (print (lit "   " ++ ticket_url ticket)) (fun _ => print []))))
              (fun _ => print (lit "Total: " ++ len_str tickets ++ lit " ticket(s)"))
          end) k w2 = k tt (emit w2 (full_ticket_section tickets))).
  { intros B k. destruct tickets as [|t ts]; [reflexivity|].
    unfold bind at 1 2.
    rewrite (for_each_prints full_ticket_lines)
      by (intros; rewrite !bind_print; unfold print, log; by rewrite !emit_emit).
    unfold print, log. by rewrite emit_emit. }
  rewrite Hsec, !bind_print, !emit_emit. unfold bind at 1.
  change (full_ticket_section tickets ++ _) with
    (full_ticket_section tickets ++ full_pr_header).
  destruct (get_github_pr_reviews self _) as [[prs|e] w4]; [|reflexivity].
  assert (Hprs : forall B (k : unit -> M B),
    bind (match prs with
          | [] => print (lit "No PR reviews found in date range.")
          | _ :: _ =>
              bind (for_each prs (fun pr =>
                bind (print ((match pr_state pr with
                              | JStr s => if str_eqb s (lit "closed") then [9989] else [128260]
                              | _ => [128260]
                              end)
                             ++ lit " [" ++ pr_repo pr ++ lit "] #" ++ py_str (pr_number pr)
                             ++ lit ": " ++ py_str (pr_title pr))) (fun _ =>
                bind (print (lit "   " ++ py_str (pr_url pr))) (fun _ => print []))))
              (fun _ => print (lit "Total: " ++ len_str prs ++ lit " PR(s) reviewed"))
          end) k w4 = k tt (emit w4 (full_pr_section prs))).
  { intros B k. destruct prs as [|p ps]; [reflexivity|].
    unfold bind at 1 2.
    rewrite (for_each_prints full_pr_lines)
      by (intros; rewrite !bind_print; unfold print, log; by rewrite !emit_emit).
    unfold print, log. by rewrite emit_emit. }
  rewrite Hprs, bind_print. unfold print, log. by rewrite !emit_emit.
Qed.

(** The concise report. *)
Lemma print_concise_summary_eq self w :
  print_concise_summary self w =
  match get_completed_jira_tickets self (emit w [Print (lit "Completed JIRA Tickets:")]) with
  | (Raise e, w2) => (Raise e, w2)
  | (Ok tickets, w2) =>
      match get_github_pr_reviews self
              (emit w2 (concise_ticket_section tickets
                        ++ [Print []; Print (lit "GitHub PR Reviews:")])) with
      | (Raise e, w4) => (Raise e, w4)
      | (Ok prs, w4) => (Ok tt, emit w4 (concise_pr_section prs))
      end
  end.
Proof.
  unfold print_concise_summary. rewrite bind_print. unfold bind at 1.
  destruct (get_completed_jira_tickets self _) as [[tickets|e] w2]; [|reflexivity].
  assert (Hmap : forall A (f : A -> str) (l : list A) w0,
    for_each l (fun x => print (f x)) w0 = (Ok tt, emit w0 (map (fun x => Print (f x)) l))).
  { intros A f l. induction l as [|x l IH]; intros w0; simpl.
    - by rewrite emit_nil.
    - by rewrite bind_print, IH, emit_emit. }
  assert (Hsec : forall B (k : unit -> M B),
    bind (match tickets with
          | [] => print (lit "None")
          | _ :: _ =>
              for_each tickets (fun ticket =>
                print (py_str (ticket_key ticket) ++ lit ": "
                       ++ py_str (ticket_summary ticket) ++ lit " - " ++ ticket_url ticket))
          end) k w2 = k tt (emit w2 (concise_ticket_section tickets))).
  { intros B k. destruct tickets as [|t ts]; [reflexivity|].
    unfold bind. by rewrite Hmap. }
  rewrite Hsec, !bind_print, !emit_emit. unfold bind at 1.
  destruct (get_github_pr_reviews self _) as [[prs|e] w4]; [|reflexivity].
  destruct prs as [|p ps]; [reflexivity|]. by rewrite Hmap.
Qed.

End Rendering.

Section Reports.
Context {R : PyRuntime}.

(** The whole trace of the full report, from the two outcomes. *)
Lemma print_summary_trace self w :
  print_summary self w =
  let e1 := full_header self ++ HttpGet (jira_request self) :: snd (jira_outcome self w) in
  match fst (jira_outcome self w) with
  | Raise e => (Raise e, emit w e1)
  | Ok tickets =>
      let e2 := e1 ++ full_ticket_section tickets ++ full_pr_header
                ++ HttpGet (github_request self) :: snd (github_outcome self w) in
      match fst (github_outcome self w) with
      | Raise e => (Raise e, emit w e2)
      | Ok prs => (Ok tt, emit w (e2 ++ full_pr_section prs ++ full_footer))
      end
  end.
Proof.
  rewrite print_summary_eq, get_completed_jira_tickets_eq, jira_outcome_emit.
  destruct (jira_outcome self w) as [[tickets|e] d1]; cbn [fst snd]; cbv beta iota zeta.
  - rewrite get_github_pr_reviews_eq, !github_outcome_emit.
    destruct (github_outcome self w) as [[prs|e] d2]; cbn [fst snd]; cbv beta iota zeta;
      rewrite !emit_emit; (f_equal; f_equal; []);
      repeat (rewrite <- ?app_assoc; simpl); reflexivity.
  - by rewrite emit_emit.
Qed.

Lemma print_concise_summary_trace self w :
  print_concise_summary self w =
  let e1 := Print (lit "Completed JIRA Tickets:") :: HttpGet (jira_request self)
            :: snd (jira_outcome self w) in
  match fst (jira_outcome self w) with
  | Raise e => (Raise e, emit w e1)
  | Ok tickets =>
      let e2 := e1 ++ concise_ticket_section tickets
                ++ [Print []; Print (lit "GitHub PR Reviews:"); HttpGet (github_request self)]
                ++ snd (github_outcome self w) in
      match fst (github_outcome self w) with
      | Raise e => (Raise e, emit w e2)
      | Ok prs => (Ok tt, emit w (e2 ++ concise_pr_section prs))
      end
  end.
Proof.
  rewrite print_concise_summary_eq, get_completed_jira_tickets_eq, jira_outcome_emit.
  destruct (jira_outcome self w) as [[tickets|e] d1]; cbn [fst snd]; cbv beta iota zeta.
  - rewrite get_github_pr_reviews_eq, !github_outcome_emit.
    destruct (github_outcome self w) as [[prs|e] d2]; cbn [fst snd]; cbv beta iota zeta;
      rewrite !emit_emit; (f_equal; f_equal; []);
      repeat (rewrite <- ?app_assoc; simpl); reflexivity.
  - by rewrite emit_emit.
Qed.

End Reports.

Section Records.
Context {R : PyRuntime}.

Lemma raise_for_status_2xx r :
  200 <= status_code r < 300 -> raise_for_status r = Ok tt.
Proof. intros H. unfold raise_for_status. zcases; simpl; try reflexivity; lia. Qed.

Lemma raise_for_status_error r :
  (400 <=? status_code r) && (status_code r <? 600) = true ->
  raise_for_status r = Raise (RequestException (error_text (Responded r))).
Proof.
  intros H. unfold error_text, raise_for_status.
  zcases; simpl in *; try reflexivity; try discriminate; lia.
Qed.

Lemma outcome_fails {A} diagnostic (records : response -> result (list A)) res :
  (forall r, res = Responded r ->
     records r = Raise (RequestException (error_text res))) ->
  fetch_fails res = true ->
  outcome diagnostic records res = (Ok [], [diagnostic (error_text res)]).
Proof.
  intros Hrec Hf. destruct res as [r|err|]; simpl; [|reflexivity|discriminate].
  by rewrite (Hrec r eq_refl).
Qed.

Lemma jira_outcome_fails self w :
  fetch_fails (network w (jira_request self)) = true ->
  jira_outcome self w =
  (Ok [], [jira_diagnostic (error_text (network w (jira_request self)))]).
Proof.
  intros Hf. apply outcome_fails; [|done].
  intros r Hr. rewrite Hr in Hf |- *. unfold tickets_of_response.
  by rewrite raise_for_status_error.
Qed.

Lemma github_outcome_fails self w :
  fetch_fails (network w (github_request self)) = true ->
  github_outcome self w =
  (Ok [], [github_diagnostic (error_text (network w (github_request self)))]).
Proof.
  intros Hf. apply outcome_fails; [|done].
  intros r Hr. rewrite Hr in Hf |- *. unfold prs_of_response.
  by rewrite raise_for_status_error.
Qed.

(** A well-formed issue becomes the ticket the specification describes. *)
Lemma ticket_of_issue_from self issue t :
  ticket_from (jira_url self) issue t -> ticket_of_issue self issue = Ok t.
Proof.
  intros (key & fields & summary & status & name & Hk & Hf & Hs & Hst & Hn & ->).
  unfold ticket_of_issue. rewrite Hk, Hf. simpl. rewrite Hs. simpl.
  rewrite Hst. simpl. rewrite Hn. reflexivity.
Qed.

Lemma result_map_Forall2 {A B} (f : A -> result B) (P : A -> B -> Prop) l :
  Forall (fun x => exists y, P x y) l ->
  (forall x y, P x y -> f x = Ok y) ->
  exists l', result_map f l = Ok l' /\ Forall2 P l l'.
Proof.
  intros Hl Hf. induction Hl as [|x l [y Hy] _ (l' & Hl' & HF)]; simpl.
  - exists []. split; [reflexivity|constructor].
  - exists (y :: l'). rewrite (Hf _ _ Hy). simpl. rewrite Hl'. simpl.
    split; [reflexivity|by constructor].
Qed.

Lemma split_nonempty sep s : split sep s <> [].
Proof. destruct s as [|c s]; simpl; [done|]. destruct (c =? sep), (split sep s); done. Qed.

Lemma split_app sep a b : split sep (a ++ sep :: b) = split sep a ++ split sep b.
Proof.
  induction a as [|c a IH]; simpl.
  - by rewrite Z.eqb_refl.
  - rewrite IH. destruct (c =? sep); [reflexivity|].
    pose proof (split_nonempty sep a). by destruct (split sep a).
Qed.

Lemma split_no_sep sep s : sep ∉ s -> split sep s = [s].
Proof.
  induction s as [|c s IH]; intros Hs; [reflexivity|].
  simpl. apply not_elem_of_cons in Hs as [Hc Hs].
  destruct (Z.eqb_spec c sep); [congruence|]. by rewrite IH.
Qed.

Lemma repo_of_last_segment u seg :
  last_segment_of u seg -> repo_of (JStr u) = Ok seg.
Proof.
  intros [[->|[front ->]] Hseg]; unfold repo_of, last_item.
  - by rewrite split_no_sep.
  - simpl. rewrite split_app, (split_no_sep _ seg), last_snoc by done. reflexivity.
Qed.

Lemma pr_of_item_from item p :
  pull_request_from item p -> pr_of_item item = Ok p.
Proof.
  intros (number & title & u & state & html & upd
          & Hn & Ht & Hu & Hs & Hh & Hd & Hseg & Hp).
  unfold pr_of_item. rewrite Hn, Ht, Hu. cbn [result_bind].
  rewrite (repo_of_last_segment _ _ Hseg), Hs, Hh, Hd. cbn [result_bind].
  by rewrite Hp at 2.
Qed.

End Records.

(** ** The two fetches on a successful response *)

Section FetchClaims.
Context {R : PyRuntime}.

(** C5: on a successful answer of the issue tracker whose issues are well
    formed, the fetch returns one ticket per issue, in order, built as
    [{key, summary, status: status.name, url: base + "/browse/" + key}];
    two issues give exactly two tickets. *)
Theorem tickets_map_issues_one_to_one self w r fields issues :
  network w (jira_request self) = Responded r ->
  200 <= status_code r < 300 ->
  resp_body r = Json (JObj fields) ->
  obj_lookup (lit "issues") fields = Some (JArr issues) ->
  Forall (fun issue => exists t, ticket_from (jira_url self) issue t) issues ->
  exists tickets,
    get_completed_jira_tickets self w
    = (Ok tickets, emit w [HttpGet (jira_request self)])
    /\ Forall2 (ticket_from (jira_url self)) issues tickets
    /\ length tickets = length issues
    /\ (length issues = 2%nat -> exists t1 t2, tickets = [t1; t2]).
Proof.
  intros Hnet Hst Hbody Hlook Hwf.
  destruct (result_map_Forall2 (ticket_of_issue self) (ticket_from (jira_url self))
              issues Hwf (ticket_of_issue_from self)) as (tickets & Hmap & HF).
  exists tickets.
  assert (Hlen : length tickets = length issues) by (symmetry; eapply Forall2_length; eauto).
  repeat split; [|done|done|].
  - rewrite get_completed_jira_tickets_eq. unfold jira_outcome, outcome.
    rewrite Hnet. unfold tickets_of_response, response_json.
    rewrite raise_for_status_2xx, Hbody by done. cbn [result_bind dict_get].
    rewrite Hlook. cbn [result_bind iterate]. by rewrite Hmap.
  - intros H2. rewrite H2 in Hlen.
    destruct tickets as [|t1 [|t2 [|]]]; try discriminate. by exists t1, t2.
Qed.

(** C6: on a successful answer of the code host whose items are well
    formed, the fetch returns one record per item, in order, with the
    fields of the item and, as [repo], the last path segment of its
    repository URL; a URL that ends in [/myorg/myrepo] gives [myrepo]. *)
Theorem pull_requests_map_items self w r fields items :
  network w (github_request self) = Responded r ->
  200 <= status_code r < 300 ->
  resp_body r = Json (JObj fields) ->
  obj_lookup (lit "items") fields = Some (JArr items) ->
  Forall (fun item => exists p, pull_request_from item p) items ->
  (exists prs,
    get_github_pr_reviews self w = (Ok prs, emit w [HttpGet (github_request self)])
    /\ Forall2 pull_request_from items prs)
  /\ (forall front, repo_of (JStr (front ++ lit "/myorg/myrepo")) = Ok (lit "myrepo")).
Proof.
  intros Hnet Hst Hbody Hlook Hwf. split.
  - destruct (result_map_Forall2 pr_of_item pull_request_from items Hwf pr_of_item_from)
      as (prs & Hmap & HF).
    exists prs. split; [|done].
    rewrite get_github_pr_reviews_eq. unfold github_outcome, outcome.
    rewrite Hnet. unfold prs_of_response, response_json.
    rewrite raise_for_status_2xx, Hbody by done. cbn [result_bind dict_get].
    rewrite Hlook. cbn [result_bind iterate]. by rewrite Hmap.
  - intros front. apply repo_of_last_segment. split.
    + right. exists (front ++ lit "/myorg"). by rewrite <- app_assoc.
    + vm_compute. intros H. repeat (apply elem_of_cons in H as [H|H]; [discriminate|]).
      by apply elem_of_nil in H.
Qed.


End FetchClaims.

Lemma tickets_map_issues_one_to_one_witness :
  exists tickets,
    get_completed_jira_tickets (R:=latin1_runtime) sample_self
      (sample_world sample_env [] good_network)
    = (Ok tickets,
       emit (sample_world sample_env [] good_network) [HttpGet (jira_request sample_self)])
    /\ Forall2 (ticket_from (jira_url sample_self)) sample_issues tickets
    /\ length tickets = length sample_issues
    /\ (length sample_issues = 2%nat -> exists t1 t2, tickets = [t1; t2]).
Proof.
  apply (tickets_map_issues_one_to_one (R:=latin1_runtime) sample_self
           (sample_world sample_env [] good_network)
           (ok_response 200 [(lit "issues", JArr sample_issues)])
           [(lit "issues", JArr sample_issues)] sample_issues).
  - reflexivity.
  - simpl. lia.
  - reflexivity.
  - reflexivity.
  - repeat constructor; eexists; unfold ticket_from; do 5 eexists;
      repeat split; reflexivity.
Defined.

Lemma pull_requests_map_items_witness :
  (exists prs,
    get_github_pr_reviews sample_self
      (sample_world sample_env [] good_network)
    = (Ok prs,
       emit (sample_world sample_env [] good_network) [HttpGet (github_request sample_self)])
    /\ Forall2 pull_request_from [sample_item] prs)
  /\ (forall front, repo_of (JStr (front ++ lit "/myorg/myrepo")) = Ok (lit "myrepo")).
Proof.
  apply (pull_requests_map_items sample_self
           (sample_world sample_env [] good_network)
           (ok_response 200 [(lit "items", JArr [sample_item])])
           [(lit "items", JArr [sample_item])] [sample_item]).
  - reflexivity.
  - simpl. lia.
  - reflexivity.
  - reflexivity.
  - repeat constructor.
    exists (mk_pull_request (JInt 42) (JStr (lit "Improve docs")) (lit "myrepo")
              (JStr (lit "closed")) (JStr (lit "https://github.com/myorg/myrepo/pull/42"))
              (JStr (lit "2024-01-10T09:00:00Z"))).
    unfold pull_request_from. do 6 eexists. repeat split; try reflexivity.
    + right. exists (lit "https://api.github.com/repos/myorg"). reflexivity.
    + vm_compute. intros H. repeat (apply elem_of_cons in H as [H|H]; [discriminate|]).
      by apply elem_of_nil in H.
Defined.


(** ** Empty lists and failed fetches in the reports *)

Section ReportClaims.
Context {R : PyRuntime}.

Lemma fst_get_completed_jira_tickets self w :
  fst (get_completed_jira_tickets self w) = fst (jira_outcome self w).
Proof. by rewrite get_completed_jira_tickets_eq. Qed.

Lemma fst_get_github_pr_reviews self w :
  fst (get_github_pr_reviews self w) = fst (github_outcome self w).
Proof. by rewrite get_github_pr_reviews_eq. Qed.

(** C9: with an empty ticket list the ticket section of the full report is
    the one line "No completed tickets found in date range.", which stands
    where the entries and the count would, right before the header of the
    next section; with an empty list of pull requests the concise report
    ends, under the label "GitHub PR Reviews:", with the line "None". *)
Theorem empty_lists_render self w :
  (fst (get_completed_jira_tickets self w) = Ok [] ->
   exists rest,
     trace (snd (print_summary self w))
     = trace w ++ full_header self
       ++ HttpGet (jira_request self) :: snd (jira_outcome self w)
       ++ Print (lit "No completed tickets found in date range.") :: full_pr_header
       ++ rest)
  /\ (forall tickets,
        fst (get_completed_jira_tickets self w) = Ok tickets ->
        fst (get_github_pr_reviews self w) = Ok [] ->
        exists front,
          fst (print_concise_summary self w) = Ok tt
          /\ trace (snd (print_concise_summary self w))
             = front ++ Print (lit "GitHub PR Reviews:") :: HttpGet (github_request self)
               :: snd (github_outcome self w) ++ [Print (lit "None")]).
Proof.
  split.
  - rewrite fst_get_completed_jira_tickets, print_summary_trace. intros ->.
    cbv zeta. change (full_ticket_section []) with
      [Print (lit "No completed tickets found in date range.")].
    destruct (fst (github_outcome self w)) as [prs|e]; cbn [snd emit trace].
    + eexists. repeat (rewrite <- ?app_assoc; cbn [app]). reflexivity.
    + eexists. repeat (rewrite <- ?app_assoc; cbn [app]). reflexivity.
  - intros tickets. rewrite fst_get_completed_jira_tickets, fst_get_github_pr_reviews,
      print_concise_summary_trace. intros -> ->. cbv zeta. cbn [fst snd emit trace].
    exists (trace w ++ Print (lit "Completed JIRA Tickets:") :: HttpGet (jira_request self)
            :: snd (jira_outcome self w) ++ concise_ticket_section tickets ++ [Print []]).
    split; [reflexivity|].
    change (concise_pr_section []) with [Print (lit "None")].
    repeat (rewrite <- ?app_assoc; cbn [app]). reflexivity.
Qed.

(** C4, as the code has it: a fetch whose GET meets a transport error or a
    4xx or 5xx status prints one diagnostic line that ends with the text of
    the error and returns the empty list; nothing is raised, the other
    fetch is still issued and the report is still printed to its end. *)
Theorem fetch_failure_is_local self w :
  (fetch_fails (network w (jira_request self)) = true ->
   get_completed_jira_tickets self w
   = (Ok [], emit w [HttpGet (jira_request self);
                     jira_diagnostic (error_text (network w (jira_request self)))])
   /\ HttpGet (github_request self) ∈ trace (snd (print_summary self w))
   /\ HttpGet (github_request self) ∈ trace (snd (print_concise_summary self w))
   /\ (forall prs, fst (get_github_pr_reviews self w) = Ok prs ->
       fst (print_summary self w) = Ok tt
       /\ fst (print_concise_summary self w) = Ok tt))
  /\ (fetch_fails (network w (github_request self)) = true ->
      get_github_pr_reviews self w
      = (Ok [], emit w [HttpGet (github_request self);
                        github_diagnostic (error_text (network w (github_request self)))])
      /\ (forall tickets, fst (get_completed_jira_tickets self w) = Ok tickets ->
          fst (print_summary self w) = Ok tt
          /\ last (trace (snd (print_summary self w))) = Some (Print (replicate 60 61))
          /\ fst (print_concise_summary self w) = Ok tt
          /\ last (trace (snd (print_concise_summary self w))) = Some (Print (lit "None")))).
Proof.
  split; intros Hf.
  - pose proof (jira_outcome_fails self w Hf) as Hj.
    rewrite get_completed_jira_tickets_eq, print_summary_trace,
      print_concise_summary_trace, Hj. cbn [fst snd]. cbv zeta.
    split; [reflexivity|]. split; [|split].
    + destruct (fst (github_outcome self w)); cbn [snd emit trace];
        rewrite !elem_of_app; set_solver.
    + destruct (fst (github_outcome self w)); cbn [snd emit trace];
        rewrite !elem_of_app; set_solver.
    + intros prs Hp. rewrite fst_get_github_pr_reviews in Hp. rewrite Hp.
      split; reflexivity.
  - pose proof (github_outcome_fails self w Hf) as Hg.
    rewrite get_github_pr_reviews_eq, Hg. cbn [fst snd].
    split; [reflexivity|]. intros tickets.
    rewrite fst_get_completed_jira_tickets, print_summary_trace,
      print_concise_summary_trace, Hg. intros ->. cbn [fst snd emit trace]. cbv zeta.
    repeat split.
    + change full_footer with ([Print []] ++ [Print (replicate 60 61)]).
      rewrite !app_assoc. apply last_snoc.
    + change (concise_pr_section []) with [Print (lit "None")].
      rewrite !app_assoc. apply last_snoc.
Qed.

End ReportClaims.

Lemma empty_lists_render_witness :
  (exists rest,
     trace (snd (print_summary (R:=latin1_runtime) sample_self
                   (sample_world sample_env [] bare_network)))
     = full_header sample_self
       ++ HttpGet (jira_request sample_self)
          :: Print (lit "No completed tickets found in date range.") :: full_pr_header
       ++ rest)
  /\ (exists front,
        fst (print_concise_summary (R:=latin1_runtime) sample_self
               (sample_world sample_env [] failing_network)) = Ok tt
        /\ trace (snd (print_concise_summary (R:=latin1_runtime) sample_self
                         (sample_world sample_env [] failing_network)))
           = front ++ [ Print (lit "GitHub PR Reviews:");
                        HttpGet (github_request sample_self);
                        github_diagnostic
                          (lit "503 Server Error: Service Unavailable for url: https://api.github.com/search/issues");
                        Print (lit "None") ]).
Proof.
  split.
  - apply (proj1 (empty_lists_render (R:=latin1_runtime) sample_self
                    (sample_world sample_env [] bare_network))).
    reflexivity.
  - apply (proj2 (empty_lists_render (R:=latin1_runtime) sample_self
                    (sample_world sample_env [] failing_network)) []);
      reflexivity.
Defined.

Lemma fetch_failure_is_local_witness :
  get_completed_jira_tickets (R:=latin1_runtime) sample_self
    (sample_world sample_env [] failing_network)
  = (Ok [], emit (sample_world sample_env [] failing_network)
              [HttpGet (jira_request sample_self);
               jira_diagnostic (lit "Connection refused")])
  /\ get_github_pr_reviews sample_self (sample_world sample_env [] failing_network)
     = (Ok [], emit (sample_world sample_env [] failing_network)
                 [HttpGet (github_request sample_self);
                  github_diagnostic
                    (lit "503 Server Error: Service Unavailable for url: https://api.github.com/search/issues")]).
Proof.
  split.
  - apply (proj1 (fetch_failure_is_local (R:=latin1_runtime) sample_self
                    (sample_world sample_env [] failing_network))).
    reflexivity.
  - apply (proj2 (fetch_failure_is_local (R:=latin1_runtime) sample_self
                    (sample_world sample_env [] failing_network))).
    reflexivity.
Defined.

(** C4 as the specification words it fails: an answer with status 300 is
    outside 2xx, yet the fetch prints no diagnostic and returns the two
    tickets of its body. *)
Lemma non_2xx_answer_yields_tickets :
  exists r t1 t2,
    network (sample_world sample_env [] multiple_choices_network) (jira_request sample_self)
    = Responded r
    /\ non_2xx r = true
    /\ get_completed_jira_tickets (R:=latin1_runtime) sample_self
         (sample_world sample_env [] multiple_choices_network)
       = (Ok [t1; t2],
          emit (sample_world sample_env [] multiple_choices_network)
            [HttpGet (jira_request sample_self)]).
Proof. do 3 eexists. repeat split; reflexivity. Qed.

(** ** What each step adds to the trace *)

Lemma adds_only_ret {A} p (a : A) : adds_only p (ret a).
Proof. intros w r w' [= <- <-]. repeat split; try done. exists []. by rewrite app_nil_r. Qed.

Lemma adds_only_raise {A} p e : adds_only p (raise (A:=A) e).
Proof. intros w r w' [= <- <-]. repeat split; try done. exists []. by rewrite app_nil_r. Qed.

Lemma adds_only_lift {A} p (x : result A) : adds_only p (lift x).
Proof. intros w r w' [= <- <-]. repeat split; try done. exists []. by rewrite app_nil_r. Qed.

Lemma adds_only_log p e : p e = true -> adds_only p (log e).
Proof.
  intros He w r w' [= <- <-]. repeat split; try done.
  exists [e]. split; [done|]. simpl. by rewrite He.
Qed.

Lemma adds_only_bind {A B} p (m : M A) (k : A -> M B) :
  adds_only p m -> (forall a, adds_only p (k a)) -> adds_only p (bind m k).
Proof.
  intros Hm Hk w r w'. unfold bind.
  destruct (m w) as [[a|e] w1] eqn:E; destruct (Hm _ _ _ E) as (He & Hn & Hc & evs & Ht & Hp).
  - intros E2. destruct (Hk a _ _ _ E2) as (He2 & Hn2 & Hc2 & evs2 & Ht2 & Hp2).
    repeat split; try congruence.
    exists (evs ++ evs2). rewrite Ht2, Ht, app_assoc, forallb_app, Hp, Hp2. done.
  - intros [= <- <-]. repeat split; try done. by exists evs.
Qed.

Lemma adds_only_input p prompt :
  (forall line, p (Input prompt line) = true) -> adds_only p (input prompt).
Proof.
  intros Hp w r w'. unfold input. destruct (stdin w) as [|line rest].
  - intros [= <- <-]. repeat split; try done.
    exists [Input prompt None]. simpl. by rewrite Hp.
  - intros [= <- <-]. repeat split; try done.
    exists [Input prompt (Some line)]. simpl. by rewrite Hp.
Qed.

Lemma adds_only_now p : adds_only p now.
Proof. intros w r w' [= <- <-]. repeat split; try done. exists []. by rewrite app_nil_r. Qed.

Lemma adds_only_while {A} p rounds (body : M (option A)) :
  adds_only p body -> adds_only p (while_reading rounds body).
Proof.
  intros Hb. induction rounds as [|n IH]; simpl.
  - apply adds_only_raise.
  - apply adds_only_bind; [done|]. intros [v|]; [apply adds_only_ret|done].
Qed.

Lemma adds_only_while_true {A} p (body : M (option A)) :
  adds_only p body -> adds_only p (while_true body).
Proof. intros Hb w r w'. unfold while_true. by apply adds_only_while. Qed.

Section Prompts.
Context {R : PyRuntime}.

Lemma get_start_date_console : adds_only is_console get_start_date.
Proof.
  unfold get_start_date, start_date_round.
  repeat first
    [ apply adds_only_bind; [|intros ?]
    | apply adds_only_while_true
    | apply adds_only_log; reflexivity
    | apply adds_only_input; reflexivity
    | apply adds_only_lift | apply adds_only_now | apply adds_only_ret
    | match goal with |- adds_only _ (if ?b then _ else _) => destruct b end
    | match goal with |- adds_only _ (match ?b with Some _ => _ | None => _ end) =>
        destruct b end ].
Qed.

Lemma get_end_date_console : adds_only is_console get_end_date.
Proof.
  unfold get_end_date, end_date_round.
  repeat first
    [ apply adds_only_bind; [|intros ?]
    | apply adds_only_while_true
    | apply adds_only_log; reflexivity
    | apply adds_only_input; reflexivity
    | apply adds_only_lift | apply adds_only_now | apply adds_only_ret
    | match goal with |- adds_only _ (if ?b then _ else _) => destruct b end
    | match goal with |- adds_only _ (match ?b with Some _ => _ | None => _ end) =>
        destruct b end ].
Qed.

End Prompts.

(** ** The constructor and [main] *)

Lemma drop_while_nil {A} (p : A -> bool) l : forallb p l = true -> drop_while p l = [].
Proof. induction l as [|x l IH]; simpl; [done|]. destruct (p x); [done|discriminate]. Qed.

Lemma drop_while_nil_inv {A} (p : A -> bool) l : drop_while p l = [] -> forallb p l = true.
Proof. induction l as [|x l IH]; simpl; [done|]. destruct (p x); [done|discriminate]. Qed.

Lemma drop_while_head {A} (p : A -> bool) l x l' :
  drop_while p l = x :: l' -> p x = false.
Proof.
  induction l as [|y l IH]; simpl; [discriminate|].
  destruct (p y) eqn:E; [done|]. by intros [= <- <-].
Qed.

Lemma forallb_rev {A} (p : A -> bool) l : forallb p (rev l) = forallb p l.
Proof.
  induction l as [|x l IH]; simpl; [done|].
  rewrite forallb_app, IH. simpl. destruct (forallb p l), (p x); reflexivity.
Qed.

Lemma flat_map_singleton {A B} (f : A -> B) l : flat_map (fun x => [f x]) l = map f l.
Proof. induction l; simpl; congruence. Qed.

Section Constructor.
Context {R : PyRuntime}.

Lemma truthy_rstrip s :
  truthy (rstrip_char 47 s) = negb (forallb (fun x => x =? 47) s).
Proof.
  unfold rstrip_char.
  destruct (forallb (fun x => x =? 47) s) eqn:E.
  - rewrite drop_while_nil; [reflexivity|]. by rewrite forallb_rev.
  - destruct (drop_while (fun x => x =? 47) (rev s)) as [|x l] eqn:D.
    + apply drop_while_nil_inv in D. rewrite forallb_rev in D. congruence.
    + cbn [rev negb]. by destruct (rev l).
Qed.

(** The names [validate_config] collects are the required variables that
    count as missing, in the order of the checks. *)
Lemma missing_variables_config env s e :
  missing_variables (config_of env s e)
  = List.filter (counts_as_missing env) required_variables.
Proof.
  unfold missing_variables, config_of, required_variables, append_if_not.
  cbn [List.filter jira_url jira_email jira_token github_token github_username].
  unfold counts_as_missing.
  change (str_eqb (lit "JIRA_URL") (lit "JIRA_URL")) with true.
  change (str_eqb (lit "JIRA_EMAIL") (lit "JIRA_URL")) with false.
  change (str_eqb (lit "JIRA_API_TOKEN") (lit "JIRA_URL")) with false.
  change (str_eqb (lit "GITHUB_TOKEN") (lit "JIRA_URL")) with false.
  change (str_eqb (lit "GITHUB_USERNAME") (lit "JIRA_URL")) with false.
  cbv beta iota. rewrite truthy_rstrip. unfold only_slashes, unset_or_empty.
  destruct (env !! lit "JIRA_URL") as [u|];
    [destruct (forallb (fun x => x =? 47) u)|];
    destruct (env !! lit "JIRA_EMAIL") as [[|? ?]|];
    destruct (env !! lit "JIRA_API_TOKEN") as [[|? ?]|];
    destruct (env !! lit "GITHUB_TOKEN") as [[|? ?]|];
    destruct (env !! lit "GITHUB_USERNAME") as [[|? ?]|]; reflexivity.
Qed.

Lemma validate_config_eq self w :
  validate_config self w =
  match missing_variables self with
  | [] => (Ok tt, emit w [Validated []])
  | missing => (Raise (SystemExit 1), emit w (Validated missing :: listing missing))
  end.
Proof.
  unfold validate_config. rewrite bind_log.
  destruct (missing_variables self) as [|v l]; [reflexivity|].
  rewrite bind_print. unfold bind at 1.
  rewrite (for_each_prints (fun var => [Print (lit "   - " ++ var)])) by reflexivity.
  rewrite bind_print, !emit_emit. unfold sys_exit, raise, listing.
  rewrite flat_map_singleton. repeat (rewrite <- ?app_assoc; cbn [app]). reflexivity.
Qed.

Lemma init_eq s e w :
  init s e w =
  match missing_variables (config_of (environ w) s e) with
  | [] => (Ok (config_of (environ w) s e), emit w [Validated []])
  | missing => (Raise (SystemExit 1), emit w (Validated missing :: listing missing))
  end.
Proof.
  unfold init, getenv_default, getenv. unfold bind at 1 2 3 4 5. unfold bind.
  fold (config_of (environ w) s e). rewrite validate_config_eq.
  by destruct (missing_variables _).
Qed.

Lemma main_eq concise w :
  main concise w =
  match get_start_date w with
  | (Raise x, w1) => (Raise x, w1)
  | (Ok s, w1) =>
      match get_end_date w1 with
      | (Raise x, w2) => (Raise x, w2)
      | (Ok e, w2) =>
          match init s e w2 with
          | (Raise x, w3) => (Raise x, w3)
          | (Ok self, w3) =>
              if concise then print_concise_summary self w3 else print_summary self w3
          end
      end
  end.
Proof.
  unfold main, bind.
  destruct (get_start_date w) as [[s|x] w1]; [|done].
  destruct (get_end_date w1) as [[e|x] w2]; [|done].
  destruct (init s e w2) as [[self|x] w3]; [|reflexivity]. by destruct concise.
Qed.

End Constructor.

(** ** Configuration *)

Section ConfigurationClaim.
Context {R : PyRuntime}.

(** C1, as the code has it: the constructor runs once both dates are
    known.  If one of the five required values counts as missing (the base
    URL after its trailing slashes are stripped, the other four when unset
    or empty), every such name is listed, none left out, and the process
    ends with status 1; otherwise the constructor returns and prints
    nothing, and a run on which both fetches fail ends with status 0. *)
Theorem missing_configuration_exits concise w s w1 e w2 :
  get_start_date w = (Ok s, w1) ->
  get_end_date w1 = (Ok e, w2) ->
  let missing := List.filter (counts_as_missing (environ w)) required_variables in
  let self := config_of (environ w) s e in
  (missing <> [] ->
   init s e w2 = (Raise (SystemExit 1), emit w2 (Validated missing :: listing missing))
   /\ run concise w = (1, trace w2 ++ Validated missing :: listing missing))
  /\ (missing = [] ->
      init s e w2 = (Ok self, emit w2 [Validated []])
      /\ (fetch_fails (network w (jira_request self)) = true ->
          fetch_fails (network w (github_request self)) = true ->
          fst (run concise w) = 0)).
Proof.
  intros Hs He missing self.
  destruct (get_start_date_console _ _ _ Hs) as (Henv1 & Hnet1 & _).
  destruct (get_end_date_console _ _ _ He) as (Henv2 & Hnet2 & _).
  assert (Henv : environ w2 = environ w) by congruence.
  assert (Hnet : network w2 = network w) by congruence.
  assert (Hinit := init_eq s e w2). rewrite Henv, missing_variables_config in Hinit.
  fold missing self in Hinit.
  unfold run. rewrite main_eq, Hs, He.
  split; intros Hm.
  - destruct missing as [|v l]; [done|]. rewrite Hinit. done.
  - rewrite Hm in Hinit. rewrite Hinit. split; [done|]. intros Hj Hg.
    assert (Hjo : jira_outcome self (emit w2 [Validated []])
                  = (Ok [], [jira_diagnostic (error_text (network w (jira_request self)))])).
    { rewrite jira_outcome_emit. unfold jira_outcome. rewrite Hnet.
      apply (jira_outcome_fails self w Hj). }
    assert (Hgo : github_outcome self (emit w2 [Validated []])
                  = (Ok [], [github_diagnostic (error_text (network w (github_request self)))])).
    { rewrite github_outcome_emit. unfold github_outcome. rewrite Hnet.
      apply (github_outcome_fails self w Hg). }
    destruct concise.
    + rewrite print_concise_summary_trace, Hjo, Hgo. reflexivity.
    + rewrite print_summary_trace, Hjo, Hgo. reflexivity.
Qed.

End ConfigurationClaim.

Lemma missing_configuration_exits_witness :
  run (R:=latin1_runtime) true (sample_world partial_env [lit "14"; []] good_network)
  = (1,
     trace (snd (get_end_date (R:=latin1_runtime)
                   (snd (get_start_date (R:=latin1_runtime)
                           (sample_world partial_env [lit "14"; []] good_network)))))
     ++ Validated [lit "JIRA_EMAIL"; lit "GITHUB_TOKEN"]
        :: listing [lit "JIRA_EMAIL"; lit "GITHUB_TOKEN"])
  /\ fst (run (R:=latin1_runtime) false
            (sample_world sample_env [lit "14"; []] failing_network)) = 0.
Proof.
  split.
  - refine (proj2 (proj1 (missing_configuration_exits (R:=latin1_runtime) true
             (sample_world partial_env [lit "14"; []] good_network)
             _ _ _ _ eq_refl eq_refl) _)).
    vm_compute. discriminate.
  - refine (proj2 (proj2 (missing_configuration_exits (R:=latin1_runtime) false
             (sample_world sample_env [lit "14"; []] failing_network)
             _ _ _ _ eq_refl eq_refl) _) _ _); reflexivity.
Defined.

(** C1 as the specification words it fails: with a base URL of ["/"] all
    five variables are present and not empty, and the run still ends on
    the listing with status 1. *)
Lemma present_base_url_counts_as_missing :
  forallb (fun name => negb (unset_or_empty slash_env name)) required_variables = true
  /\ run (R:=latin1_runtime) false (sample_world slash_env [lit "14"; []] good_network)
     = (1,
        trace (snd (get_end_date (R:=latin1_runtime)
                      (snd (get_start_date (R:=latin1_runtime)
                              (sample_world slash_env [lit "14"; []] good_network)))))
        ++ Validated [lit "JIRA_URL"] :: listing [lit "JIRA_URL"]).
Proof. split; vm_compute; reflexivity. Qed.

(** ** The order of a run *)






Lemma forallb_flat_map {A B} (p : B -> bool) (f : A -> list B) l :
  (forall x, forallb p (f x) = true) -> forallb p (flat_map f l) = true.
Proof.
  intros Hf. induction l as [|x l IH]; simpl; [done|]. by rewrite forallb_app, Hf, IH.
Qed.

Lemma forallb_map_true {A B} (p : B -> bool) (f : A -> B) l :
  (forall x, p (f x) = true) -> forallb p (map f l) = true.
Proof. intros Hf. induction l as [|x l IH]; simpl; [done|]. by rewrite Hf, IH. Qed.



Section ReportEvents.
Context {R : PyRuntime}.

Lemma outcome_prints {A} diagnostic (records : response -> result (list A)) res :
  (forall msg, is_print (diagnostic msg) = true) ->
  forallb is_print (snd (outcome diagnostic records res)) = true.
Proof.
  intros Hd. destruct res as [r|err|]; simpl; [|by rewrite Hd|done].
  destruct (records r) as [l|[]]; simpl; try done. by rewrite Hd.
Qed.

Lemma full_ticket_section_prints tickets :
  forallb is_print (full_ticket_section tickets) = true.
Proof.
  destruct tickets as [|t ts]; [done|]. unfold full_ticket_section.
  rewrite forallb_app, forallb_flat_map by done. reflexivity.
Qed.

Lemma full_pr_section_prints prs : forallb is_print (full_pr_section prs) = true.
Proof.
  destruct prs as [|p ps]; [done|]. unfold full_pr_section.
  rewrite forallb_app, forallb_flat_map by done. reflexivity.
Qed.

Lemma concise_ticket_section_prints tickets :
  forallb is_print (concise_ticket_section tickets) = true.
Proof. destruct tickets as [|t ts]; [done|]. by apply forallb_map_true. Qed.

Lemma concise_pr_section_prints prs : forallb is_print (concise_pr_section prs) = true.
Proof. destruct prs as [|p ps]; [done|]. by apply forallb_map_true. Qed.


End ReportEvents.

Section OrderClaim.
Context {R : PyRuntime}.


End OrderClaim.



(** ** The calendar *)

Ltac dlia := Z.to_euclidean_division_equations; lia.

Lemma month_day_checked :
  forallb (month_day_check true) (seqZ 0 365) = true
  /\ forallb (month_day_check false) (seqZ 0 365) = true.
Proof. split; vm_compute; reflexivity. Qed.

Lemma month_day_correct leapyear n :
  0 <= n < 365 ->
  let '(m, d) := month_day leapyear n in
  1 <= m <= 12
  /\ 1 <= d <= DAYS_IN_MONTH m + (if (m =? 2) && leapyear then 1 else 0)
  /\ DAYS_BEFORE_MONTH m + (if (2 <? m) && leapyear then 1 else 0) + d = n + 1.
Proof.
  intros Hn.
  assert (Hc : month_day_check leapyear n = true).
  { destruct month_day_checked as [Ht Hf]. rewrite forallb_forall in Ht, Hf.
    destruct leapyear; [apply Ht|apply Hf]; apply list_elem_of_In, elem_of_seqZ; lia. }
  unfold month_day_check in Hc. destruct (month_day leapyear n) as [m d].
  repeat (apply andb_true_iff in Hc as [Hc ?]). lia.
Qed.

Lemma days_before_year_succ y :
  days_before_year (y + 1) = days_before_year y + 365 + (if is_leap y then 1 else 0).
Proof.
  unfold days_before_year, is_leap.
  destruct (Z.eqb_spec (y mod 4) 0), (Z.eqb_spec (y mod 100) 0),
    (Z.eqb_spec (y mod 400) 0); simpl; dlia.
Qed.

(** [ord2ymd] inverts [ymd2ord], and what it returns is a date. *)
Lemma ord2ymd_correct o :
  1 <= o ->
  let '(y, m, d) := ord2ymd o in
  ymd2ord y m d = o /\ 1 <= y /\ 1 <= m <= 12 /\ 1 <= d <= days_in_month y m.
Proof.
  intros Ho. unfold ord2ymd. cbv zeta. unfold DI400Y, DI100Y, DI4Y.
  set (n := o - 1).
  set (n400 := n / 146097). set (r1 := n mod 146097).
  set (n100 := r1 / 36524). set (r2 := r1 mod 36524).
  set (n4 := r2 / 1461). set (r3 := r2 mod 1461).
  set (n1 := r3 / 365). set (r4 := r3 mod 365).
  assert (Hn : 0 <= n) by (unfold n; lia).
  assert (H400 : n = 146097 * n400 + r1 /\ 0 <= r1 < 146097 /\ 0 <= n400)
    by (unfold n400, r1; dlia).
  assert (H100 : r1 = 36524 * n100 + r2 /\ 0 <= r2 < 36524 /\ 0 <= n100 <= 4)
    by (unfold n100, r2; dlia).
  assert (H4 : r2 = 1461 * n4 + r3 /\ 0 <= r3 < 1461 /\ 0 <= n4 <= 24)
    by (unfold n4, r3; dlia).
  assert (H1 : r3 = 365 * n1 + r4 /\ 0 <= r4 < 365 /\ 0 <= n1 <= 4)
    by (unfold n1, r4; dlia).
  clearbody n400 r1 n100 r2 n4 r3 n1 r4.
  destruct (Z.eqb_spec n1 4) as [E1|E1]; [|destruct (Z.eqb_spec n100 4) as [E100|E100]];
    cbn [orb].
  - (* last day of a leap year *)
    assert (Hleap : is_leap (n400 * 400 + 1 + n100 * 100 + n4 * 4 + n1 - 1) = true).
    { unfold is_leap. apply andb_true_iff. split.
      - apply Z.eqb_eq. dlia.
      - apply orb_true_iff. left. apply negb_true_iff, Z.eqb_neq. dlia. }
    unfold ymd2ord, days_in_month, days_before_month. rewrite Hleap.
    cbn. unfold days_before_year. repeat split; try lia. dlia.
  - (* last day of a 400-year cycle *)
    assert (Hleap : is_leap (n400 * 400 + 1 + n100 * 100 + n4 * 4 + n1 - 1) = true).
    { unfold is_leap. apply andb_true_iff. split.
      - apply Z.eqb_eq. dlia.
      - apply orb_true_iff. right. apply Z.eqb_eq. dlia. }
    unfold ymd2ord, days_in_month, days_before_month. rewrite Hleap.
    cbn. unfold days_before_year. repeat split; try lia. dlia.
  - set (y := n400 * 400 + 1 + n100 * 100 + n4 * 4 + n1).
    assert (Hleap : (n1 =? 3) && (negb (n4 =? 24) || (n100 =? 3)) = is_leap y).
    { assert (A4 : (y mod 4 =? 0) = (n1 =? 3))
        by (unfold y; destruct (Z.eqb_spec n1 3), (Z.eqb_spec ((n400 * 400 + 1
              + n100 * 100 + n4 * 4 + n1) mod 4) 0); try reflexivity; dlia).
      assert (A100 : (y mod 100 =? 0) = (n1 =? 3) && (n4 =? 24))
        by (unfold y; destruct (Z.eqb_spec n1 3), (Z.eqb_spec n4 24),
              (Z.eqb_spec ((n400 * 400 + 1 + n100 * 100 + n4 * 4 + n1) mod 100) 0);
            try reflexivity; dlia).
      assert (A400 : (y mod 400 =? 0) = (n1 =? 3) && (n4 =? 24) && (n100 =? 3))
        by (unfold y; destruct (Z.eqb_spec n1 3), (Z.eqb_spec n4 24), (Z.eqb_spec n100 3),
              (Z.eqb_spec ((n400 * 400 + 1 + n100 * 100 + n4 * 4 + n1) mod 400) 0);
            try reflexivity; dlia).
      unfold is_leap. rewrite A4, A100, A400.
      by destruct (n1 =? 3), (n4 =? 24), (n100 =? 3). }
    rewrite Hleap.
    pose proof (month_day_correct (is_leap y) r4 ltac:(lia)) as Hmd.
    destruct (month_day (is_leap y) r4) as [m d].
    destruct Hmd as (Hm & Hd & Hsum).
    unfold ymd2ord, days_in_month, days_before_month.
    assert (Hy : days_before_year y = n - r4) by (unfold days_before_year, y; dlia).
    rewrite Hy. repeat split; try lia.
    destruct ((m =? 2) && is_leap y) eqn:E; [|lia].
    apply andb_true_iff in E as [->%Z.eqb_eq _]. cbn in Hd. lia.
Qed.

Lemma days_before_month_range y m d :
  1 <= m <= 12 -> 1 <= d <= days_in_month y m ->
  1 <= days_before_month y m + d <= 365 + (if is_leap y then 1 else 0).
Proof.
  intros Hm. unfold days_in_month, days_before_month.
  assert (Hc : m = 1 \/ m = 2 \/ m = 3 \/ m = 4 \/ m = 5 \/ m = 6 \/ m = 7 \/ m = 8
               \/ m = 9 \/ m = 10 \/ m = 11 \/ m = 12) by lia.
  destruct (is_leap y); repeat (destruct Hc as [->|Hc]); try subst m; cbn; lia.
Qed.

Lemma check_date_fields_spec y m d :
  check_date_fields y m d = true <->
  1 <= y <= 9999 /\ 1 <= m <= 12 /\ 1 <= d <= days_in_month y m.
Proof.
  unfold check_date_fields, MINYEAR, MAXYEAR.
  rewrite !andb_true_iff, !Z.leb_le. lia.
Qed.

(** The ordinal of a date lies between 1 and [MAXORDINAL]. *)
Lemma ymd2ord_bounds y m d :
  check_date_fields y m d = true -> 1 <= ymd2ord y m d <= MAXORDINAL.
Proof.
  intros (Hy & Hm & Hd)%check_date_fields_spec.
  pose proof (days_before_month_range y m d Hm Hd) as Hmd.
  pose proof (days_before_year_succ y) as Hs.
  assert (H0 : 0 <= days_before_year y) by (unfold days_before_year; dlia).
  assert (H1 : days_before_year (y + 1) <= 3652059) by (unfold days_before_year; dlia).
  unfold ymd2ord, MAXORDINAL. lia.
Qed.

Lemma ord2ymd_date o :
  1 <= o <= MAXORDINAL ->
  let '(y, m, d) := ord2ymd o in
  ymd2ord y m d = o /\ check_date_fields y m d = true.
Proof.
  intros [Ho Hmax]. pose proof (ord2ymd_correct o Ho) as H.
  destruct (ord2ymd o) as [[y m] d]. destruct H as (Hord & Hy & Hm & Hd).
  split; [done|]. apply check_date_fields_spec. repeat split; try lia.
  destruct (Z.le_gt_cases y 9999) as [|Hbig]; [done|exfalso].
  pose proof (days_before_month_range y m d Hm Hd) as Hmd.
  assert (H1 : 3652059 <= days_before_year y) by (unfold days_before_year; dlia).
  unfold ymd2ord, MAXORDINAL in *. lia.
Qed.

(** Subtracting whole days from a valid [datetime] moves its ordinal by
    that many days and keeps the time of day, as long as the result is not
    before 0001-01-01. *)
Lemma datetime_sub_days dt n :
  valid_datetime dt = true -> 0 <= n -> 0 < toordinal dt - n ->
  exists r,
    datetime_sub dt n = Ok r
    /\ toordinal r = toordinal dt - n
    /\ hour r = hour dt /\ minute r = minute dt /\ second r = second dt
    /\ microsecond r = microsecond dt
    /\ valid_datetime r = true.
Proof.
  intros Hv Hn Hpos. unfold valid_datetime in Hv.
  apply andb_true_iff in Hv as [Hdate Htime].
  pose proof (ymd2ord_bounds _ _ _ Hdate) as Hb. fold (toordinal dt) in Hb.
  unfold check_time_fields in Htime. rewrite !andb_true_iff, !Z.leb_le in Htime.
  unfold datetime_sub.
  assert (Hr : (0 <? toordinal dt - n) && (toordinal dt - n <=? MAXORDINAL) = true).
  { apply andb_true_iff. split; [apply Z.ltb_lt|apply Z.leb_le]; lia. }
  rewrite Hr.
  pose proof (ord2ymd_date (toordinal dt - n) ltac:(lia)) as Hd.
  destruct (ord2ymd (toordinal dt - n)) as [[y m] d]. destruct Hd as [Hord Hchk].
  eexists. split; [reflexivity|]. unfold toordinal at 1, valid_datetime. cbn.
  rewrite Hchk. unfold check_time_fields. cbn.
  repeat split; try done; try dlia.
Qed.

(** An ordinal before year 1 is out of range: [OverflowError]. *)
Lemma datetime_sub_overflow dt n :
  toordinal dt - n <= 0 -> datetime_sub dt n = Raise OverflowError.
Proof.
  intros H. unfold datetime_sub.
  destruct (Z.ltb_spec 0 (toordinal dt - n)); [lia|reflexivity].
Qed.

(** ** Strings of digits *)

Lemma drop_while_id {A} (p : A -> bool) l :
  match l with [] => True | x :: _ => p x = false end -> drop_while p l = l.
Proof. destruct l as [|x l]; simpl; [done|]. by intros ->. Qed.

Lemma foldl_None {A} (f : option Z -> A -> option Z) l :
  (forall x, f None x = None) -> foldl f None l = None.
Proof. intros Hf. induction l as [|x l IH]; simpl; [done|]. by rewrite Hf. Qed.

Section Digits.
Context {R : PyRuntime} {L : PyRuntimeLaws R}.

Lemma todecimal_digit c :
  48 <= c <= 57 -> unicode_todecimal c = Some (c - 48).
Proof.
  intros Hc. rewrite todecimal_ascii by lia.
  destruct (Z.leb_spec 48 c), (Z.leb_spec c 57); simpl; [done|lia..].
Qed.

Lemma decimal_not_ascii_other c d :
  unicode_todecimal c = Some d -> 0 <= c < 128 -> 48 <= c <= 57.
Proof.
  intros Hd Hc. rewrite todecimal_ascii in Hd by done.
  destruct (Z.leb_spec 48 c), (Z.leb_spec c 57); simpl in Hd; try discriminate; lia.
Qed.

Lemma decimal_not_space c d :
  unicode_todecimal c = Some d -> unicode_isspace c = false.
Proof. intros Hd. eapply isdigit_not_space, todecimal_isdigit, Hd. Qed.

Lemma decimal_not_int_space c d :
  unicode_todecimal c = Some d -> int_isspace c = false.
Proof.
  intros Hd. unfold int_isspace. destruct (Z.ltb_spec c 127); [|by eapply decimal_not_space].
  destruct (Z.le_gt_cases 0 c).
  - pose proof (decimal_not_ascii_other c d Hd ltac:(lia)). zcases; simpl; lia || done.
  - zcases; simpl; lia || done.
Qed.

Lemma decimal_not_punctuation c d :
  unicode_todecimal c = Some d -> c <> 43 /\ c <> 45 /\ c <> 95.
Proof.
  intros Hd. repeat split; intros ->;
    by pose proof (decimal_not_ascii_other _ d Hd ltac:(lia)); lia.
Qed.

Lemma digits_fold_decimal s acc n :
  foldl digit_step (Some acc) s = Some n ->
  Forall (fun c => is_Some (unicode_todecimal c)) s.
Proof.
  revert acc. induction s as [|c s IH]; intros acc; simpl; [constructor|].
  destruct (unicode_todecimal c) as [d|] eqn:E; simpl.
  - intros H. constructor; [by eexists|by eapply IH].
  - by rewrite foldl_None.
Qed.

Lemma int_digits_decimal s acc k n :
  foldl digit_step (Some acc) s = Some n ->
  int_digits acc k s = Some (n, (k + length s)%nat).
Proof.
  revert acc k. induction s as [|c s IH]; intros acc k; simpl.
  - intros [= ->]. by rewrite Nat.add_0_r.
  - destruct (unicode_todecimal c) as [d|] eqn:E; simpl; [|by rewrite foldl_None].
    intros H. destruct (decimal_not_punctuation c d E) as (_ & _ & H95).
    destruct (Z.eqb_spec c 95); [done|]. rewrite (IH _ (S k) H).
    do 2 f_equal. lia.
Qed.

Lemma decimal_value_cons s n :
  decimal_value s = Some n ->
  exists c rest d, s = c :: rest /\ unicode_todecimal c = Some d
                   /\ foldl digit_step (Some d) rest = Some n.
Proof.
  destruct s as [|c rest]; [discriminate|]. unfold decimal_value.
  change (foldl _ (Some 0) (c :: rest))
    with (foldl digit_step (digit_step (Some 0) c) rest).
  unfold digit_step at 2. simpl.
  destruct (unicode_todecimal c) as [d|] eqn:E; simpl; [|by rewrite foldl_None].
  intros H. exists c, rest, d. by rewrite Z.add_0_l in H.
Qed.

Lemma decimal_value_all s n :
  decimal_value s = Some n -> Forall (fun c => is_Some (unicode_todecimal c)) s.
Proof.
  intros (c & rest & d & -> & Hc & Hrest)%decimal_value_cons.
  constructor; [by eexists|by eapply digits_fold_decimal].
Qed.

Lemma decimal_value_nonneg s n : decimal_value s = Some n -> 0 <= n.
Proof.
  intros (c & rest & d & -> & Hc & Hrest)%decimal_value_cons.
  pose proof (todecimal_range _ _ Hc) as Hd.
  assert (Hgen : forall l a m, 0 <= a -> foldl digit_step (Some a) l = Some m -> 0 <= m).
  { induction l as [|x l IH]; intros a m Ha; simpl; [intros [= <-]; lia|].
    destruct (unicode_todecimal x) as [v|] eqn:E; simpl; [|by rewrite foldl_None].
    pose proof (todecimal_range _ _ E). apply IH. lia. }
  eapply Hgen; [|done]. lia.
Qed.

(** [int] reads a string of decimal digits as its value. *)
Lemma int_of_str_decimal s n :
  decimal_value s = Some n -> within_digit_limit s -> int_of_str s = Some n.
Proof.
  intros Hv Hlim. pose proof (decimal_value_all s n Hv) as Hall.
  destruct (decimal_value_cons s n Hv) as (c & rest & d & -> & Hc & Hrest).
  unfold int_of_str.
  assert (Hstrip : rev (drop_while int_isspace (rev (drop_while int_isspace (c :: rest))))
                   = c :: rest).
  { rewrite (drop_while_id _ (c :: rest)) by (by eapply decimal_not_int_space).
    rewrite drop_while_id; [apply rev_involutive|].
    destruct (rev (c :: rest)) as [|x l] eqn:Er; [done|].
    assert (Hx : x ∈ c :: rest).
    { apply list_elem_of_In, in_rev. rewrite Er. by left. }
    rewrite Forall_forall in Hall. destruct (Hall x Hx) as [dx Hdx].
    by eapply decimal_not_int_space. }
  rewrite Hstrip. destruct (decimal_not_punctuation c d Hc) as (H43 & H45 & _).
  destruct (Z.eqb_spec c 43); [done|]. destruct (Z.eqb_spec c 45); [done|].
  unfold int_body. rewrite Hc, (int_digits_decimal rest d 1 n Hrest).
  assert (Hno : negb (Nat.eqb int_max_str_digits 0)
                && (int_max_str_digits <? 1 + length rest)%nat = false).
  { destruct Hlim as [->|Hlen]; [done|]. apply andb_false_iff. right.
    apply Nat.ltb_ge. simpl in Hlen. lia. }
  rewrite Hno. f_equal. lia.
Qed.

Lemma isdigit_decimal s n : decimal_value s = Some n -> isdigit s = true.
Proof.
  intros Hv. pose proof (decimal_value_all s n Hv) as Hall.
  destruct s as [|c rest]; [discriminate|]. unfold isdigit.
  apply forallb_forall. intros x Hx%list_elem_of_In.
  rewrite Forall_forall in Hall. destruct (Hall x Hx) as [d Hd].
  by eapply todecimal_isdigit.
Qed.

End Digits.

(** ** [strptime] on dates of the shape [YYYY-MM-DD] *)

(** Decides the comparisons of the goal from the hypotheses. *)
Ltac zdecide :=
  repeat match goal with
  | |- context [?a <=? ?b] =>
      first [ rewrite (proj2 (Z.leb_le a b)) by lia | rewrite (proj2 (Z.leb_gt a b)) by lia ]
  | |- context [?a <? ?b] =>
      first [ rewrite (proj2 (Z.ltb_lt a b)) by lia | rewrite (proj2 (Z.ltb_ge a b)) by lia ]
  | |- context [?a =? ?b] =>
      first [ rewrite (proj2 (Z.eqb_eq a b)) by lia | rewrite (proj2 (Z.eqb_neq a b)) by lia ]
  end.

Section Strptime.
Context {R : PyRuntime} {L : PyRuntimeLaws R}.

Lemma is_decimal_digit c : 48 <= c <= 57 -> is_decimal c = true.
Proof.
  intros Hc. unfold is_decimal. apply bool_decide_eq_true.
  rewrite todecimal_digit by done. by eexists.
Qed.

Lemma decimal_value_2 a b :
  48 <= a <= 57 -> 48 <= b <= 57 ->
  decimal_value [a; b] = Some (10 * (a - 48) + (b - 48)).
Proof.
  intros Ha Hb. unfold decimal_value, digit_step. cbn [foldl].
  rewrite !todecimal_digit by done. cbn. f_equal; lia.
Qed.

Lemma decimal_value_4 a b c d :
  48 <= a <= 57 -> 48 <= b <= 57 -> 48 <= c <= 57 -> 48 <= d <= 57 ->
  decimal_value [a; b; c; d]
  = Some (1000 * (a - 48) + 100 * (b - 48) + 10 * (c - 48) + (d - 48)).
Proof.
  intros Ha Hb Hc Hd. unfold decimal_value, digit_step. cbn [foldl].
  rewrite !todecimal_digit by done. cbn. f_equal; lia.
Qed.

Lemma short_within_limit s : (length s <= 640)%nat -> within_digit_limit s.
Proof.
  intros Hs. destruct max_str_digits_floor as [H|H]; [by left|right; lia].
Qed.

(** The month and day groups match the two-digit texts first. *)
Lemma month_day_groups (Y : str) m1 m2 d1 d2 :
  48 <= m1 <= 57 -> 48 <= m2 <= 57 -> 48 <= d1 <= 57 -> 48 <= d2 <= 57 ->
  1 <= 10 * (m1 - 48) + (m2 - 48) <= 12 ->
  1 <= 10 * (d1 - 48) + (d2 - 48) <= 31 ->
  exists others,
    ('(m, r3) ← group_m [m1; m2; 45; d1; d2];
     r4 ← hyphen r3;
     '(d, r5) ← group_d r4;
     [(Y, m, d, r5)])
    = (Y, [m1; m2], [d1; d2], []) :: others.
Proof.
  intros Hm1 Hm2 Hd1 Hd2 Hm Hd.
  pose proof (is_decimal_digit d2 Hd2) as Hdec.
  assert (Cm : m1 = 48 \/ m1 = 49) by lia.
  assert (Cd : d1 = 48 \/ d1 = 49 \/ d1 = 50 \/ d1 = 51) by lia.
  unfold group_m, two_chars, one_char, between.
  destruct Cm as [->| ->]; destruct Cd as [->|[->|[->| ->]]];
    zdecide; cbn [andb app mbind list_bind];
    unfold hyphen; zdecide; cbn [app mbind list_bind];
    unfold group_d, two_chars, one_char, between; rewrite ?Hdec; zdecide;
    cbn [andb app mbind list_bind]; eexists; reflexivity.
Qed.

(** A string of the shape [YYYY-MM-DD] that names a date is parsed as
    that date at midnight. *)
Lemma strptime_of_shape s dt :
  parse_YYYY_MM_DD s = Some dt -> strptime_ymd s = Some dt.
Proof.
  unfold parse_YYYY_MM_DD.
  destruct s as [|y1 [|y2 [|y3 [|y4 [|h1 [|m1 [|m2 [|h2 [|d1 [|d2 [|]]]]]]]]]]];
    try discriminate.
  destruct (_ && _) eqn:Hc; [|discriminate]. intros [= <-].
  cbn [forallb] in Hc. unfold between in Hc.
  rewrite !andb_true_iff, !Z.leb_le, !Z.eqb_eq in Hc.
  destruct Hc as [[[Hdig ->] ->] Hchk].
  pose proof (proj1 (check_date_fields_spec _ _ _) Hchk) as (Hy & Hm & Hd).
  assert (Hd31 : 10 * (d1 - 48) + (d2 - 48) <= 31).
  { destruct Hd as [_ Hd]. revert Hd. unfold days_in_month.
    destruct ((_ =? 2) && is_leap _); [intros; lia|].
    set (m := 10 * (m1 - 48) + (m2 - 48)) in *.
    assert (Cm : m = 1 \/ m = 2 \/ m = 3 \/ m = 4 \/ m = 5 \/ m = 6 \/ m = 7 \/ m = 8
                 \/ m = 9 \/ m = 10 \/ m = 11 \/ m = 12) by lia.
    repeat (destruct Cm as [->|Cm]); try rewrite Cm; cbn; lia. }
  destruct (month_day_groups [y1; y2; y3; y4] m1 m2 d1 d2) as [others Hgroups]; try lia.
  unfold strptime_ymd.
  match goal with |- context [format_matches ?l] =>
    assert (Hfm : format_matches l
                  = ([y1; y2; y3; y4], [m1; m2], [d1; d2], []) :: others)
  end.
  { unfold format_matches, group_Y. rewrite !is_decimal_digit by lia.
    cbn [andb mbind list_bind app].
    change (hyphen [45; m1; m2; 45; d1; d2]) with [[m1; m2; 45; d1; d2]].
    cbn [mbind list_bind app]. rewrite !app_nil_r. exact Hgroups. }
  rewrite Hfm.
  pose proof (decimal_value_4 y1 y2 y3 y4 ltac:(lia) ltac:(lia) ltac:(lia) ltac:(lia)) as HY.
  pose proof (decimal_value_2 m1 m2 ltac:(lia) ltac:(lia)) as HM.
  pose proof (decimal_value_2 d1 d2 ltac:(lia) ltac:(lia)) as HD.
  apply int_of_str_decimal in HY, HM, HD;
    try (apply short_within_limit; simpl; lia).
  cbn [mbind option_bind].
  unfold str, char in *. rewrite HY. cbn [mbind option_bind].
  rewrite HM. cbn [mbind option_bind]. rewrite HD. cbn [mbind option_bind].
  by rewrite Hchk.
Qed.

(** What [strptime] accepts has a hyphen in fifth place, so it is not a
    string of digits. *)
Lemma strptime_not_isdigit s dt : strptime_ymd s = Some dt -> isdigit s = false.
Proof.
  unfold strptime_ymd, format_matches, group_Y.
  destruct s as [|a [|b [|c [|d rest]]]]; try discriminate.
  destruct (_ && _); [|discriminate]. cbn [mbind list_bind app].
  destruct rest as [|h rest]; [discriminate|].
  change (hyphen (h :: rest)) with (if h =? 45 then [rest] else []).
  destruct (Z.eqb_spec h 45) as [->|]; [|discriminate].
  intros _. unfold isdigit. cbn [forallb].
  rewrite (isdigit_ascii 45) by lia. cbn. by rewrite !andb_false_r.
Qed.

End Strptime.

(** ** The prompt loops *)

Lemma while_true_round {A} (body : M (option A)) w :
  while_true body w =
  match body w with
  | (Raise e, w') => (Raise e, w')
  | (Ok (Some v), w') => (Ok v, w')
  | (Ok None, w') => while_reading (length (stdin w)) body w'
  end.
Proof.
  unfold while_true. cbn [while_reading]. unfold bind.
  by destruct (body w) as [[[v|]|e] w'].
Qed.

(** A round that reads a line and asks again leaves the loop as it was,
    on the remaining input. *)
Lemma while_true_retry {A} (body : M (option A)) w w' :
  body w = (Ok None, w') -> length (stdin w) = S (length (stdin w')) ->
  while_true body w = while_true body w'.
Proof.
  intros Hb Hlen. rewrite while_true_round, Hb, Hlen. reflexivity.
Qed.

Lemma input_line prompt w line rest :
  stdin w = line :: rest ->
  input prompt w = (Ok line, emit (consume w) [Input prompt (Some line)]).
Proof. intros H. unfold input. by rewrite H. Qed.

Lemma consume_emit w evs : consume (emit w evs) = emit (consume w) evs.
Proof. reflexivity. Qed.

Lemma tick_emit w evs : tick (emit w evs) = emit (tick w) evs.
Proof. reflexivity. Qed.

Section Rounds.
Context {R : PyRuntime}.

(** The rounds of the start prompt, case by case. *)
Lemma start_round_invalid w line rest :
  stdin w = line :: rest ->
  isdigit (strip line) = false -> strptime_ymd (strip line) = None ->
  start_date_round w
  = (Ok None, emit (consume w) (Input start_prompt (Some line) :: invalid_start)).
Proof.
  intros Hin Hd Hp. unfold start_date_round, bind at 1.
  rewrite (input_line _ _ _ _ Hin). cbv zeta. rewrite Hd, Hp.
  rewrite !bind_print. unfold ret. by rewrite !emit_emit.
Qed.

Lemma start_round_date w line rest d :
  stdin w = line :: rest ->
  isdigit (strip line) = false -> strptime_ymd (strip line) = Some d ->
  start_date_round w
  = (Ok (Some d), emit (consume w) (Input start_prompt (Some line) :: using_start d)).
Proof.
  intros Hin Hd Hp. unfold start_date_round, bind at 1.
  rewrite (input_line _ _ _ _ Hin). cbv zeta. rewrite Hd, Hp.
  rewrite !bind_print. unfold ret. by rewrite !emit_emit.
Qed.

Lemma start_round_days w line rest n :
  stdin w = line :: rest ->
  isdigit (strip line) = true -> int_of_str (strip line) = Some n ->
  start_date_round w
  = let w1 := emit (tick (consume w)) [Input start_prompt (Some line)] in
    match result_bind (timedelta_days n) (datetime_sub (clock w (ticks w))) with
    | Ok d => (Ok (Some d), emit w1 (using_start d))
    | Raise e => (Raise e, w1)
    end.
Proof.
  intros Hin Hd Hn. unfold start_date_round, bind at 1.
  rewrite (input_line _ _ _ _ Hin). cbv zeta. rewrite Hd, Hn.
  unfold bind at 1, lift at 1. unfold bind at 1, now at 1.
  cbn [emit consume tick clock ticks]. unfold bind at 1, lift at 1.
  destruct (timedelta_days n) as [delta|e]; cbn [result_bind]; [|reflexivity].
  unfold bind at 1, lift at 1.
  destruct (datetime_sub _ delta) as [d|e]; [|reflexivity].
  rewrite !bind_print. unfold ret, emit; cbn. by rewrite <- !app_assoc.
Qed.

Lemma start_round_not_int w line rest :
  stdin w = line :: rest ->
  isdigit (strip line) = true -> int_of_str (strip line) = None ->
  start_date_round w
  = (Raise ValueError, emit (consume w) [Input start_prompt (Some line)]).
Proof.
  intros Hin Hd Hn. unfold start_date_round, bind at 1.
  rewrite (input_line _ _ _ _ Hin). cbv zeta. rewrite Hd, Hn. reflexivity.
Qed.

(** The rounds of the end prompt. *)
Lemma end_round_empty w line rest :
  stdin w = line :: rest -> strip line = [] ->
  end_date_round w
  = (Ok (Some (clock w (ticks w))),
     emit (tick (consume w))
       (Input end_prompt (Some line) :: using_end (clock w (ticks w)))).
Proof.
  intros Hin Hs. unfold end_date_round, bind at 1.
  rewrite (input_line _ _ _ _ Hin). cbv zeta. rewrite Hs. cbn [truthy negb].
  unfold bind at 1, now at 1. rewrite !bind_print. unfold ret, emit; cbn.
  by rewrite <- !app_assoc.
Qed.

Lemma end_round_date w line rest d :
  stdin w = line :: rest ->
  strip line <> [] -> strptime_ymd (strip line) = Some d ->
  end_date_round w
  = (Ok (Some d), emit (consume w) (Input end_prompt (Some line) :: using_end d)).
Proof.
  intros Hin Hs Hp. unfold end_date_round, bind at 1.
  rewrite (input_line _ _ _ _ Hin). cbv zeta. rewrite Hp.
  destruct (strip line) as [|c l]; [done|]. cbn [truthy negb].
  rewrite !bind_print. unfold ret. by rewrite !emit_emit.
Qed.

Lemma end_round_invalid w line rest :
  stdin w = line :: rest ->
  strip line <> [] -> strptime_ymd (strip line) = None ->
  end_date_round w
  = (Ok None, emit (consume w) (Input end_prompt (Some line) :: invalid_end)).
Proof.
  intros Hin Hs Hp. unfold end_date_round, bind at 1.
  rewrite (input_line _ _ _ _ Hin). cbv zeta. rewrite Hp.
  destruct (strip line) as [|c l]; [done|]. cbn [truthy negb].
  rewrite !bind_print. unfold ret. by rewrite !emit_emit.
Qed.

Lemma get_start_date_eq w :
  get_start_date w = while_true start_date_round (emit w start_header).
Proof. unfold get_start_date. by rewrite !bind_print, emit_emit. Qed.

Lemma get_end_date_eq w :
  get_end_date w = while_true end_date_round (emit w end_header).
Proof. unfold get_end_date. by rewrite !bind_print, emit_emit. Qed.

Lemma iter_consume_emit n w evs :
  Nat.iter n consume (emit w evs) = emit (Nat.iter n consume w) evs.
Proof. induction n as [|n IH]; simpl; [done|]. by rewrite IH, consume_emit. Qed.

Lemma retries {A} (body : M (option A)) (again : str -> list event) bad :
  (forall w line rest, stdin w = line :: rest -> line ∈ bad ->
     body w = (Ok None, emit (consume w) (again line))) ->
  forall rest w, stdin w = bad ++ rest ->
  while_true body w
  = while_true body (emit (Nat.iter (length bad) consume w) (flat_map again bad)).
Proof.
  induction bad as [|line bad IH]; intros Hbody rest w Hin.
  - simpl. by rewrite emit_nil.
  - assert (Hb := Hbody w line (bad ++ rest) Hin ltac:(by left)).
    rewrite (while_true_retry _ _ _ Hb) by (cbn; by rewrite Hin).
    rewrite (IH ltac:(intros; eapply Hbody; [done|by right]) rest)
      by (cbn; by rewrite Hin).
    rewrite iter_consume_emit, emit_emit. cbn [length flat_map].
    by rewrite Nat.iter_succ_r.
Qed.

(** Lines that a prompt rejects are asked for again, one after the other:
    the loop goes on with the input that follows them. *)
Lemma start_prompt_retries bad rest w :
  stdin w = bad ++ rest ->
  Forall (fun line => isdigit (strip line) = false /\ strptime_ymd (strip line) = None) bad ->
  while_true start_date_round w
  = while_true start_date_round
      (emit (Nat.iter (length bad) consume w)
         (flat_map (fun line => Input start_prompt (Some line) :: invalid_start) bad)).
Proof.
  intros Hin Hbad. apply (retries _ _ bad) with (rest := rest); [|done].
  intros w0 line rest0 Hin0 Hline. rewrite Forall_forall in Hbad.
  destruct (Hbad line Hline) as [Hd Hp]. by eapply start_round_invalid.
Qed.

Lemma end_prompt_retries bad rest w :
  stdin w = bad ++ rest ->
  Forall (fun line => strip line <> [] /\ strptime_ymd (strip line) = None) bad ->
  while_true end_date_round w
  = while_true end_date_round
      (emit (Nat.iter (length bad) consume w)
         (flat_map (fun line => Input end_prompt (Some line) :: invalid_end) bad)).
Proof.
  intros Hin Hbad. apply (retries _ _ bad) with (rest := rest); [|done].
  intros w0 line rest0 Hin0 Hline. rewrite Forall_forall in Hbad.
  destruct (Hbad line Hline) as [Hd Hp]. by eapply end_round_invalid.
Qed.

End Rounds.

(** ** The start-date prompt *)

Section StartDate.
Context {R : PyRuntime} {L : PyRuntimeLaws R}.

(** X1: A line of decimal digits that denotes [n] days, with [n] days before
    now still a date, is answered by now minus [n] days: the ordinal of the
    date moves back by [n] and the time of day is kept. *)
Theorem start_date_days_back w line rest n :
  stdin w = line :: rest ->
  valid_datetime (clock w (ticks w)) = true ->
  decimal_value (strip line) = Some n ->
  within_digit_limit (strip line) ->
  n < toordinal (clock w (ticks w)) ->
  exists d,
    get_start_date w
    = (Ok d, emit (tick (consume w))
               (start_header ++ Input start_prompt (Some line) :: using_start d))
    /\ toordinal d = toordinal (clock w (ticks w)) - n
    /\ hour d = hour (clock w (ticks w)) /\ minute d = minute (clock w (ticks w))
    /\ second d = second (clock w (ticks w))
    /\ microsecond d = microsecond (clock w (ticks w))
    /\ valid_datetime d = true.
Proof.
  intros Hin Hv Hn Hlim Hlt.
  pose proof (decimal_value_nonneg _ _ Hn) as H0.
  destruct (datetime_sub_days _ n Hv H0 ltac:(lia)) as (d & Hsub & Hd).
  exists d. split; [|exact Hd].
  rewrite get_start_date_eq, while_true_round.
  rewrite (start_round_days (emit w start_header) line rest n Hin
             (isdigit_decimal _ _ Hn) (int_of_str_decimal _ _ Hn Hlim)).
  cbv zeta. cbn [emit clock ticks].
  pose proof (ymd2ord_bounds (year (clock w (ticks w))) (month (clock w (ticks w)))
                (day (clock w (ticks w)))) as Hb.
  unfold valid_datetime in Hv. apply andb_true_iff in Hv as [Hdate _].
  specialize (Hb Hdate). fold (toordinal (clock w (ticks w))) in Hb.
  unfold timedelta_days, MAXORDINAL in *.
  destruct (Z.ltb_spec 999999999 (Z.abs n)); [lia|]. cbn [result_bind].
  rewrite Hsub. f_equal. unfold emit, tick, consume; cbn. by rewrite <- !app_assoc.
Qed.

(** X2: A day count that reaches back to before 0001-01-01 is not answered
    at all: the subtraction raises [OverflowError], which nothing in the
    function catches. *)
Theorem start_date_out_of_range w line rest n :
  stdin w = line :: rest ->
  decimal_value (strip line) = Some n ->
  within_digit_limit (strip line) ->
  toordinal (clock w (ticks w)) <= n ->
  get_start_date w
  = (Raise OverflowError,
     emit (tick (consume w)) (start_header ++ [Input start_prompt (Some line)])).
Proof.
  intros Hin Hn Hlim Hge.
  rewrite get_start_date_eq, while_true_round.
  rewrite (start_round_days (emit w start_header) line rest n Hin
             (isdigit_decimal _ _ Hn) (int_of_str_decimal _ _ Hn Hlim)).
  cbv zeta. cbn [emit clock ticks].
  assert (Hr : result_bind (timedelta_days n) (datetime_sub (clock w (ticks w)))
               = Raise OverflowError).
  { unfold timedelta_days. destruct (Z.ltb_spec 999999999 (Z.abs n)); [reflexivity|].
    cbn [result_bind]. apply datetime_sub_overflow. lia. }
  rewrite Hr. f_equal. unfold emit, tick, consume; cbn. by rewrite <- !app_assoc.
Qed.

(** X3: A line of the shape [YYYY-MM-DD] that names a date is answered by
    that date at midnight; the clock is not read. *)
Theorem start_date_of_shape w line rest d :
  stdin w = line :: rest ->
  parse_YYYY_MM_DD (strip line) = Some d ->
  get_start_date w
  = (Ok d, emit (consume w)
             (start_header ++ Input start_prompt (Some line) :: using_start d)).
Proof.
  intros Hin Hp. apply strptime_of_shape in Hp.
  rewrite get_start_date_eq, while_true_round.
  rewrite (start_round_date (emit w start_header) line rest d Hin
             (strptime_not_isdigit _ _ Hp) Hp).
  f_equal. unfold emit, consume; cbn. by rewrite <- !app_assoc.
Qed.

End StartDate.

Lemma input_eof prompt w :
  stdin w = [] -> input prompt w = (Raise EOFError, emit w [Input prompt None]).
Proof. intros H. unfold input. by rewrite H. Qed.

Section StartDateRaw.
Context {R : PyRuntime}.

Lemma start_round_eof w :
  stdin w = [] ->
  start_date_round w = (Raise EOFError, emit w [Input start_prompt None]).
Proof. intros H. unfold start_date_round, bind. by rewrite (input_eof _ _ H). Qed.

(** X4: A line that [isdigit] accepts and [int] rejects leaves the function
    as a [ValueError]: the conversion stands outside the [try], so the line
    is not asked for again and the input after it is not read. *)
Theorem start_date_digit_not_decimal w line rest :
  stdin w = line :: rest ->
  isdigit (strip line) = true ->
  int_of_str (strip line) = None ->
  get_start_date w
  = (Raise ValueError,
     emit (consume w) (start_header ++ [Input start_prompt (Some line)]))
  /\ stdin (snd (get_start_date w)) = rest.
Proof.
  intros Hin Hd Hn.
  rewrite get_start_date_eq, while_true_round.
  rewrite (start_round_not_int (emit w start_header) line rest Hin Hd Hn).
  split; [|cbn; by rewrite Hin].
  f_equal. unfold emit, consume; cbn. by rewrite <- !app_assoc.
Qed.

(** X5: Lines that are neither digits nor a date are answered by the error
    message and asked for again, one after the other; the first line that
    is a date decides. *)
Theorem start_date_after_rejected_lines w bad line rest d :
  stdin w = bad ++ line :: rest ->
  Forall (fun l => isdigit (strip l) = false /\ strptime_ymd (strip l) = None) bad ->
  isdigit (strip line) = false ->
  strptime_ymd (strip line) = Some d ->
  get_start_date w
  = (Ok d,
     emit (Nat.iter (S (length bad)) consume w)
       (start_header
        ++ flat_map (fun l => Input start_prompt (Some l) :: invalid_start) bad
        ++ Input start_prompt (Some line) :: using_start d)).
Proof.
  intros Hin Hbad Hd Hp.
  rewrite get_start_date_eq.
  rewrite (start_prompt_retries bad (line :: rest)) by done.
  rewrite while_true_round.
  assert (Hst : stdin (emit (Nat.iter (length bad) consume (emit w start_header))
                         (flat_map (fun l => Input start_prompt (Some l) :: invalid_start)
                                   bad)) = line :: rest).
  { rewrite iter_consume_emit. cbn [emit stdin].
    clear -Hin. revert w Hin. induction bad as [|b bad IH]; intros w Hin; [done|].
    cbn [length]. rewrite Nat.iter_succ_r. apply IH. cbn. by rewrite Hin. }
  rewrite (start_round_date _ line rest d Hst Hd Hp).
  f_equal. rewrite consume_emit, iter_consume_emit, consume_emit, !emit_emit.
  reflexivity.
Qed.

(** X6: When every line is rejected the function asks once more, finds
    standard input exhausted and leaves as [EOFError]. *)
Theorem start_date_input_exhausted w :
  Forall (fun l => isdigit (strip l) = false /\ strptime_ymd (strip l) = None) (stdin w) ->
  fst (get_start_date w) = Raise EOFError
  /\ stdin (snd (get_start_date w)) = [].
Proof.
  intros Hbad. rewrite get_start_date_eq.
  rewrite (start_prompt_retries (stdin w) []) by (by rewrite ?app_nil_r).
  rewrite while_true_round.
  assert (Hst : stdin (emit (Nat.iter (length (stdin w)) consume (emit w start_header))
                         (flat_map (fun l => Input start_prompt (Some l) :: invalid_start)
                                   (stdin w))) = []).
  { rewrite iter_consume_emit. cbn [emit stdin].
    clear. remember (stdin w) as l eqn:El. revert w El.
    induction l as [|b l IH]; intros w El; [done|].
    cbn [length]. rewrite Nat.iter_succ_r. apply IH. cbn. by rewrite <- El. }
  rewrite (start_round_eof _ Hst). split; [reflexivity|exact Hst].
Qed.

End StartDateRaw.

Lemma start_date_days_back_witness :
  exists d,
    get_start_date (R:=latin1_runtime) (sample_world sample_env [lit " 14 "] good_network)
    = (Ok d, emit (tick (consume (sample_world sample_env [lit " 14 "] good_network)))
               (start_header ++ Input start_prompt (Some (lit " 14 ")) :: using_start d))
    /\ toordinal d
       = toordinal (clock (sample_world sample_env [lit " 14 "] good_network)
                      (ticks (sample_world sample_env [lit " 14 "] good_network))) - 14
    /\ hour d = 12 /\ minute d = 30 /\ second d = 45 /\ microsecond d = 7
    /\ valid_datetime d = true.
Proof.
  apply (start_date_days_back (R:=latin1_runtime) (L:=latin1_laws)
           (sample_world sample_env [lit " 14 "] good_network) (lit " 14 ") [] 14).
  - reflexivity.
  - reflexivity.
  - reflexivity.
  - right. vm_compute. lia.
  - reflexivity.
Defined.

Lemma start_date_out_of_range_witness :
  get_start_date (R:=latin1_runtime) (sample_world sample_env [lit "1000000"] good_network)
  = (Raise OverflowError,
     emit (tick (consume (sample_world sample_env [lit "1000000"] good_network)))
       (start_header ++ [Input start_prompt (Some (lit "1000000"))])).
Proof.
  apply (start_date_out_of_range (R:=latin1_runtime) (L:=latin1_laws)
           (sample_world sample_env [lit "1000000"] good_network) (lit "1000000") []
           1000000).
  - reflexivity.
  - reflexivity.
  - right. vm_compute. lia.
  - vm_compute. discriminate.
Defined.

Lemma start_date_of_shape_witness :
  get_start_date (R:=latin1_runtime)
    (sample_world sample_env [lit "2024-02-29"] good_network)
  = (Ok (midnight 2024 2 29),
     emit (consume (sample_world sample_env [lit "2024-02-29"] good_network))
       (start_header ++ Input start_prompt (Some (lit "2024-02-29"))
                        :: using_start (midnight 2024 2 29))).
Proof.
  apply (start_date_of_shape (R:=latin1_runtime) (L:=latin1_laws)
           (sample_world sample_env [lit "2024-02-29"] good_network)
           (lit "2024-02-29") []).
  - reflexivity.
  - reflexivity.
Defined.

Lemma start_date_digit_not_decimal_witness :
  get_start_date (R:=latin1_runtime) (sample_world sample_env [[178]; lit "14"] good_network)
  = (Raise ValueError,
     emit (consume (sample_world sample_env [[178]; lit "14"] good_network))
       (start_header ++ [Input start_prompt (Some [178])]))
  /\ stdin (snd (get_start_date (R:=latin1_runtime)
                   (sample_world sample_env [[178]; lit "14"] good_network)))
     = [lit "14"].
Proof.
  apply (start_date_digit_not_decimal (R:=latin1_runtime)
           (sample_world sample_env [[178]; lit "14"] good_network) [178] [lit "14"]);
    reflexivity.
Defined.

Lemma start_date_after_rejected_lines_witness :
  get_start_date (R:=latin1_runtime)
    (sample_world sample_env [lit "abc"; lit "2024-13-40"; lit "2024-1-5"] good_network)
  = (Ok (midnight 2024 1 5),
     emit (Nat.iter 3 consume
             (sample_world sample_env [lit "abc"; lit "2024-13-40"; lit "2024-1-5"]
                good_network))
       (start_header
        ++ flat_map (fun l => Input start_prompt (Some l) :: invalid_start)
             [lit "abc"; lit "2024-13-40"]
        ++ Input start_prompt (Some (lit "2024-1-5")) :: using_start (midnight 2024 1 5))).
Proof.
  apply (start_date_after_rejected_lines (R:=latin1_runtime)
           (sample_world sample_env [lit "abc"; lit "2024-13-40"; lit "2024-1-5"]
              good_network)
           [lit "abc"; lit "2024-13-40"] (lit "2024-1-5") []).
  - reflexivity.
  - repeat constructor; vm_compute; reflexivity.
  - reflexivity.
  - reflexivity.
Defined.

Lemma start_date_input_exhausted_witness :
  fst (get_start_date (R:=latin1_runtime)
         (sample_world sample_env [lit "abc"; lit "tomorrow"] good_network))
  = Raise EOFError
  /\ stdin (snd (get_start_date (R:=latin1_runtime)
                   (sample_world sample_env [lit "abc"; lit "tomorrow"] good_network)))
     = [].
Proof.
  apply (start_date_input_exhausted (R:=latin1_runtime)
           (sample_world sample_env [lit "abc"; lit "tomorrow"] good_network)).
  repeat constructor; vm_compute; reflexivity.
Defined.

(** ** The end-date prompt *)

Section EndDate.
Context {R : PyRuntime}.

Lemma end_round_eof w :
  stdin w = [] ->
  end_date_round w = (Raise EOFError, emit w [Input end_prompt None]).
Proof. intros H. unfold end_date_round, bind. by rewrite (input_eof _ _ H). Qed.

(** X7: One line decides the end date in one of three ways: a line that is
    empty once stripped is answered by now; a line that [strptime] accepts
    is answered by the parsed date, without the clock being read; any
    other line is answered by the error message, and the prompt starts
    over on the input that follows. *)
Theorem end_date_one_line w line rest :
  stdin w = line :: rest ->
  (strip line = [] ->
   get_end_date w
   = (Ok (clock w (ticks w)),
      emit (tick (consume w))
        (end_header ++ Input end_prompt (Some line) :: using_end (clock w (ticks w)))))
  /\ (forall d, strip line <> [] -> strptime_ymd (strip line) = Some d ->
      get_end_date w
      = (Ok d, emit (consume w)
                 (end_header ++ Input end_prompt (Some line) :: using_end d)))
  /\ (strip line <> [] -> strptime_ymd (strip line) = None ->
      get_end_date w
      = while_true end_date_round
          (emit (consume w)
             (end_header ++ Input end_prompt (Some line) :: invalid_end))).
Proof.
  intros Hin. rewrite get_end_date_eq. repeat split.
  - intros Hs. rewrite while_true_round.
    rewrite (end_round_empty (emit w end_header) line rest Hin Hs).
    f_equal. unfold emit, tick, consume; cbn. by rewrite <- !app_assoc.
  - intros d Hs Hp. rewrite while_true_round.
    rewrite (end_round_date (emit w end_header) line rest d Hin Hs Hp).
    f_equal. unfold emit, consume; cbn. by rewrite <- !app_assoc.
  - intros Hs Hp.
    pose proof (end_round_invalid (emit w end_header) line rest Hin Hs Hp) as Hr.
    rewrite (while_true_retry _ _ _ Hr) by (cbn; by rewrite Hin).
    f_equal. unfold emit, consume; cbn. by rewrite <- !app_assoc.
Qed.

(** X8: Lines that are neither empty nor a date are asked for again, one
    after the other, and the first empty line makes now the end date. *)
Theorem end_date_after_rejected_lines w bad line rest :
  stdin w = bad ++ line :: rest ->
  Forall (fun l => strip l <> [] /\ strptime_ymd (strip l) = None) bad ->
  strip line = [] ->
  get_end_date w
  = (Ok (clock w (ticks w)),
     emit (tick (Nat.iter (S (length bad)) consume w))
       (end_header
        ++ flat_map (fun l => Input end_prompt (Some l) :: invalid_end) bad
        ++ Input end_prompt (Some line) :: using_end (clock w (ticks w)))).
Proof.
  intros Hin Hbad Hs.
  rewrite get_end_date_eq.
  rewrite (end_prompt_retries bad (line :: rest)) by done.
  rewrite while_true_round.
  assert (Hiter : forall n w0, clock (Nat.iter n consume w0) = clock w0
                               /\ ticks (Nat.iter n consume w0) = ticks w0).
  { induction n as [|n IH]; intros w0; [done|]. cbn [Nat.iter]. apply IH. }
  assert (Hst : stdin (emit (Nat.iter (length bad) consume (emit w end_header))
                         (flat_map (fun l => Input end_prompt (Some l) :: invalid_end)
                                   bad)) = line :: rest).
  { rewrite iter_consume_emit. cbn [emit stdin].
    clear -Hin. revert w Hin. induction bad as [|b bad IH]; intros w Hin; [done|].
    cbn [length]. rewrite Nat.iter_succ_r. apply IH. cbn. by rewrite Hin. }
  rewrite (end_round_empty _ line rest Hst Hs).
  rewrite iter_consume_emit. cbn [emit clock ticks].
  destruct (Hiter (length bad) w) as [-> ->].
  f_equal. rewrite consume_emit, tick_emit, consume_emit, tick_emit, !emit_emit.
  cbn [Nat.iter]. by rewrite <- ?app_assoc.
Qed.

(** X9: When every line is rejected the function asks once more, finds
    standard input exhausted and leaves as [EOFError]. *)
Theorem end_date_input_exhausted w :
  Forall (fun l => strip l <> [] /\ strptime_ymd (strip l) = None) (stdin w) ->
  fst (get_end_date w) = Raise EOFError
  /\ stdin (snd (get_end_date w)) = [].
Proof.
  intros Hbad. rewrite get_end_date_eq.
  rewrite (end_prompt_retries (stdin w) []) by (by rewrite ?app_nil_r).
  rewrite while_true_round.
  assert (Hst : stdin (emit (Nat.iter (length (stdin w)) consume (emit w end_header))
                         (flat_map (fun l => Input end_prompt (Some l) :: invalid_end)
                                   (stdin w))) = []).
  { rewrite iter_consume_emit. cbn [emit stdin].
    clear. remember (stdin w) as l eqn:El. revert w El.
    induction l as [|b l IH]; intros w El; [done|].
    cbn [length]. rewrite Nat.iter_succ_r. apply IH. cbn. by rewrite <- El. }
  rewrite (end_round_eof _ Hst). split; [reflexivity|exact Hst].
Qed.

End EndDate.

Section EndDateShape.
Context {R : PyRuntime} {L : PyRuntimeLaws R}.

(** X10: A line of the shape [YYYY-MM-DD] that names a date is answered by
    that date at midnight. *)
Theorem end_date_of_shape w line rest d :
  stdin w = line :: rest ->
  parse_YYYY_MM_DD (strip line) = Some d ->
  get_end_date w
  = (Ok d, emit (consume w) (end_header ++ Input end_prompt (Some line) :: using_end d)).
Proof.
  intros Hin Hp.
  assert (Hne : strip line <> []) by (intros E; by rewrite E in Hp).
  apply strptime_of_shape in Hp.
  rewrite get_end_date_eq, while_true_round.
  rewrite (end_round_date (emit w end_header) line rest d Hin Hne Hp).
  f_equal. by rewrite consume_emit, emit_emit.
Qed.

End EndDateShape.

Lemma end_date_one_line_witness :
  get_end_date (R:=latin1_runtime) (sample_world sample_env [lit "  "] good_network)
  = (Ok sample_now,
     emit (tick (consume (sample_world sample_env [lit "  "] good_network)))
       (end_header ++ Input end_prompt (Some (lit "  ")) :: using_end sample_now))
  /\ get_end_date (R:=latin1_runtime)
       (sample_world sample_env [lit "2024-1-5"] good_network)
     = (Ok (midnight 2024 1 5),
        emit (consume (sample_world sample_env [lit "2024-1-5"] good_network))
          (end_header ++ Input end_prompt (Some (lit "2024-1-5"))
                         :: using_end (midnight 2024 1 5)))
  /\ get_end_date (R:=latin1_runtime)
       (sample_world sample_env [lit "2024-13-40"; []] good_network)
     = while_true (end_date_round (R:=latin1_runtime))
         (emit (consume (sample_world sample_env [lit "2024-13-40"; []] good_network))
            (end_header ++ Input end_prompt (Some (lit "2024-13-40")) :: invalid_end)).
Proof.
  split; [|split].
  - apply (proj1 (end_date_one_line (R:=latin1_runtime)
                    (sample_world sample_env [lit "  "] good_network) (lit "  ") []
                    eq_refl)).
    reflexivity.
  - apply (proj1 (proj2 (end_date_one_line (R:=latin1_runtime)
                    (sample_world sample_env [lit "2024-1-5"] good_network)
                    (lit "2024-1-5") [] eq_refl))).
    + vm_compute. discriminate.
    + reflexivity.
  - apply (proj2 (proj2 (end_date_one_line (R:=latin1_runtime)
                    (sample_world sample_env [lit "2024-13-40"; []] good_network)
                    (lit "2024-13-40") [[]] eq_refl))).
    + vm_compute. discriminate.
    + reflexivity.
Defined.

Lemma end_date_after_rejected_lines_witness :
  get_end_date (R:=latin1_runtime)
    (sample_world sample_env [lit "abc"; lit "2024-13-40"; []] good_network)
  = (Ok sample_now,
     emit (tick (Nat.iter 3 consume
                   (sample_world sample_env [lit "abc"; lit "2024-13-40"; []]
                      good_network)))
       (end_header
        ++ flat_map (fun l => Input end_prompt (Some l) :: invalid_end)
             [lit "abc"; lit "2024-13-40"]
        ++ Input end_prompt (Some []) :: using_end sample_now)).
Proof.
  apply (end_date_after_rejected_lines (R:=latin1_runtime)
           (sample_world sample_env [lit "abc"; lit "2024-13-40"; []] good_network)
           [lit "abc"; lit "2024-13-40"] [] []).
  - reflexivity.
  - repeat constructor; vm_compute; (discriminate || reflexivity).
  - reflexivity.
Defined.

Lemma end_date_input_exhausted_witness :
  fst (get_end_date (R:=latin1_runtime)
         (sample_world sample_env [lit "abc"; [178]] good_network))
  = Raise EOFError
  /\ stdin (snd (get_end_date (R:=latin1_runtime)
                   (sample_world sample_env [lit "abc"; [178]] good_network)))
     = [].
Proof.
  apply (end_date_input_exhausted (R:=latin1_runtime)
           (sample_world sample_env [lit "abc"; [178]] good_network)).
  repeat constructor; vm_compute; (discriminate || reflexivity).
Defined.

Lemma end_date_of_shape_witness :
  get_end_date (R:=latin1_runtime)
    (sample_world sample_env [lit "2024-01-15"] good_network)
  = (Ok (midnight 2024 1 15),
     emit (consume (sample_world sample_env [lit "2024-01-15"] good_network))
       (end_header ++ Input end_prompt (Some (lit "2024-01-15"))
                      :: using_end (midnight 2024 1 15))).
Proof.
  apply (end_date_of_shape (R:=latin1_runtime) (L:=latin1_laws)
           (sample_world sample_env [lit "2024-01-15"] good_network)
           (lit "2024-01-15") []);
    reflexivity.
Defined.

(** ** Answers the fetches do not recover from *)

Section FetchEdges.
Context {R : PyRuntime}.

Lemma subscript_raises v k e :
  subscript v k = Raise e -> e = KeyError k \/ e = TypeError.
Proof.
  destruct v; simpl; try (intros [= <-]; by right).
  destruct (obj_lookup k fields); [discriminate|]. intros [= <-]. by left.
Qed.

Lemma ticket_of_issue_raises self issue e :
  ticket_of_issue self issue = Raise e -> (exists k, e = KeyError k) \/ e = TypeError.
Proof.
  unfold ticket_of_issue.
  repeat match goal with
  | |- result_bind (subscript ?v ?k) _ = _ -> _ =>
      destruct (subscript v k) as [?|x] eqn:?; cbn [result_bind];
      [|intros [= <-];
        match goal with H : subscript _ _ = Raise _ |- _ =>
          destruct (subscript_raises _ _ _ H) as [->| ->]; eauto end]
  end.
  discriminate.
Qed.

Lemma repo_of_raises v e : repo_of v = Raise e -> e = AttributeError.
Proof.
  destruct v; simpl; try (by intros [= <-]).
  pose proof (split_nonempty 47 s) as Hs. unfold last_item.
  destruct (last (split 47 s)) eqn:E; [discriminate|].
  apply last_None in E. done.
Qed.

Lemma pr_of_item_raises item e :
  pr_of_item item = Raise e ->
  (exists k, e = KeyError k) \/ e = TypeError \/ e = AttributeError.
Proof.
  unfold pr_of_item.
  repeat match goal with
  | |- result_bind (subscript ?v ?k) _ = _ -> _ =>
      destruct (subscript v k) as [?|x] eqn:?; cbn [result_bind];
      [|intros [= <-];
        match goal with H : subscript _ _ = Raise _ |- _ =>
          destruct (subscript_raises _ _ _ H) as [->| ->]; eauto end]
  | |- result_bind (repo_of ?v) _ = _ -> _ =>
      destruct (repo_of v) as [?|x] eqn:?; cbn [result_bind];
      [|intros [= <-];
        match goal with H : repo_of _ = Raise _ |- _ =>
          rewrite (repo_of_raises _ _ H); eauto end]
  end.
  discriminate.
Qed.

Lemma result_map_raises {A B} (f : A -> result B) (P : exn -> Prop) l e :
  (forall x e, f x = Raise e -> P e) -> result_map f l = Raise e -> P e.
Proof.
  intros Hf. induction l as [|x l IH]; simpl; [discriminate|].
  destruct (f x) as [y|e'] eqn:E; cbn [result_bind]; [|intros [= <-]; eauto].
  destruct (result_map f l); cbn [result_bind]; [discriminate|].
  intros [= <-]. by apply IH.
Qed.

(** X11: An exception met while the tickets are built from a 2xx answer is
    not a request error: neither fetch catches it, no diagnostic is
    printed, and the fetch raises it to its caller.  An issue without
    ["key"], for one, is a [KeyError]. *)
Theorem malformed_record_propagates self w r fields records e :
  200 <= status_code r < 300 ->
  resp_body r = Json (JObj fields) ->
  (network w (jira_request self) = Responded r ->
   obj_lookup (lit "issues") fields = Some (JArr records) ->
   result_map (ticket_of_issue self) records = Raise e ->
   get_completed_jira_tickets self w = (Raise e, emit w [HttpGet (jira_request self)])
   /\ ((exists k, e = KeyError k) \/ e = TypeError))
  /\ (network w (github_request self) = Responded r ->
      obj_lookup (lit "items") fields = Some (JArr records) ->
      result_map pr_of_item records = Raise e ->
      get_github_pr_reviews self w = (Raise e, emit w [HttpGet (github_request self)])
      /\ ((exists k, e = KeyError k) \/ e = TypeError \/ e = AttributeError)).
Proof.
  intros Hst Hbody. split; intros Hnet Hlook Hmap.
  - assert (He : (exists k, e = KeyError k) \/ e = TypeError).
    { apply (result_map_raises (ticket_of_issue self)
               (fun e => (exists k, e = KeyError k) \/ e = TypeError) records e);
        [apply ticket_of_issue_raises|done]. }
    split; [|done].
    rewrite get_completed_jira_tickets_eq. unfold jira_outcome, outcome.
    rewrite Hnet. unfold tickets_of_response, response_json.
    rewrite raise_for_status_2xx, Hbody by done. cbn [result_bind dict_get].
    rewrite Hlook. cbn [result_bind iterate]. rewrite Hmap.
    by destruct He as [[k ->]| ->].
  - assert (He : (exists k, e = KeyError k) \/ e = TypeError \/ e = AttributeError).
    { apply (result_map_raises pr_of_item
               (fun e => (exists k, e = KeyError k) \/ e = TypeError \/ e = AttributeError)
               records e); [apply pr_of_item_raises|done]. }
    split; [|done].
    rewrite get_github_pr_reviews_eq. unfold github_outcome, outcome.
    rewrite Hnet. unfold prs_of_response, response_json.
    rewrite raise_for_status_2xx, Hbody by done. cbn [result_bind dict_get].
    rewrite Hlook. cbn [result_bind iterate]. rewrite Hmap.
    by destruct He as [[k ->]|[->| ->]].
Qed.

(** X12: A 2xx answer whose JSON body is not an object has no [get]: both
    fetches raise [AttributeError]. *)
Theorem body_not_an_object_raises self w r v :
  200 <= status_code r < 300 ->
  resp_body r = Json v ->
  (forall fields, v <> JObj fields) ->
  (network w (jira_request self) = Responded r ->
   get_completed_jira_tickets self w
   = (Raise AttributeError, emit w [HttpGet (jira_request self)]))
  /\ (network w (github_request self) = Responded r ->
      get_github_pr_reviews self w
      = (Raise AttributeError, emit w [HttpGet (github_request self)])).
Proof.
  intros Hst Hbody Hv.
  assert (Hget : forall k, dict_get v k (JArr []) = Raise AttributeError).
  { intros k. destruct v; try reflexivity. by destruct (Hv fields). }
  split; intros Hnet.
  - rewrite get_completed_jira_tickets_eq. unfold jira_outcome, outcome.
    rewrite Hnet. unfold tickets_of_response, response_json.
    rewrite raise_for_status_2xx, Hbody by done. cbn [result_bind].
    by rewrite Hget.
  - rewrite get_github_pr_reviews_eq. unfold github_outcome, outcome.
    rewrite Hnet. unfold prs_of_response, response_json.
    rewrite raise_for_status_2xx, Hbody by done. cbn [result_bind].
    by rewrite Hget.
Qed.

(** X13: Whatever the answer, a fetch issues exactly one GET, first of all,
    and prints at most one line after it: there is no second attempt. *)
Theorem one_get_per_fetch self w :
  (exists diag,
     snd (get_completed_jira_tickets self w)
     = emit w (HttpGet (jira_request self) :: diag)
     /\ forallb is_print diag = true /\ (length diag <= 1)%nat)
  /\ (exists diag,
        snd (get_github_pr_reviews self w)
        = emit w (HttpGet (github_request self) :: diag)
        /\ forallb is_print diag = true /\ (length diag <= 1)%nat).
Proof.
  split.
  - rewrite get_completed_jira_tickets_eq. eexists. split; [reflexivity|].
    unfold jira_outcome, outcome.
    destruct (network w (jira_request self)) as [r|err|]; [|by cbn; auto..].
    destruct (tickets_of_response self r) as [l|[]]; cbn; auto.
  - rewrite get_github_pr_reviews_eq. eexists. split; [reflexivity|].
    unfold github_outcome, outcome.
    destruct (network w (github_request self)) as [r|err|]; [|by cbn; auto..].
    destruct (prs_of_response r) as [l|[]]; cbn; auto.
Qed.

(** X14: For every string in [repository_url] the [repo] field is defined
    and is the text after its last slash: the whole text when it has no
    slash, the empty text when it ends in one. *)
Theorem repo_is_last_segment u :
  exists seg, repo_of (JStr u) = Ok seg /\ last_segment_of u seg.
Proof.
  assert (H : exists seg, last_segment_of u seg).
  { induction u as [|c u (seg & [Hu|[front Hu]] & Hseg)].
    - exists []. split; [by left|]. apply not_elem_of_nil.
    - destruct (Z.eqb_spec c 47) as [->|Hc].
      + exists seg. split; [|done]. right. exists []. by rewrite Hu.
      + exists (c :: seg). split; [left; by rewrite Hu|].
        rewrite elem_of_cons. intros [E|E]; [congruence|done].
    - exists seg. split; [|done]. right. exists (c :: front). by rewrite Hu. }
  destruct H as [seg Hseg]. exists seg. split; [|done].
  by apply repo_of_last_segment.
Qed.

End FetchEdges.

Lemma malformed_record_propagates_witness :
  get_completed_jira_tickets (R:=latin1_runtime) sample_self
    (sample_world sample_env []
       (fun _ => Responded (ok_response 200
                    [(lit "issues", JArr [JObj [(lit "id", JInt 7)]])])))
  = (Raise (KeyError (lit "key")),
     emit (sample_world sample_env []
             (fun _ => Responded (ok_response 200
                          [(lit "issues", JArr [JObj [(lit "id", JInt 7)]])])))
       [HttpGet (jira_request sample_self)])
  /\ ((exists k, KeyError (lit "key") = KeyError k) \/ KeyError (lit "key") = TypeError).
Proof.
  apply (proj1 (malformed_record_propagates (R:=latin1_runtime) sample_self
                  (sample_world sample_env []
                     (fun _ => Responded (ok_response 200
                                  [(lit "issues", JArr [JObj [(lit "id", JInt 7)]])])))
                  (ok_response 200 [(lit "issues", JArr [JObj [(lit "id", JInt 7)]])])
                  [(lit "issues", JArr [JObj [(lit "id", JInt 7)]])]
                  [JObj [(lit "id", JInt 7)]] (KeyError (lit "key"))
                  ltac:(simpl; lia) eq_refl));
    reflexivity.
Defined.

Lemma body_not_an_object_raises_witness :
  get_github_pr_reviews sample_self
    (sample_world sample_env []
       (fun req => Responded (mk_response 200 (lit "OK") (req_url req) (Json (JArr [])))))
  = (Raise AttributeError,
     emit (sample_world sample_env []
             (fun req => Responded (mk_response 200 (lit "OK") (req_url req)
                                      (Json (JArr [])))))
       [HttpGet (github_request sample_self)]).
Proof.
  apply (proj2 (body_not_an_object_raises (R:=latin1_runtime) sample_self
                  (sample_world sample_env []
                     (fun req => Responded (mk_response 200 (lit "OK") (req_url req)
                                              (Json (JArr [])))))
                  (mk_response 200 (lit "OK") (req_url (github_request sample_self))
                     (Json (JArr [])))
                  (JArr []) ltac:(simpl; lia) eq_refl ltac:(discriminate))).
  reflexivity.
Defined.

(** ** The object the constructor hands out *)

Lemma drop_while_split {A} (p : A -> bool) l :
  exists pre, l = pre ++ drop_while p l /\ forallb p pre = true.
Proof.
  induction l as [|x l (pre & Hl & Hpre)]; [by exists []|].
  simpl. destruct (p x) eqn:E.
  - exists (x :: pre). simpl. by rewrite E, Hpre, <- Hl.
  - by exists [].
Qed.

Lemma rstrip_char_spec c s :
  (exists k, s = rstrip_char c s ++ replicate k c)
  /\ last (rstrip_char c s) <> Some c.
Proof.
  unfold rstrip_char.
  destruct (drop_while_split (fun x => x =? c) (rev s)) as (pre & Hs & Hpre).
  split.
  - exists (length pre).
    assert (Hrep : rev pre = replicate (length pre) c).
    { rewrite <- (forallb_rev _ pre) in Hpre. rewrite <- length_rev.
      induction (rev pre) as [|x l IH]; [done|]. simpl in *.
      apply andb_true_iff in Hpre as [->%Z.eqb_eq Hl]. by rewrite <- IH. }
    rewrite <- Hrep, <- rev_app_distr, <- Hs. by rewrite rev_involutive.
  - destruct (drop_while (fun x => x =? c) (rev s)) as [|x l] eqn:E; [done|].
    apply drop_while_head in E. cbn [rev]. rewrite last_snoc.
    intros [= ->]. by rewrite Z.eqb_refl in E.
Qed.

Section Constructed.
Context {R : PyRuntime}.

(** X15: An object the constructor returns holds all five values, none of
    them empty; its base URL is the one of the environment short of its
    trailing slashes, so it does not end in a slash; the dates are the
    ones given; and nothing was printed on the way. *)
Theorem constructed_summary_is_complete s e w self w' :
  init s e w = (Ok self, w') ->
  (exists u k, environ w !! lit "JIRA_URL" = Some u /\ u = jira_url self ++ replicate k 47)
  /\ jira_url self <> [] /\ last (jira_url self) <> Some 47
  /\ (exists email token gh_token user,
        jira_email self = Some email /\ jira_token self = Some token
        /\ github_token self = Some gh_token /\ github_username self = Some user
        /\ email <> [] /\ token <> [] /\ gh_token <> [] /\ user <> []
        /\ environ w !! lit "JIRA_EMAIL" = Some email
        /\ environ w !! lit "JIRA_API_TOKEN" = Some token
        /\ environ w !! lit "GITHUB_TOKEN" = Some gh_token
        /\ environ w !! lit "GITHUB_USERNAME" = Some user)
  /\ start_date self = s /\ end_date self = e
  /\ w' = emit w [Validated []].
Proof.
  rewrite init_eq.
  destruct (missing_variables (config_of (environ w) s e)) as [|v l] eqn:Hm;
    [|discriminate].
  intros [= <- <-].
  unfold missing_variables, append_if_not, config_of in Hm.
  cbn [jira_url jira_email jira_token github_token github_username] in Hm.
  cbn [config_of jira_url jira_email jira_token github_token github_username
       start_date end_date].
  unfold config_of.
  cbn [jira_url jira_email jira_token github_token github_username
       start_date end_date].
  destruct (environ w !! lit "JIRA_URL") as [u|] eqn:Hu.
  2:{ exfalso. revert Hm. change (rstrip_char 47 []) with (@nil Z). cbn.
      repeat match goal with |- context [truthy_opt ?o] => destruct (truthy_opt o) end;
        cbn; intros H; by destruct (app_cons_not_nil _ _ _ (eq_sym H)) || discriminate. }
  destruct (rstrip_char_spec 47 u) as [[k Hk] Hlast].
  destruct (truthy (rstrip_char 47 u)) eqn:Ht.
  2:{ exfalso. revert Hm. cbn.
      repeat match goal with |- context [truthy_opt ?o] => destruct (truthy_opt o) end;
        cbn; discriminate. }
  destruct (environ w !! lit "JIRA_EMAIL") as [[|c1 m1]|] eqn:H1;
    [exfalso; revert Hm; cbn;
     repeat match goal with |- context [truthy_opt ?o] => destruct (truthy_opt o) end;
     cbn; discriminate| |
     exfalso; revert Hm; cbn;
     repeat match goal with |- context [truthy_opt ?o] => destruct (truthy_opt o) end;
     cbn; discriminate].
  destruct (environ w !! lit "JIRA_API_TOKEN") as [[|c2 m2]|] eqn:H2;
    [exfalso; revert Hm; cbn;
     repeat match goal with |- context [truthy_opt ?o] => destruct (truthy_opt o) end;
     cbn; discriminate| |
     exfalso; revert Hm; cbn;
     repeat match goal with |- context [truthy_opt ?o] => destruct (truthy_opt o) end;
     cbn; discriminate].
  destruct (environ w !! lit "GITHUB_TOKEN") as [[|c3 m3]|] eqn:H3;
    [exfalso; revert Hm; cbn;
     repeat match goal with |- context [truthy_opt ?o] => destruct (truthy_opt o) end;
     cbn; discriminate| |
     exfalso; revert Hm; cbn;
     repeat match goal with |- context [truthy_opt ?o] => destruct (truthy_opt o) end;
     cbn; discriminate].
  destruct (environ w !! lit "GITHUB_USERNAME") as [[|c4 m4]|] eqn:H4;
    [exfalso; revert Hm; cbn; discriminate| |exfalso; revert Hm; cbn; discriminate].
  split; [by exists u, k|]. split; [by destruct (rstrip_char 47 u)|].
  split; [done|]. split; [|done].
  by exists (c1 :: m1), (c2 :: m2), (c3 :: m3), (c4 :: m4).
Qed.

End Constructed.

Lemma constructed_summary_is_complete_witness :
  exists u k,
    environ (sample_world sample_env [] good_network) !! lit "JIRA_URL" = Some u
    /\ u = jira_url (config_of sample_env sample_now sample_now) ++ replicate k 47.
Proof.
  apply (constructed_summary_is_complete sample_now sample_now
           (sample_world sample_env [] good_network)
           (config_of sample_env sample_now sample_now)
           (emit (sample_world sample_env [] good_network) [Validated []])).
  vm_compute. reflexivity.
Defined.

(** ** What the prompts hand on *)

Lemma datetime_sub_valid dt n d :
  valid_datetime dt = true -> datetime_sub dt n = Ok d -> valid_datetime d = true.
Proof.
  intros Hv. unfold valid_datetime in Hv.
  apply andb_true_iff in Hv as [Hdate Htime].
  unfold check_time_fields in Htime. rewrite !andb_true_iff, !Z.leb_le in Htime.
  unfold datetime_sub.
  destruct (_ && _) eqn:Hr; [|discriminate].
  apply andb_true_iff in Hr as [Hlo%Z.ltb_lt Hhi%Z.leb_le].
  pose proof (ord2ymd_date (toordinal dt - n) ltac:(lia)) as Hd.
  destruct (ord2ymd (toordinal dt - n)) as [[y m] d0]. destruct Hd as [_ Hchk].
  intros [= <-]. unfold valid_datetime. cbn. rewrite Hchk.
  unfold check_time_fields. cbn.
  rewrite !andb_true_iff, !Z.leb_le. repeat split; dlia.
Qed.

Lemma while_reading_post {A} (body : M (option A)) (I : world -> Prop)
    (Q : result A -> Prop) :
  Q (Raise EOFError) ->
  (forall w r w', I w -> body w = (r, w') ->
     match r with
     | Ok None => I w'
     | Ok (Some v) => Q (Ok v)
     | Raise e => Q (Raise e)
     end) ->
  forall n w r w', I w -> while_reading n body w = (r, w') -> Q r.
Proof.
  intros Heof Hbody. induction n as [|n IH]; intros w r w' Hi.
  - cbn. unfold raise. by intros [= <- _].
  - cbn [while_reading]. unfold bind.
    destruct (body w) as [[[v|]|e] w1] eqn:Hb; specialize (Hbody _ _ _ Hi Hb).
    + unfold ret. by intros [= <- _].
    + by apply IH.
    + by intros [= <- _].
Qed.

Section PromptResults.
Context {R : PyRuntime}.

Lemma strptime_valid s d : strptime_ymd s = Some d -> valid_datetime d = true.
Proof.
  unfold strptime_ymd.
  destruct (format_matches s) as [|[[[Y m] dd] [|? ?]] ?]; try discriminate.
  destruct (int_of_str Y) as [y|]; [|discriminate].
  destruct (int_of_str m) as [mo|]; [|discriminate].
  destruct (int_of_str dd) as [da|]; [|discriminate]. cbn.
  destruct (check_date_fields y mo da) eqn:E; [|discriminate].
  intros [= <-]. unfold valid_datetime, midnight. cbn. by rewrite E.
Qed.

Lemma start_round_post w r w' :
  (forall k, valid_datetime (clock w k) = true) ->
  start_date_round w = (r, w') ->
  clock w' = clock w
  /\ match r with
     | Ok None => True
     | Ok (Some d) => valid_datetime d = true
     | Raise e => e = EOFError \/ e = ValueError \/ e = OverflowError
     end.
Proof.
  intros Hclock. destruct (stdin w) as [|line rest] eqn:Hin.
  { rewrite (start_round_eof _ Hin). intros [= <- <-]. split; [done|]. by left. }
  destruct (isdigit (strip line)) eqn:Hd.
  - destruct (int_of_str (strip line)) as [n|] eqn:Hn.
    + rewrite (start_round_days _ _ _ _ Hin Hd Hn). cbv zeta.
      unfold timedelta_days.
      destruct (999999999 <? Z.abs n); cbn [result_bind].
      { intros [= <- <-]. split; [done|]. by right; right. }
      destruct (datetime_sub (clock w (ticks w)) n) as [d|e] eqn:Hs.
      * intros [= <- <-]. split; [done|]. by apply (datetime_sub_valid _ _ _ (Hclock _) Hs).
      * intros [= <- <-]. split; [done|]. revert Hs. unfold datetime_sub.
        destruct (_ && _); [by destruct (ord2ymd _) as [[? ?] ?]|].
        intros [= <-]. by right; right.
    + rewrite (start_round_not_int _ _ _ Hin Hd Hn). intros [= <- <-].
      split; [done|]. by right; left.
  - destruct (strptime_ymd (strip line)) as [d|] eqn:Hp.
    + rewrite (start_round_date _ _ _ _ Hin Hd Hp). intros [= <- <-].
      split; [done|]. by apply (strptime_valid _ _ Hp).
    + rewrite (start_round_invalid _ _ _ Hin Hd Hp). by intros [= <- <-].
Qed.

Lemma end_round_post w r w' :
  (forall k, valid_datetime (clock w k) = true) ->
  end_date_round w = (r, w') ->
  clock w' = clock w
  /\ match r with
     | Ok None => True
     | Ok (Some d) => valid_datetime d = true
     | Raise e => e = EOFError
     end.
Proof.
  intros Hclock. destruct (stdin w) as [|line rest] eqn:Hin.
  { rewrite (end_round_eof _ Hin). by intros [= <- <-]. }
  destruct (strip line) as [|c l] eqn:Hs.
  - rewrite (end_round_empty _ _ _ Hin Hs). by intros [= <- <-].
  - assert (Hne : strip line <> []) by (by rewrite Hs).
    destruct (strptime_ymd (strip line)) as [d|] eqn:Hp.
    + rewrite (end_round_date _ _ _ _ Hin Hne Hp). intros [= <- <-].
      split; [done|]. by apply (strptime_valid _ _ Hp).
    + rewrite (end_round_invalid _ _ _ Hin Hne Hp). by intros [= <- <-].
Qed.

(** X16: Whatever is typed, a date a prompt returns is a date of the
    calendar with a time of the day, as long as the clock gives such
    dates: the year lies in 1..9999, the day exists in its month. *)
Theorem prompts_return_valid_dates w :
  (forall k, valid_datetime (clock w k) = true) ->
  (forall d w', get_start_date w = (Ok d, w') -> valid_datetime d = true)
  /\ (forall d w', get_end_date w = (Ok d, w') -> valid_datetime d = true).
Proof.
  intros Hclock. split; intros d w'.
  - rewrite get_start_date_eq. unfold while_true.
    apply (while_reading_post start_date_round
             (fun w0 => forall k, valid_datetime (clock w0 k) = true)
             (fun r => match r with Ok d => valid_datetime d = true | Raise _ => True end));
      [done| |done].
    intros w0 r w1 Hc Hb. destruct (start_round_post _ _ _ Hc Hb) as [Heq Hr].
    destruct r as [[v|]|e]; [done| |done]. by rewrite Heq.
  - rewrite get_end_date_eq. unfold while_true.
    apply (while_reading_post end_date_round
             (fun w0 => forall k, valid_datetime (clock w0 k) = true)
             (fun r => match r with Ok d => valid_datetime d = true | Raise _ => True end));
      [done| |done].
    intros w0 r w1 Hc Hb. destruct (end_round_post _ _ _ Hc Hb) as [Heq Hr].
    destruct r as [[v|]|e]; [done| |done]. by rewrite Heq.
Qed.




End PromptResults.

Lemma prompts_return_valid_dates_witness :
  valid_datetime (mk_datetime 2024 1 1 12 30 45 7) = true.
Proof.
  assert (Hs : get_start_date (R:=latin1_runtime)
                 (sample_world sample_env [lit "abc"; lit "14"] good_network)
               = (Ok (mk_datetime 2024 1 1 12 30 45 7),
                  snd (get_start_date (R:=latin1_runtime)
                         (sample_world sample_env [lit "abc"; lit "14"] good_network))))
    by (vm_compute; reflexivity).
  exact (proj1 (prompts_return_valid_dates (R:=latin1_runtime)
                  (sample_world sample_env [lit "abc"; lit "14"] good_network)
                  (fun k => eq_refl)) _ _ Hs).
Defined.


(** ** Dates as text and back *)

Lemma fuel_log2 n k :
  2 ^ Z.of_nat k <= n -> exists f, Z.to_nat (Z.log2 n + 1) = (S k + f)%nat.
Proof.
  intros H. assert (Hk : Z.of_nat k <= Z.log2 n).
  { rewrite <- (Z.log2_pow2 (Z.of_nat k)) by lia. by apply Z.log2_le_mono. }
  exists (Z.to_nat (Z.log2 n) - k)%nat. lia.
Qed.

Lemma str_of_Z_1 n : 0 <= n < 10 -> str_of_Z n = [48 + n].
Proof.
  intros Hn. unfold str_of_Z.
  destruct (Z.ltb_spec n 0); [lia|].
  assert (Hf : exists f, Z.to_nat (Z.log2 n + 1) = S f).
  { pose proof (Z.log2_nonneg n). exists (Z.to_nat (Z.log2 n)). lia. }
  destruct Hf as [f ->]. cbn [nat_digits].
  destruct (Z.ltb_spec n 10); [|lia]. by rewrite Z.mod_small by lia.
Qed.

Lemma str_of_Z_2 n : 10 <= n < 100 -> str_of_Z n = [48 + n / 10; 48 + n mod 10].
Proof.
  intros Hn. unfold str_of_Z.
  destruct (Z.ltb_spec n 0); [lia|].
  destruct (fuel_log2 n 3 ltac:(simpl; lia)) as [f ->]. cbn [Nat.add nat_digits].
  destruct (Z.ltb_spec n 10); [lia|].
  destruct (Z.ltb_spec (n / 10) 10); [|dlia].
  by rewrite (Z.mod_small (n / 10)) by dlia.
Qed.

Lemma str_of_Z_3 n :
  100 <= n < 1000 -> str_of_Z n = [48 + n / 100; 48 + n / 10 mod 10; 48 + n mod 10].
Proof.
  intros Hn. unfold str_of_Z.
  destruct (Z.ltb_spec n 0); [lia|].
  destruct (fuel_log2 n 6 ltac:(simpl; lia)) as [f ->]. cbn [Nat.add nat_digits].
  destruct (Z.ltb_spec n 10); [lia|].
  destruct (Z.ltb_spec (n / 10) 10); [dlia|].
  destruct (Z.ltb_spec (n / 10 / 10) 10); [|dlia].
  rewrite (Z.mod_small (n / 10 / 10)) by dlia.
  by rewrite Z.div_div by lia.
Qed.

Lemma str_of_Z_4 n :
  1000 <= n < 10000 ->
  str_of_Z n = [48 + n / 1000; 48 + n / 100 mod 10; 48 + n / 10 mod 10; 48 + n mod 10].
Proof.
  intros Hn. unfold str_of_Z.
  destruct (Z.ltb_spec n 0); [lia|].
  destruct (fuel_log2 n 9 ltac:(simpl; lia)) as [f ->]. cbn [Nat.add nat_digits].
  destruct (Z.ltb_spec n 10); [lia|].
  destruct (Z.ltb_spec (n / 10) 10); [dlia|].
  destruct (Z.ltb_spec (n / 10 / 10) 10); [dlia|].
  destruct (Z.ltb_spec (n / 10 / 10 / 10) 10); [|dlia].
  rewrite (Z.mod_small (n / 10 / 10 / 10)) by dlia.
  by rewrite !Z.div_div by lia.
Qed.

Lemma zero_pad_2 n :
  0 <= n < 100 -> zero_pad 2 n = [48 + n / 10; 48 + n mod 10].
Proof.
  intros Hn. unfold zero_pad. cbv zeta.
  destruct (Z.lt_ge_cases n 10).
  - rewrite str_of_Z_1 by lia. cbn. rewrite Z.div_small, Z.mod_small by lia.
    by rewrite Z.add_0_r.
  - by rewrite str_of_Z_2 by lia.
Qed.

Lemma day_at_most_31 y m d : check_date_fields y m d = true -> d <= 31.
Proof.
  intros (Hy & Hm & [_ Hd])%check_date_fields_spec. revert Hd. unfold days_in_month.
  destruct ((_ =? 2) && is_leap _); [intros; lia|].
  assert (Cm : m = 1 \/ m = 2 \/ m = 3 \/ m = 4 \/ m = 5 \/ m = 6 \/ m = 7 \/ m = 8
               \/ m = 9 \/ m = 10 \/ m = 11 \/ m = 12) by lia.
  repeat (destruct Cm as [->|Cm]); try rewrite Cm; cbn; lia.
Qed.

Lemma strftime_ymd_shape dt :
  valid_datetime dt = true -> 1000 <= year dt ->
  strftime_ymd dt
  = [48 + year dt / 1000; 48 + year dt / 100 mod 10; 48 + year dt / 10 mod 10;
     48 + year dt mod 10; 45;
     48 + month dt / 10; 48 + month dt mod 10; 45;
     48 + day dt / 10; 48 + day dt mod 10].
Proof.
  intros Hv Hy4. apply andb_true_iff in Hv as [Hdate0 _].
  pose proof (proj1 (check_date_fields_spec _ _ _) Hdate0) as (Hy & Hm & Hd).
  pose proof (day_at_most_31 _ _ _ Hdate0) as Hd31.
  unfold strftime_ymd, MAXYEAR in *.
  rewrite str_of_Z_4, !zero_pad_2 by lia. reflexivity.
Qed.

(** The text of a date of a year below 1000 has a hyphen among its first
    four characters. *)
Lemma strftime_ymd_short dt :
  valid_datetime dt = true -> year dt < 1000 ->
  exists a b c d rest,
    strftime_ymd dt = a :: b :: c :: d :: rest
    /\ (b = 45 \/ c = 45 \/ d = 45).
Proof.
  intros Hv Hy3. apply andb_true_iff in Hv as [Hdate0 _].
  pose proof (proj1 (check_date_fields_spec _ _ _) Hdate0) as (Hy & Hm & Hd).
  pose proof (day_at_most_31 _ _ _ Hdate0) as Hd31.
  unfold strftime_ymd, MINYEAR in *. rewrite !zero_pad_2 by lia.
  change (lit "-") with [45].
  destruct (Z.lt_ge_cases (year dt) 10); [|destruct (Z.lt_ge_cases (year dt) 100)].
  - rewrite str_of_Z_1 by lia. cbn [app]. repeat eexists. by left.
  - rewrite str_of_Z_2 by lia. cbn [app]. repeat eexists. by right; left.
  - rewrite str_of_Z_3 by lia. cbn [app]. repeat eexists. by right; right.
Qed.

Section RoundTrip.
Context {R : PyRuntime} {L : PyRuntimeLaws R}.

Lemma hyphen_not_decimal : is_decimal 45 = false.
Proof.
  unfold is_decimal. apply bool_decide_eq_false.
  rewrite todecimal_ascii by lia. cbn. by intros [? ?].
Qed.

(** X18: The text the program prints and sends for a date reads back as
    that date when the year has four digits: [strptime] of [strftime] of
    a valid [datetime] of the years 1000 to 9999 is its calendar date at
    midnight.  For the years 1 to 999 the text has a year of fewer than
    four digits, and [strptime] rejects it. *)
Theorem strftime_reads_back dt :
  valid_datetime dt = true ->
  (1000 <= year dt ->
   length (strftime_ymd dt) = 10%nat
   /\ strptime_ymd (strftime_ymd dt) = Some (midnight (year dt) (month dt) (day dt)))
  /\ (year dt < 1000 ->
      (length (strftime_ymd dt) < 10)%nat
      /\ strptime_ymd (strftime_ymd dt) = None).
Proof.
  intros Hv. split.
  - intros Hy4. rewrite (strftime_ymd_shape dt Hv Hy4). split; [reflexivity|].
    apply strptime_of_shape.
    apply andb_true_iff in Hv as [Hdate0 _].
    pose proof (proj1 (check_date_fields_spec _ _ _) Hdate0) as (Hy & Hm & Hd).
    pose proof (day_at_most_31 _ _ _ Hdate0) as Hd31.
    unfold parse_YYYY_MM_DD. cbv zeta. unfold MAXYEAR in *.
    assert (Ey : 1000 * (48 + year dt / 1000 - 48) + 100 * (48 + year dt / 100 mod 10 - 48)
                 + 10 * (48 + year dt / 10 mod 10 - 48) + (48 + year dt mod 10 - 48)
                 = year dt) by dlia.
    assert (Em : 10 * (48 + month dt / 10 - 48) + (48 + month dt mod 10 - 48) = month dt)
      by dlia.
    assert (Ed : 10 * (48 + day dt / 10 - 48) + (48 + day dt mod 10 - 48) = day dt) by dlia.
    rewrite Ey, Em, Ed, Hdate0, Z.eqb_refl.
    match goal with |- context [forallb ?f ?l] =>
      assert (Hdig : forallb f l = true)
    end.
    { cbn [forallb]. unfold between.
      rewrite !andb_true_iff, !Z.leb_le. repeat split; dlia. }
    by rewrite Hdig.
  - intros Hy3. split.
    + pose proof Hv as Hv0. apply andb_true_iff in Hv0 as [Hdate0 _].
      pose proof (proj1 (check_date_fields_spec _ _ _) Hdate0) as (Hy & Hm & Hd).
      pose proof (day_at_most_31 _ _ _ Hdate0) as Hd31.
      unfold strftime_ymd, MINYEAR in *. rewrite !zero_pad_2 by lia.
      destruct (Z.lt_ge_cases (year dt) 10); [|destruct (Z.lt_ge_cases (year dt) 100)].
      * rewrite str_of_Z_1 by lia. cbn. lia.
      * rewrite str_of_Z_2 by lia. cbn. lia.
      * rewrite str_of_Z_3 by lia. cbn. lia.
    + destruct (strftime_ymd_short dt Hv Hy3) as (a & b & c & d & rest & -> & Hh).
      unfold strptime_ymd, format_matches, group_Y.
      assert (Hnot : is_decimal a && is_decimal b && is_decimal c && is_decimal d = false).
      { destruct Hh as [->|[->| ->]]; rewrite hyphen_not_decimal;
          by rewrite ?andb_false_r, ?andb_false_l. }
      by rewrite Hnot.
Qed.

End RoundTrip.

Lemma strftime_reads_back_witness :
  (length (strftime_ymd sample_now) = 10%nat
   /\ strptime_ymd (R:=latin1_runtime) (strftime_ymd sample_now)
      = Some (midnight (year sample_now) (month sample_now) (day sample_now)))
  /\ ((length (strftime_ymd (midnight 900 1 1)) < 10)%nat
      /\ strptime_ymd (R:=latin1_runtime) (strftime_ymd (midnight 900 1 1)) = None).
Proof.
  split.
  - apply (proj1 (strftime_reads_back (R:=latin1_runtime) (L:=latin1_laws) sample_now
                    eq_refl)).
    vm_compute. discriminate.
  - apply (proj2 (strftime_reads_back (R:=latin1_runtime) (L:=latin1_laws)
                    (midnight 900 1 1) eq_refl)).
    reflexivity.
Defined.

(** ** The day a number of days leads to *)

Lemma days_before_year_mono y y' : y <= y' -> days_before_year y <= days_before_year y'.
Proof. intros H. unfold days_before_year. dlia. Qed.

Lemma days_before_month_inj (leap : bool) m d m' d' :
  1 <= m <= 12 -> 1 <= m' <= 12 ->
  1 <= d <= DAYS_IN_MONTH m + (if (m =? 2) && leap then 1 else 0) ->
  1 <= d' <= DAYS_IN_MONTH m' + (if (m' =? 2) && leap then 1 else 0) ->
  DAYS_BEFORE_MONTH m + (if (2 <? m) && leap then 1 else 0) + d
  = DAYS_BEFORE_MONTH m' + (if (2 <? m') && leap then 1 else 0) + d' ->
  m = m' /\ d = d'.
Proof.
  intros Hm Hm'.
  assert (Cm : m = 1 \/ m = 2 \/ m = 3 \/ m = 4 \/ m = 5 \/ m = 6 \/ m = 7 \/ m = 8
               \/ m = 9 \/ m = 10 \/ m = 11 \/ m = 12) by lia.
  assert (Cm' : m' = 1 \/ m' = 2 \/ m' = 3 \/ m' = 4 \/ m' = 5 \/ m' = 6 \/ m' = 7
                \/ m' = 8 \/ m' = 9 \/ m' = 10 \/ m' = 11 \/ m' = 12) by lia.
  clear Hm Hm'.
  destruct leap;
    repeat (destruct Cm as [->|Cm]); try subst m;
    repeat (destruct Cm' as [->|Cm']); try subst m'; cbn; lia.
Qed.

Lemma ymd2ord_inj y m d y' m' d' :
  check_date_fields y m d = true -> check_date_fields y' m' d' = true ->
  ymd2ord y m d = ymd2ord y' m' d' -> y = y' /\ m = m' /\ d = d'.
Proof.
  intros (Hy & Hm & Hd)%check_date_fields_spec (Hy' & Hm' & Hd')%check_date_fields_spec.
  pose proof (days_before_month_range y m d Hm Hd) as Hr.
  pose proof (days_before_month_range y' m' d' Hm' Hd') as Hr'.
  pose proof (days_before_year_succ y) as Hs.
  pose proof (days_before_year_succ y') as Hs'.
  unfold ymd2ord. intros Heq.
  assert (Hyy : y = y').
  { destruct (Z.lt_trichotomy y y') as [Hlt|[->|Hlt]]; [exfalso|done|exfalso].
    - pose proof (days_before_year_mono (y + 1) y' ltac:(lia)). lia.
    - pose proof (days_before_year_mono (y' + 1) y ltac:(lia)). lia. }
  subst y'. split; [done|].
  apply (days_before_month_inj (is_leap y)); try done.
  - revert Hd. unfold days_in_month.
    destruct (Z.eqb_spec m 2) as [->|], (is_leap y); cbn; lia.
  - revert Hd'. unfold days_in_month.
    destruct (Z.eqb_spec m' 2) as [->|], (is_leap y); cbn; lia.
  - unfold days_before_month in Heq. lia.
Qed.

Lemma datetime_sub_target dt n target :
  valid_datetime dt = true -> valid_datetime target = true ->
  toordinal target = toordinal dt - n ->
  hour target = hour dt -> minute target = minute dt -> second target = second dt ->
  microsecond target = microsecond dt ->
  datetime_sub dt n = Ok target.
Proof.
  intros Hv Ht Hord Hh Hmi Hs Hus.
  pose proof Hv as Hv0. unfold valid_datetime in Hv.
  apply andb_true_iff in Hv as [Hdate Htime].
  unfold check_time_fields in Htime. rewrite !andb_true_iff, !Z.leb_le in Htime.
  apply andb_true_iff in Ht as [Hdate' _].
  pose proof (ymd2ord_bounds _ _ _ Hdate') as Hb. fold (toordinal target) in Hb.
  unfold datetime_sub. rewrite <- Hord.
  assert (Hr : (0 <? toordinal target) && (toordinal target <=? MAXORDINAL) = true).
  { apply andb_true_iff. split; [apply Z.ltb_lt|apply Z.leb_le]; lia. }
  rewrite Hr.
  pose proof (ord2ymd_date (toordinal target) ltac:(lia)) as Hd.
  destruct (ord2ymd (toordinal target)) as [[y m] d]. destruct Hd as [Hy Hchk].
  destruct (ymd2ord_inj _ _ _ _ _ _ Hchk Hdate' Hy) as (-> & -> & ->).
  destruct target as [ty tm td th tmi ts tus]. cbn in *. subst.
  f_equal. f_equal; dlia.
Qed.

Section ThatDay.
Context {R : PyRuntime} {L : PyRuntimeLaws R}.

(** X19: The start date for [n] days back is the one calendar day [n] days
    before today, at the time of day of now; for a line that denotes 0
    it is now itself. *)
Theorem start_date_is_that_day w line rest n target :
  stdin w = line :: rest ->
  valid_datetime (clock w (ticks w)) = true ->
  decimal_value (strip line) = Some n ->
  within_digit_limit (strip line) ->
  valid_datetime target = true ->
  toordinal target = toordinal (clock w (ticks w)) - n ->
  hour target = hour (clock w (ticks w)) ->
  minute target = minute (clock w (ticks w)) ->
  second target = second (clock w (ticks w)) ->
  microsecond target = microsecond (clock w (ticks w)) ->
  get_start_date w
  = (Ok target, emit (tick (consume w))
                  (start_header ++ Input start_prompt (Some line) :: using_start target)).
Proof.
  intros Hin Hv Hn Hlim Ht Hord Hh Hmi Hs Hus.
  pose proof (decimal_value_nonneg _ _ Hn) as H0.
  pose proof (datetime_sub_target _ n _ Hv Ht Hord Hh Hmi Hs Hus) as Hsub.
  rewrite get_start_date_eq, while_true_round.
  rewrite (start_round_days (emit w start_header) line rest n Hin
             (isdigit_decimal _ _ Hn) (int_of_str_decimal _ _ Hn Hlim)).
  cbv zeta. cbn [emit clock ticks].
  apply andb_true_iff in Ht as [Hdate' _].
  pose proof (ymd2ord_bounds _ _ _ Hdate') as Hb. fold (toordinal target) in Hb.
  apply andb_true_iff in Hv as [Hdate _].
  pose proof (ymd2ord_bounds _ _ _ Hdate) as Hb0.
  fold (toordinal (clock w (ticks w))) in Hb0.
  unfold timedelta_days, MAXORDINAL in *.
  destruct (Z.ltb_spec 999999999 (Z.abs n)); [lia|]. cbn [result_bind].
  rewrite Hsub. f_equal. unfold emit, tick, consume; cbn. by rewrite <- !app_assoc.
Qed.

End ThatDay.

Lemma start_date_is_that_day_witness :
  get_start_date (R:=latin1_runtime) (sample_world sample_env [lit "14"] good_network)
  = (Ok (mk_datetime 2024 1 1 12 30 45 7),
     emit (tick (consume (sample_world sample_env [lit "14"] good_network)))
       (start_header ++ Input start_prompt (Some (lit "14"))
          :: using_start (mk_datetime 2024 1 1 12 30 45 7))).
Proof.
  apply (start_date_is_that_day (R:=latin1_runtime) (L:=latin1_laws)
           (sample_world sample_env [lit "14"] good_network) (lit "14") [] 14
           (mk_datetime 2024 1 1 12 30 45 7)).
  - reflexivity.
  - reflexivity.
  - reflexivity.
  - right. vm_compute. lia.
  - reflexivity.
  - reflexivity.
  - reflexivity.
  - reflexivity.
  - reflexivity.
  - reflexivity.
Defined.

(** ** The two modes of the report *)

Lemma filter_prints l :
  forallb is_print l = true -> List.filter (fun e => negb (is_print e)) l = [].
Proof.
  induction l as [|x l IH]; simpl; [done|].
  intros [Hx Hl]%andb_true_iff. rewrite Hx. by apply IH.
Qed.

Section Modes.
Context {R : PyRuntime}.

(** What a report leaves besides its lines: the GET of the issue
    tracker and, unless the first fetch raised, the GET of the code host. *)
Lemma report_requests (concise : bool) self w :
  let m := if concise then print_concise_summary self else print_summary self in
  fst (m w)
  = match fst (jira_outcome self w) with
    | Raise e => Raise e
    | Ok _ => match fst (github_outcome self w) with
              | Raise e => Raise e
              | Ok _ => Ok tt
              end
    end
  /\ List.filter (fun e => negb (is_print e)) (trace (snd (m w)))
     = List.filter (fun e => negb (is_print e)) (trace w)
       ++ HttpGet (jira_request self)
          :: match fst (jira_outcome self w) with
             | Raise _ => []
             | Ok _ => [HttpGet (github_request self)]
             end.
Proof.
  pose proof (outcome_prints jira_diagnostic (tickets_of_response self)
                (network w (jira_request self)) (fun _ => eq_refl)) as Hd1.
  pose proof (outcome_prints github_diagnostic prs_of_response
                (network w (github_request self)) (fun _ => eq_refl)) as Hd2.
  fold (jira_outcome self w) in Hd1. fold (github_outcome self w) in Hd2.
  apply filter_prints in Hd1, Hd2.
  destruct concise; cbv zeta.
  - rewrite print_concise_summary_trace. cbv zeta.
    destruct (fst (jira_outcome self w)) as [tickets|x].
    + pose proof (filter_prints _ (concise_ticket_section_prints tickets)) as Hs1.
      destruct (fst (github_outcome self w)) as [prs|x]; (split; [reflexivity|]);
        cbn [snd emit trace]; rewrite ?List.filter_app; cbn [List.filter is_print negb app];
        rewrite ?List.filter_app; cbn [List.filter is_print negb app];
        rewrite ?Hd1, ?Hd2, ?Hs1,
          ?(filter_prints _ (concise_pr_section_prints _)); reflexivity.
    + split; [reflexivity|]. cbn [snd emit trace].
      rewrite ?List.filter_app. cbn [List.filter is_print negb app]. by rewrite Hd1.
  - rewrite print_summary_trace. cbv zeta.
    assert (Hh : List.filter (fun e => negb (is_print e)) (full_header self) = [])
      by reflexivity.
    assert (Hp : List.filter (fun e => negb (is_print e)) full_pr_header = [])
      by reflexivity.
    assert (Hf : List.filter (fun e => negb (is_print e)) full_footer = [])
      by reflexivity.
    destruct (fst (jira_outcome self w)) as [tickets|x].
    + pose proof (filter_prints _ (full_ticket_section_prints tickets)) as Hs1.
      destruct (fst (github_outcome self w)) as [prs|x]; (split; [reflexivity|]);
        cbn [snd emit trace]; rewrite ?List.filter_app; cbn [List.filter is_print negb app];
        rewrite ?List.filter_app; cbn [List.filter is_print negb app];
        rewrite ?Hd1, ?Hd2, ?Hs1, ?Hh, ?Hp, ?Hf,
          ?(filter_prints _ (full_pr_section_prints _)); reflexivity.
    + split; [reflexivity|]. cbn [snd emit trace].
      rewrite ?List.filter_app. cbn [List.filter is_print negb app].
      by rewrite Hh, Hd1.
Qed.

(** X20: The flag [--concise] changes printed lines and nothing else: with
    and without it a run reads the same input, validates the same
    configuration, makes the same requests in the same order, and ends
    with the same status. *)
Theorem concise_flag_changes_lines_only w :
  fst (run true w) = fst (run false w)
  /\ List.filter (fun e => negb (is_print e)) (snd (run true w))
     = List.filter (fun e => negb (is_print e)) (snd (run false w)).
Proof.
  unfold run. rewrite !main_eq.
  destruct (get_start_date w) as [[s|x] w1]; [|done].
  destruct (get_end_date w1) as [[e|x] w2]; [|done].
  destruct (init s e w2) as [[self|x] w3]; [|done].
  destruct (report_requests true self w3) as [Hr1 Ht1].
  destruct (report_requests false self w3) as [Hr2 Ht2].
  cbv zeta in *.
  destruct (print_concise_summary self w3) as [r1 v1].
  destruct (print_summary self w3) as [r2 v2].
  cbn [fst snd] in *. rewrite Hr1, Hr2, Ht1, Ht2. done.
Qed.

(** X21: An exception out of a fetch ends the report where it stands: after
    the first fetch the second request is never made, after the second
    the closing lines are never printed. *)
Theorem raising_fetch_ends_report self w e :
  (fst (get_completed_jira_tickets self w) = Raise e ->
   print_summary self w
   = (Raise e, emit w (full_header self ++ [HttpGet (jira_request self)]))
   /\ print_concise_summary self w
      = (Raise e, emit w [Print (lit "Completed JIRA Tickets:");
                          HttpGet (jira_request self)]))
  /\ (forall tickets,
        fst (get_completed_jira_tickets self w) = Ok tickets ->
        fst (get_github_pr_reviews self w) = Raise e ->
        fst (print_summary self w) = Raise e
        /\ fst (print_concise_summary self w) = Raise e
        /\ last (trace (snd (print_summary self w))) = Some (HttpGet (github_request self))
        /\ last (trace (snd (print_concise_summary self w)))
           = Some (HttpGet (github_request self))).
Proof.
  assert (Hnil : forall A d (rec : response -> result (list A)) res,
            fst (outcome d rec res) = Raise e -> snd (outcome d rec res) = []).
  { intros A d rec [r|err|]; cbn; [|discriminate|done].
    by destruct (rec r) as [l|[]]. }
  rewrite fst_get_completed_jira_tickets, fst_get_github_pr_reviews.
  rewrite print_summary_trace, print_concise_summary_trace. cbv zeta.
  split.
  - intros Hj. unfold jira_outcome in *. rewrite (Hnil _ _ _ _ Hj), Hj. done.
  - intros tickets Hj Hg. unfold github_outcome in *.
    rewrite Hj, (Hnil _ _ _ _ Hg), Hg. cbn [fst snd emit trace].
    repeat split; rewrite ?app_nil_r, !last_app; reflexivity.
Qed.

End Modes.

Lemma raising_fetch_ends_report_witness :
  print_summary (R:=latin1_runtime) sample_self
    (sample_world sample_env []
       (fun _ => Responded (ok_response 200 [(lit "issues", JInt 3)])))
  = (Raise TypeError,
     emit (sample_world sample_env []
             (fun _ => Responded (ok_response 200 [(lit "issues", JInt 3)])))
       (full_header sample_self ++ [HttpGet (jira_request sample_self)])).
Proof.
  apply (proj1 (raising_fetch_ends_report (R:=latin1_runtime) sample_self
                  (sample_world sample_env []
                     (fun _ => Responded (ok_response 200 [(lit "issues", JInt 3)])))
                  TypeError)).
  vm_compute. reflexivity.
Defined.

(** ** From the prompts to the requests *)

Section Flow.
Context {R : PyRuntime}.

Lemma decoded_raises {B} (data : json) key (build : json -> result B) x :
  (forall item y, build item = Raise y ->
     (exists k, y = KeyError k) \/ y = TypeError \/ y = AttributeError) ->
  result_bind (result_bind (dict_get data key (JArr [])) iterate)
    (fun items => result_map build items) = Raise x ->
  (exists k, x = KeyError k) \/ x = TypeError \/ x = AttributeError.
Proof.
  intros Hbuild.
  destruct (dict_get data key (JArr [])) as [l|y] eqn:Hg; cbn [result_bind].
  2:{ intros [= <-]. destruct data; try (injection Hg as <-; eauto).
      cbn in Hg. by destruct (obj_lookup _ _). }
  destruct (iterate l) as [items|y] eqn:Hi; cbn [result_bind].
  2:{ intros [= <-]. destruct l; cbn in Hi; try discriminate; injection Hi as <-; eauto. }
  apply (result_map_raises build
           (fun e => (exists k, e = KeyError k) \/ e = TypeError \/ e = AttributeError)
           items x Hbuild).
Qed.

Lemma tickets_of_response_raises self r x :
  tickets_of_response self r = Raise x ->
  (exists msg, x = RequestException msg)
  \/ raised_by (Responded r) x.
Proof.
  unfold tickets_of_response, raise_for_status, response_json, raised_by.
  destruct (_ && _); [intros [= <-]; eauto|].
  destruct (_ && _); [intros [= <-]; eauto|]. cbn [result_bind].
  destruct (resp_body r) as [v|err| |] eqn:Hb; cbn [result_bind];
    [|intros [= <-]; eauto|intros [= <-]; right; right; left; eauto
     |intros [= <-]; right; right; right; left; eauto].
  intros Hx. right. do 3 right. exists r, v. split; [done|]. split; [done|].
  apply (decoded_raises v (lit "issues") (ticket_of_issue self)); [|done].
  intros item y Ht. destruct (ticket_of_issue_raises _ _ _ Ht) as [?| ->]; eauto.
Qed.

Lemma prs_of_response_raises r x :
  prs_of_response r = Raise x ->
  (exists msg, x = RequestException msg)
  \/ raised_by (Responded r) x.
Proof.
  unfold prs_of_response, raise_for_status, response_json, raised_by.
  destruct (_ && _); [intros [= <-]; eauto|].
  destruct (_ && _); [intros [= <-]; eauto|]. cbn [result_bind].
  destruct (resp_body r) as [v|err| |] eqn:Hb; cbn [result_bind];
    [|intros [= <-]; eauto|intros [= <-]; right; right; left; eauto
     |intros [= <-]; right; right; right; left; eauto].
  intros Hx. right. do 3 right. exists r, v. split; [done|]. split; [done|].
  apply (decoded_raises v (lit "items") pr_of_item); [|done].
  intros item y Ht. by apply (pr_of_item_raises _ _ Ht).
Qed.

Lemma outcome_raises {A} d (records : response -> result (list A)) res x :
  (forall r y, records r = Raise y ->
     (exists msg, y = RequestException msg) \/ raised_by (Responded r) y) ->
  fst (outcome d records res) = Raise x ->
  raised_by res x.
Proof.
  intros Hrec. destruct res as [r|err|]; cbn; [|discriminate|].
  - destruct (records r) as [l|y] eqn:E; [discriminate|].
    destruct (Hrec _ _ E) as [[msg ->]|H]; [discriminate|].
    destruct y; try discriminate; by intros [= <-].
  - intros [= <-]. by left.
Qed.

Lemma raised_by_exit res x : raised_by res x -> exit_status (Raise x) = 1.
Proof.
  intros [[_ ->]|[(r & _ & _ & ->)|[(r & _ & _ & ->)|(r & v & _ & _ & H)]]]; try done.
  by destruct H as [[k ->]|[->| ->]].
Qed.


(** X23: A run whose prompts return [s] and [e], whose configuration is
    complete and whose lines standard output encodes builds its two
    requests from these two dates and from the environment it started in,
    and sends them to the network it started with, the issue tracker
    first.  Apart from printed lines, the run then consists of the
    prompts, the validation and these requests; it ends with status 0
    when both fetches return, with status 1 when one raises. *)
Theorem run_uses_prompted_dates (concise : bool) w s w1 e w2 :
  get_start_date w = (Ok s, w1) ->
  get_end_date w1 = (Ok e, w2) ->
  missing_variables (config_of (environ w) s e) = [] ->
  lines_encodable (snd (run concise w)) = true ->
  let self := config_of (environ w) s e in
  let answer1 := outcome jira_diagnostic (tickets_of_response self)
                   (network w (jira_request self)) in
  let answer2 := outcome github_diagnostic prs_of_response
                   (network w (github_request self)) in
  List.filter (fun ev => negb (is_print ev)) (snd (run concise w))
  = List.filter (fun ev => negb (is_print ev)) (trace w2)
    ++ Validated []
       :: HttpGet (jira_request self)
       :: match fst answer1 with
          | Raise _ => []
          | Ok _ => [HttpGet (github_request self)]
          end
  /\ fst (run concise w)
     = match fst answer1, fst answer2 with
       | Ok _, Ok _ => 0
       | _, _ => 1
       end.
Proof.
  intros Hs He Hm _. cbv zeta.
  destruct (get_start_date_console _ _ _ Hs) as (Henv1 & Hnet1 & _).
  destruct (get_end_date_console _ _ _ He) as (Henv2 & Hnet2 & _).
  unfold run. rewrite main_eq, Hs, He, init_eq, Henv2, Henv1, Hm.
  set (self := config_of (environ w) s e).
  assert (Hj : jira_outcome self (emit w2 [Validated []])
               = outcome jira_diagnostic (tickets_of_response self)
                   (network w (jira_request self))).
  { unfold jira_outcome. cbn [emit network]. by rewrite Hnet2, Hnet1. }
  assert (Hg : github_outcome self (emit w2 [Validated []])
               = outcome github_diagnostic prs_of_response
                   (network w (github_request self))).
  { unfold github_outcome. cbn [emit network]. by rewrite Hnet2, Hnet1. }
  destruct (report_requests concise self (emit w2 [Validated []])) as [Hr Ht].
  cbv zeta in Hr, Ht. rewrite Hj, Hg in Hr. rewrite Hj in Ht.
  pose proof (outcome_raises jira_diagnostic (tickets_of_response self)
                (network w (jira_request self))) as Hx1.
  pose proof (outcome_raises github_diagnostic prs_of_response
                (network w (github_request self))) as Hx2.
  destruct ((if concise then print_concise_summary self else print_summary self)
              (emit w2 [Validated []])) as [r v] eqn:Hrep.
  replace (if concise then print_concise_summary self (emit w2 [Validated []])
           else print_summary self (emit w2 [Validated []])) with (r, v)
    by (rewrite <- Hrep; by destruct concise).
  cbn [fst snd] in *. split.
  - rewrite Ht. cbn [emit trace]. rewrite List.filter_app. cbn [List.filter is_print negb].
    by rewrite <- app_assoc.
  - rewrite Hr.
    destruct (fst (outcome jira_diagnostic _ _)) as [tickets|x].
    + destruct (fst (outcome github_diagnostic _ _)) as [prs|x]; [done|].
      apply (raised_by_exit _ _ (Hx2 x prs_of_response_raises eq_refl)).
    + apply (raised_by_exit _ _ (Hx1 x (tickets_of_response_raises self) eq_refl)).
Qed.

End Flow.


Lemma run_uses_prompted_dates_witness :
  fst (run (R:=latin1_runtime) true
         (sample_world sample_env [lit "2024-01-01"; lit "2024-01-15"] good_network))
  = match
      fst (outcome jira_diagnostic
             (tickets_of_response (R:=latin1_runtime)
                (config_of sample_env (midnight 2024 1 1) (midnight 2024 1 15)))
             (good_network
                (jira_request
                   (config_of sample_env (midnight 2024 1 1) (midnight 2024 1 15))))),
      fst (outcome github_diagnostic prs_of_response
             (good_network
                (github_request
                   (config_of sample_env (midnight 2024 1 1) (midnight 2024 1 15)))))
    with
    | Ok _, Ok _ => 0
    | _, _ => 1
    end.
Proof.
  assert (Hs : get_start_date (R:=latin1_runtime)
                 (sample_world sample_env [lit "2024-01-01"; lit "2024-01-15"] good_network)
               = (Ok (midnight 2024 1 1),
                  snd (get_start_date (R:=latin1_runtime)
                         (sample_world sample_env [lit "2024-01-01"; lit "2024-01-15"]
                            good_network))))
    by (vm_compute; reflexivity).
  assert (He : get_end_date (R:=latin1_runtime)
                 (snd (get_start_date (R:=latin1_runtime)
                         (sample_world sample_env [lit "2024-01-01"; lit "2024-01-15"]
                            good_network)))
               = (Ok (midnight 2024 1 15),
                  snd (get_end_date (R:=latin1_runtime)
                         (snd (get_start_date (R:=latin1_runtime)
                                 (sample_world sample_env
                                    [lit "2024-01-01"; lit "2024-01-15"] good_network))))))
    by (vm_compute; reflexivity).
  assert (Hm : missing_variables
                 (config_of
                    (environ (sample_world sample_env [lit "2024-01-01"; lit "2024-01-15"]
                                good_network))
                    (midnight 2024 1 1) (midnight 2024 1 15)) = [])
    by (vm_compute; reflexivity).
  assert (Hl : lines_encodable
                 (snd (run (R:=latin1_runtime) true
                         (sample_world sample_env [lit "2024-01-01"; lit "2024-01-15"]
                            good_network))) = true)
    by (vm_compute; reflexivity).
  exact (proj2 (run_uses_prompted_dates (R:=latin1_runtime) true _ _ _ _ _ Hs He Hm Hl)).
Defined.

Section SameDate.
Context {R : PyRuntime} {L : PyRuntimeLaws R}.

(** X24: A line that [strptime] takes for a date gets the same answer from
    both prompts, the parsed date, from one round and without the clock
    being read: the start prompt never takes such a line for a number of
    days. *)
Theorem prompts_agree_on_dates w line rest d :
  stdin w = line :: rest ->
  strptime_ymd (strip line) = Some d ->
  get_start_date w
  = (Ok d, emit (consume w)
             (start_header ++ Input start_prompt (Some line) :: using_start d))
  /\ get_end_date w
     = (Ok d, emit (consume w) (end_header ++ Input end_prompt (Some line) :: using_end d)).
Proof.
  intros Hin Hp. split.
  - rewrite get_start_date_eq, while_true_round.
    rewrite (start_round_date (emit w start_header) line rest d Hin
               (strptime_not_isdigit _ _ Hp) Hp).
    f_equal. by rewrite consume_emit, emit_emit.
  - assert (Hne : strip line <> []) by (intros E; by rewrite E in Hp).
    rewrite get_end_date_eq, while_true_round.
    rewrite (end_round_date (emit w end_header) line rest d Hin Hne Hp).
    f_equal. by rewrite consume_emit, emit_emit.
Qed.

End SameDate.

Lemma prompts_agree_on_dates_witness :
  get_start_date (R:=latin1_runtime) (sample_world sample_env [lit " 2024-2-9 "] good_network)
  = (Ok (midnight 2024 2 9),
     emit (consume (sample_world sample_env [lit " 2024-2-9 "] good_network))
       (start_header ++ Input start_prompt (Some (lit " 2024-2-9 "))
          :: using_start (midnight 2024 2 9)))
  /\ get_end_date (R:=latin1_runtime)
       (sample_world sample_env [lit " 2024-2-9 "] good_network)
     = (Ok (midnight 2024 2 9),
        emit (consume (sample_world sample_env [lit " 2024-2-9 "] good_network))
          (end_header ++ Input end_prompt (Some (lit " 2024-2-9 "))
             :: using_end (midnight 2024 2 9))).
Proof.
  apply (prompts_agree_on_dates (R:=latin1_runtime) (L:=latin1_laws)
           (sample_world sample_env [lit " 2024-2-9 "] good_network)
           (lit " 2024-2-9 ") [] (midnight 2024 2 9)).
  - reflexivity.
  - vm_compute. reflexivity.
Defined.
